(** * ModernOpenGL: the resource factory and the deferred frame loop of
    [src/source.cpp], embedded as a program over an OpenGL call trace.

    The program talks to collaborators it does not define: the OpenGL
    driver, the file system with the stb_image decoder, SDL and glm.  What
    they answer is gathered in a [world] record the functions take; the
    calls the program issues are recorded, in order, in the [calls] field
    of the state, and what it prints to [std::clog] in the [clog] field.

    What the embedding takes for granted:
    - an OpenGL call records an error and returns; it never throws;
    - the driver hands out the names 1, 2, 3, ... in each of its name
      spaces, so two live objects of one kind never share a name;
    - [stbi_load] leaves [x], [y] and [c] untouched when it fails;
    - computing with a value that was never written (an entry of an
      array, a [bool] that is branched on) and writing outside an array
      end the run with the outcome [UB];
    - an [int] that was never written and is only handed on to the
      driver, as [x] and [y] of the two file loaders are after a decode
      that failed, is handed on with the value it happens to hold, which
      the world supplies ([indeterminate]): the loaders have no check of
      the decoder's answer, and the calls are issued;
    - a call whose pointer argument stands for fewer bytes than the sizes
      it declares is recorded like any other; what the driver then reads
      is outside the embedding;
    - the floating-point work of [main] (camera, orbits, projection) is
      not evaluated: its results are inputs of the run;
    - window, keyboard and frame-time code issues no OpenGL call and is
      left out of [main], which follows the call trace; the frame-time
      and keyboard code is embedded on its own, after [main].  The
      keyboard code reads arrays [main] never initialises (see
      [update_keys]): by the letter of the language every run that
      enters the loop is undefined, and what [main] describes is the
      calls of the program as compiled, for which the content of the
      arrays only feeds the camera, an input here;
    - the build is the release build ([_DEBUG] undefined). *)

From Stdlib Require Import ZArith String Ascii List Lia Bool.
From Stdlib Require Import Floats.SpecFloat.
From stdpp Require Import base numbers list strings gmap.

Open Scope Z_scope.

(** ** Scalar types *)

Abbreviation GLuint := Z (only parsing).
Abbreviation GLint := Z (only parsing).
Abbreviation GLenum := Z (only parsing).
Abbreviation GLsizei := Z (only parsing).
Abbreviation GLbitfield := Z (only parsing).
Abbreviation GLboolean := bool (only parsing).
(** [float] and [double] values are carried as IEEE-754 data; the program's
    own arithmetic on them is never evaluated here. *)
Abbreviation GLfloat := spec_float (only parsing).
Abbreviation GLdouble := spec_float (only parsing).
Abbreviation uint8_t := Byte.byte (only parsing).

(** [GLenum] and [GLuint] arithmetic is unsigned 32-bit. *)
Definition wrap32 (z : Z) : Z := z mod 2 ^ 32.

(** The value of a [uint8_t]. *)
Definition uint8_value (b : uint8_t) : Z := Z.of_N (Byte.to_N b).

(** The newline character of the C++ string literals. *)
Definition nl : string := String (ascii_of_nat 10) EmptyString.

(** ** OpenGL constants (values of the OpenGL 4.5 registry, as in glad.h) *)

Module GLconst.
Definition GL_NONE : GLenum := 0.
Definition GL_FALSE : GLint := 0.
Definition GL_TRUE : GLint := 1.
Definition GL_TRIANGLES : GLenum := 0x0004.
Definition GL_UNSIGNED_BYTE : GLenum := 0x1401.
Definition GL_INT : GLenum := 0x1404.
Definition GL_UNSIGNED_INT : GLenum := 0x1405.
Definition GL_FLOAT : GLenum := 0x1406.
Definition GL_DYNAMIC_STORAGE_BIT : GLbitfield := 0x0100.
Definition GL_PROGRAM_SEPARABLE : GLenum := 0x8258.
Definition GL_LINK_STATUS : GLenum := 0x8B82.
Definition GL_VERTEX_SHADER : GLenum := 0x8B31.
Definition GL_FRAGMENT_SHADER : GLenum := 0x8B30.
Definition GL_VERTEX_SHADER_BIT : GLbitfield := 0x1.
Definition GL_FRAGMENT_SHADER_BIT : GLbitfield := 0x2.
Definition GL_TEXTURE_2D : GLenum := 0x0DE1.
Definition GL_TEXTURE_CUBE_MAP : GLenum := 0x8513.
Definition GL_TEXTURE_MAG_FILTER : GLenum := 0x2800.
Definition GL_TEXTURE_MIN_FILTER : GLenum := 0x2801.
Definition GL_TEXTURE_WRAP_S : GLenum := 0x2802.
Definition GL_TEXTURE_WRAP_T : GLenum := 0x2803.
Definition GL_TEXTURE_WRAP_R : GLenum := 0x8072.
Definition GL_NEAREST : GLenum := 0x2600.
Definition GL_LINEAR : GLenum := 0x2601.
Definition GL_REPEAT : GLenum := 0x2901.
Definition GL_COLOR : GLenum := 0x1800.
Definition GL_DEPTH : GLenum := 0x1801.
Definition GL_RED : GLenum := 0x1903.
Definition GL_RGB : GLenum := 0x1907.
Definition GL_RGBA : GLenum := 0x1908.
Definition GL_RG : GLenum := 0x8227.
Definition GL_R8 : GLenum := 0x8229.
Definition GL_RG8 : GLenum := 0x822B.
Definition GL_RGB8 : GLenum := 0x8051.
Definition GL_RGBA8 : GLenum := 0x8058.
Definition GL_RGBA16F : GLenum := 0x881A.
Definition GL_RGB16F : GLenum := 0x881B.
Definition GL_DEPTH_COMPONENT32 : GLenum := 0x81A7.
Definition GL_COLOR_ATTACHMENT0 : GLenum := 0x8CE0.
Definition GL_DEPTH_ATTACHMENT : GLenum := 0x8D00.
Definition GL_FRAMEBUFFER : GLenum := 0x8D40.
Definition GL_FRAMEBUFFER_COMPLETE : GLenum := 0x8CD5.
Definition GL_COLOR_BUFFER_BIT : GLbitfield := 0x4000.
Definition GL_CULL_FACE : GLenum := 0x0B44.
Definition GL_DEPTH_TEST : GLenum := 0x0B71.
Definition GL_PROGRAM_POINT_SIZE : GLenum := 0x8642.
End GLconst.
Export GLconst.

(** ** glm value types

    A matrix is stored as its columns, and [value_ptr] exposes the storage
    in that order; a quaternion is stored x, y, z, w. *)

Module glm.
Record vec2 := mk_vec2 { v2_x : GLfloat; v2_y : GLfloat }.
Record vec3 := mk_vec3 { v3_x : GLfloat; v3_y : GLfloat; v3_z : GLfloat }.
Record vec4 := mk_vec4 { v4_x : GLfloat; v4_y : GLfloat; v4_z : GLfloat; v4_w : GLfloat }.
Record ivec2 := mk_ivec2 { i2_x : GLint; i2_y : GLint }.
Record ivec3 := mk_ivec3 { i3_x : GLint; i3_y : GLint; i3_z : GLint }.
Record ivec4 := mk_ivec4 { i4_x : GLint; i4_y : GLint; i4_z : GLint; i4_w : GLint }.
Record uvec2 := mk_uvec2 { u2_x : GLuint; u2_y : GLuint }.
Record uvec3 := mk_uvec3 { u3_x : GLuint; u3_y : GLuint; u3_z : GLuint }.
Record uvec4 := mk_uvec4 { u4_x : GLuint; u4_y : GLuint; u4_z : GLuint; u4_w : GLuint }.
Record quat := mk_quat { q_x : GLfloat; q_y : GLfloat; q_z : GLfloat; q_w : GLfloat }.
Record mat3 := mk_mat3 { m3_col0 : vec3; m3_col1 : vec3; m3_col2 : vec3 }.
Record mat4 := mk_mat4 { m4_col0 : vec4; m4_col1 : vec4; m4_col2 : vec4; m4_col3 : vec4 }.

(** [glm::value_ptr]: the components in storage order. *)
Class ValuePtr (T E : Type) := value_ptr : T -> list E.
#[global] Instance value_ptr_vec2 : ValuePtr vec2 GLfloat :=
  fun v => [v2_x v; v2_y v].
#[global] Instance value_ptr_vec3 : ValuePtr vec3 GLfloat :=
  fun v => [v3_x v; v3_y v; v3_z v].
#[global] Instance value_ptr_vec4 : ValuePtr vec4 GLfloat :=
  fun v => [v4_x v; v4_y v; v4_z v; v4_w v].
#[global] Instance value_ptr_ivec2 : ValuePtr ivec2 GLint :=
  fun v => [i2_x v; i2_y v].
#[global] Instance value_ptr_ivec3 : ValuePtr ivec3 GLint :=
  fun v => [i3_x v; i3_y v; i3_z v].
#[global] Instance value_ptr_ivec4 : ValuePtr ivec4 GLint :=
  fun v => [i4_x v; i4_y v; i4_z v; i4_w v].
#[global] Instance value_ptr_uvec2 : ValuePtr uvec2 GLuint :=
  fun v => [u2_x v; u2_y v].
#[global] Instance value_ptr_uvec3 : ValuePtr uvec3 GLuint :=
  fun v => [u3_x v; u3_y v; u3_z v].
#[global] Instance value_ptr_uvec4 : ValuePtr uvec4 GLuint :=
  fun v => [u4_x v; u4_y v; u4_z v; u4_w v].
#[global] Instance value_ptr_quat : ValuePtr quat GLfloat :=
  fun q => [q_x q; q_y q; q_z q; q_w q].
#[global] Instance value_ptr_mat3 : ValuePtr mat3 GLfloat :=
  fun m => value_ptr (m3_col0 m) ++ value_ptr (m3_col1 m) ++ value_ptr (m3_col2 m).
#[global] Instance value_ptr_mat4 : ValuePtr mat4 GLfloat :=
  fun m => value_ptr (m4_col0 m) ++ value_ptr (m4_col1 m)
           ++ value_ptr (m4_col2 m) ++ value_ptr (m4_col3 m).

(** Float literals of the source. *)
Definition f0 : GLfloat := S754_zero false.
Definition f1 : GLfloat := S754_finite false 8388608 (-23).
Definition fm1 : GLfloat := S754_finite true 8388608 (-23).
Definition fhalf : GLfloat := S754_finite false 8388608 (-24).
Definition fmhalf : GLfloat := S754_finite true 8388608 (-24).

(** [glm::vec3(s)] and [glm::vec4(s)]: every component is [s]. *)
Definition vec3_splat (s : GLfloat) : vec3 := mk_vec3 s s s.
Definition vec4_splat (s : GLfloat) : vec4 := mk_vec4 s s s s.
End glm.

(** ** Program data *)

Record vertex_t := mk_vertex {
  position : glm.vec3;
  color : glm.vec3;
  normal : glm.vec3;
  texcoord : glm.vec2
}.

Record attrib_format_t := mk_attrib_format {
  attrib_index : GLuint;
  size : GLint;
  type : GLenum;
  relative_offset : GLuint
}.

(** What [stbi_load] hands back: the decoded buffer with its own
    dimensions and channel count. *)
Record image := mk_image {
  img_x : Z;
  img_y : Z;
  img_c : Z;
  img_pixels : list uint8_t
}.

Inductive stb_comp_t :=
  STBI_default | STBI_grey | STBI_grey_alpha | STBI_rgb | STBI_rgb_alpha.

(** The bytes handed to [glNamedBufferStorage]. *)
Inductive buffer_data :=
| VertexData (vs : list vertex_t)
| IndexData (bs : list uint8_t).

(** The element types [create_buffer] is instantiated with. *)
Class BufferElem (T : Type) := {
  sizeof : Z;
  buffer_of : list T -> buffer_data
}.
(** Eleven floats: three vec3 and one vec2. *)
#[global] Instance vertex_elem : BufferElem vertex_t :=
  {| sizeof := 44; buffer_of := VertexData |}.
#[global] Instance uint8_elem : BufferElem uint8_t :=
  {| sizeof := 1; buffer_of := IndexData |}.

(** ** The OpenGL calls the program issues *)

Inductive gl_call :=
| glEnable (cap : GLenum)
| glCreateBuffers (name : GLuint)
| glNamedBufferStorage (buffer : GLuint) (bytes : Z) (data : buffer_data) (flags : GLbitfield)
| glCreateVertexArrays (name : GLuint)
| glVertexArrayVertexBuffer (vao bindingindex buffer : GLuint) (offset : Z) (stride : GLsizei)
| glVertexArrayElementBuffer (vao buffer : GLuint)
| glEnableVertexArrayAttrib (vao index : GLuint)
| glVertexArrayAttribFormat (vao index : GLuint) (sz : GLint) (ty : GLenum)
                            (normalized : GLboolean) (reloff : GLuint)
| glVertexArrayAttribBinding (vao index bindingindex : GLuint)
| glCreateShaderProgramv (ty : GLenum) (source : string) (name : GLuint)
| glProgramParameteri (program : GLuint) (pname : GLenum) (value : GLint)
| glGetProgramiv (program : GLuint) (pname : GLenum)
| glGetProgramInfoLog (program : GLuint) (bufSize : GLsizei)
| glDeleteShader (shader : GLuint)
| glCreateProgramPipelines (name : GLuint)
| glUseProgramStages (pipeline : GLuint) (stages : GLbitfield) (program : GLuint)
| glCreateTextures (target : GLenum) (name : GLuint)
| glTextureStorage2D (tex : GLuint) (levels : GLsizei) (internalformat : GLenum)
                     (width height : GLsizei)
| glTextureParameteri (tex : GLuint) (pname : GLenum) (param : GLint)
| glTextureSubImage2D (tex : GLuint) (level xoffset yoffset : GLint) (width height : GLsizei)
                      (format ty : GLenum) (pixels : image)
| glTextureSubImage3D (tex : GLuint) (level xoffset yoffset zoffset : GLint)
                      (width height depth : GLsizei) (format ty : GLenum) (pixels : image)
| glCreateFramebuffers (name : GLuint)
| glNamedFramebufferTexture (fbo : GLuint) (attachment : GLenum) (tex : GLuint) (level : GLint)
| glNamedFramebufferDrawBuffers (fbo : GLuint) (n : GLsizei) (bufs : list GLenum)
| glCheckNamedFramebufferStatus (fbo : GLuint) (target : GLenum)
| glProgramUniform1i (program : GLuint) (location : GLint) (v : GLint)
| glProgramUniform1ui (program : GLuint) (location : GLint) (v : GLuint)
| glProgramUniform1f (program : GLuint) (location : GLint) (v : GLfloat)
| glProgramUniform1d (program : GLuint) (location : GLint) (v : GLdouble)
| glProgramUniform2fv (program : GLuint) (location : GLint) (count : GLsizei) (v : list GLfloat)
| glProgramUniform3fv (program : GLuint) (location : GLint) (count : GLsizei) (v : list GLfloat)
| glProgramUniform4fv (program : GLuint) (location : GLint) (count : GLsizei) (v : list GLfloat)
| glProgramUniform2iv (program : GLuint) (location : GLint) (count : GLsizei) (v : list GLint)
| glProgramUniform3iv (program : GLuint) (location : GLint) (count : GLsizei) (v : list GLint)
| glProgramUniform4iv (program : GLuint) (location : GLint) (count : GLsizei) (v : list GLint)
| glProgramUniform2uiv (program : GLuint) (location : GLint) (count : GLsizei) (v : list GLuint)
| glProgramUniform3uiv (program : GLuint) (location : GLint) (count : GLsizei) (v : list GLuint)
| glProgramUniform4uiv (program : GLuint) (location : GLint) (count : GLsizei) (v : list GLuint)
| glProgramUniformMatrix3fv (program : GLuint) (location : GLint) (count : GLsizei)
                            (transpose : GLboolean) (v : list GLfloat)
| glProgramUniformMatrix4fv (program : GLuint) (location : GLint) (count : GLsizei)
                            (transpose : GLboolean) (v : list GLfloat)
| glDeleteProgramPipelines (n : GLsizei) (items : list GLuint)
| glDeleteProgram (program : GLuint)
| glDeleteBuffers (n : GLsizei) (items : list GLuint)
| glDeleteTextures (n : GLsizei) (items : list GLuint)
| glDeleteVertexArrays (n : GLsizei) (items : list GLuint)
| glDeleteFramebuffers (n : GLsizei) (items : list GLuint)
| glViewport (x y : GLint) (width height : GLsizei)
| glClearNamedFramebufferfv (fbo : GLuint) (buffer : GLenum) (drawbuffer : GLint)
                            (value : list GLfloat)
| glBindFramebuffer (target : GLenum) (fbo : GLuint)
| glBindTextureUnit (unit_ : GLuint) (tex : GLuint)
| glBindProgramPipeline (pipeline : GLuint)
| glBindVertexArray (vao : GLuint)
| glDrawElements (mode : GLenum) (count : GLsizei) (ty : GLenum)
| glDrawArrays (mode : GLenum) (first : GLint) (count : GLsizei)
| glBlitNamedFramebuffer (readfb drawfb : GLuint) (sx0 sy0 sx1 sy1 dx0 dy0 dx1 dy1 : GLint)
                         (mask : GLbitfield) (filter : GLenum)
| SDL_GL_SwapWindow.

(** ** The collaborators *)

Record world := mk_world {
  (** the text of a file, [None] when [fs::exists] is false *)
  read_file : string -> option string;
  (** [stbi_load]: [None] is the null pointer, and then x, y and c are
      left as they were *)
  stbi_load : string -> stb_comp_t -> option image;
  (** what [glCreateShaderProgramv] makes of a source: the link status of
      the program it returns, and its info log *)
  compile : GLenum -> string -> bool * string;
  (** the completeness status the driver reports for a framebuffer, given
      the calls made so far *)
  framebuffer_status : list gl_call -> GLuint -> GLenum;
  gladLoadGL : bool;
  gl_version : string;
  (** [SDL_GetCurrentDisplayMode] *)
  display_w : Z;
  display_h : Z;
  (** what an [int] that was never written holds, by the name of the
      variable *)
  indeterminate : string -> Z
}.

(** ** The state of a run and the monad of the program *)

Inductive object_kind :=
  Buffer | VertexArray | Program | ProgramPipeline | Texture | Framebuffer.

#[global] Instance object_kind_eq_dec : EqDecision object_kind.
Proof. solve_decision. Defined.

(** The next unused name in each of the driver's name spaces. *)
Record name_counters := mk_names {
  n_buffer : GLuint;
  n_vertex_array : GLuint;
  n_program : GLuint;
  n_pipeline : GLuint;
  n_texture : GLuint;
  n_framebuffer : GLuint
}.

Definition next_of (k : object_kind) (n : name_counters) : GLuint :=
  match k with
  | Buffer => n_buffer n
  | VertexArray => n_vertex_array n
  | Program => n_program n
  | ProgramPipeline => n_pipeline n
  | Texture => n_texture n
  | Framebuffer => n_framebuffer n
  end.

Definition bump (k : object_kind) (n : name_counters) : name_counters :=
  match n with
  | mk_names b v p pl t f =>
      match k with
      | Buffer => mk_names (b + 1) v p pl t f
      | VertexArray => mk_names b (v + 1) p pl t f
      | Program => mk_names b v (p + 1) pl t f
      | ProgramPipeline => mk_names b v p (pl + 1) t f
      | Texture => mk_names b v p pl (t + 1) f
      | Framebuffer => mk_names b v p pl t (f + 1)
      end
  end.

Record gl_state := mk_state {
  (** the driver hands out names 1, 2, 3, ... in each name space *)
  next_name : name_counters;
  (** link status and info log of each program object *)
  programs : gmap Z (bool * string);
  calls : list gl_call;
  clog : string
}.

Definition initial_state : gl_state :=
  mk_state (mk_names 1 1 1 1 1 1) ∅ [] "".

(** A call returns, throws a [std::runtime_error] (or
    [fs::filesystem_error]) carrying a message, or has undefined
    behaviour. *)
Inductive outcome (A : Type) :=
| Ok (a : A)
| Throw (what : string)
| UB.
Arguments Ok {A} a.
Arguments Throw {A} what.
Arguments UB {A}.

Definition GL (A : Type) : Type := gl_state -> outcome A * gl_state.

Definition ret {A} (a : A) : GL A := fun s => (Ok a, s).

Definition bind {A B} (m : GL A) (f : A -> GL B) : GL B :=
  fun s => match m s with
           | (Ok a, s') => f a s'
           | (Throw w, s') => (Throw w, s')
           | (UB, s') => (UB, s')
           end.

Definition throw {A} (what : string) : GL A := fun s => (Throw what, s).
Definition undefined {A} : GL A := fun s => (UB, s).

Declare Scope gl_scope.
Delimit Scope gl_scope with gl.
Notation "x <- m ;; k" := (bind m (fun x => k))
  (at level 100, m at next level, right associativity) : gl_scope.
Notation "m ;; k" := (bind m (fun _ => k))
  (at level 100, right associativity) : gl_scope.
Open Scope gl_scope.

(** Issue one call. *)
Definition call (c : gl_call) : GL unit :=
  fun s => (Ok tt, mk_state (next_name s) (programs s) (calls s ++ [c]) (clog s)).

(** [std::clog << text]. *)
Definition log (text : string) : GL unit :=
  fun s => (Ok tt, mk_state (next_name s) (programs s) (calls s) (clog s +:+ text)).

(** A [glCreate*] call of one object: the driver returns the next unused
    name of that kind. *)
Definition fresh (k : object_kind) : GL GLuint :=
  fun s => (Ok (next_of k (next_name s)),
            mk_state (bump k (next_name s)) (programs s) (calls s) (clog s)).

Definition create (k : object_kind) (c : GLuint -> gl_call) : GL GLuint :=
  name <- fresh k ;; call (c name) ;; ret name.

(** [for (i = first; i < first + n; i++) body(i)]. *)
Fixpoint for_range (first : nat) (n : nat) (body : nat -> GL unit) : GL unit :=
  match n with
  | O => ret tt
  | S n' => body first ;; for_range (S first) n' body
  end.

(** [for (auto const& x : xs) body(x)]. *)
Fixpoint for_each {A} (xs : list A) (body : A -> GL unit) : GL unit :=
  match xs with
  | [] => ret tt
  | x :: rest => body x ;; for_each rest body
  end.

(** ** The functions of source.cpp *)

(** The types [type_to_size_enum] and [create_attrib_format] are
    instantiated with; [AT_other] is any type outside the six listed. *)
Inductive attrib_type :=
  AT_float | AT_int | AT_unsigned_int | AT_vec2 | AT_vec3 | AT_vec4 | AT_other.

Definition type_to_size_enum (T : attrib_type) : GL (GLint * GLenum) :=
  match T with
  | AT_float => ret (1, GL_FLOAT)
  | AT_int => ret (1, GL_INT)
  | AT_unsigned_int => ret (1, GL_UNSIGNED_INT)
  | AT_vec2 => ret (2, GL_FLOAT)
  | AT_vec3 => ret (3, GL_FLOAT)
  | AT_vec4 => ret (4, GL_FLOAT)
  | AT_other => throw "unsupported type"
  end.

Definition create_attrib_format (T : attrib_type) (attrib_index relative_offset : GLuint)
  : GL attrib_format_t :=
  p <- type_to_size_enum T ;;
  ret (mk_attrib_format attrib_index (fst p) (snd p) relative_offset).

Definition create_buffer {T} `{BufferElem T} (buff : list T) (flags : GLbitfield) : GL GLuint :=
  name <- create Buffer glCreateBuffers ;;
  call (glNamedBufferStorage name (sizeof * Z.of_nat (length buff)) (buffer_of buff) flags) ;;
  ret name.

Definition create_geometry {T} `{BufferElem T}
    (vertices : list T) (indices : list uint8_t) (attrib_formats : list attrib_format_t)
  : GL (GLuint * GLuint * GLuint) :=
  vbo <- create_buffer vertices GL_DYNAMIC_STORAGE_BIT ;;
  ibo <- create_buffer indices GL_DYNAMIC_STORAGE_BIT ;;
  vao <- create VertexArray glCreateVertexArrays ;;
  call (glVertexArrayVertexBuffer vao 0 vbo 0 (sizeof (T := T))) ;;
  call (glVertexArrayElementBuffer vao ibo) ;;
  for_each attrib_formats (fun format =>
    call (glEnableVertexArrayAttrib vao (attrib_index format)) ;;
    call (glVertexArrayAttribFormat vao (attrib_index format) (size format) (type format)
                                    false (relative_offset format)) ;;
    call (glVertexArrayAttribBinding vao (attrib_index format) 0)) ;;
  ret (vao, vbo, ibo).

(** [glGetProgramiv(shader, GL_LINK_STATUS, &compiled)]; [compiled] was
    set to 0 and stays so when the name is no program. *)
Definition get_link_status (shader : GLuint) : GL GLint :=
  call (glGetProgramiv shader GL_LINK_STATUS) ;;
  fun s => (Ok (match programs s !! shader with
                | Some (true, _) => GL_TRUE
                | _ => GL_FALSE
                end), s).

(** [glGetProgramInfoLog(shader, bufSize, nullptr, buf)] followed by a read
    of [buf] as a C string: at most [bufSize - 1] characters of the log.
    When the name is no program the buffer is never written, and the read
    is of uninitialised memory. *)
Definition get_info_log (shader : GLuint) (bufSize : nat) : GL string :=
  call (glGetProgramInfoLog shader (Z.of_nat bufSize)) ;;
  fun s => match programs s !! shader with
           | Some (_, text) => (Ok (substring 0 (bufSize - 1) text), s)
           | None => (UB, s)
           end.

Definition validate_program (shader : GLuint) (filename : string) : GL unit :=
  call (glProgramParameteri shader GL_PROGRAM_SEPARABLE GL_TRUE) ;;
  compiled <- get_link_status shader ;;
  if compiled =? GL_FALSE then
    compiler_log <- get_info_log shader 1024 ;;
    call (glDeleteShader shader) ;;
    log ("shader " +:+ filename +:+ " contains error(s):" +:+ nl +:+ nl
         +:+ compiler_log +:+ nl)
  else ret tt.

Section WithWorld.
Variable W : world.

Definition read_text_file (filepath : string) : GL string :=
  match read_file W filepath with
  | None => throw ("file " +:+ filepath +:+ " does not exist.")
  | Some text => ret text
  end.

(** [glCreateShaderProgramv(type, 1, &source)]: a new program object,
    compiled and linked by the driver. *)
Definition create_shader_program (ty : GLenum) (source : string) : GL GLuint :=
  name <- fresh Program ;;
  (fun s => (Ok tt, mk_state (next_name s) (<[name := compile W ty source]> (programs s))
                             (calls s) (clog s))) ;;
  call (glCreateShaderProgramv ty source name) ;;
  ret name.

Definition create_program (vert_filepath frag_filepath : string)
  : GL (GLuint * GLuint * GLuint) :=
  vert_source <- read_text_file vert_filepath ;;
  frag_source <- read_text_file frag_filepath ;;
  vert <- create_shader_program GL_VERTEX_SHADER vert_source ;;
  frag <- create_shader_program GL_FRAGMENT_SHADER frag_source ;;
  validate_program vert vert_filepath ;;
  validate_program frag frag_filepath ;;
  pipeline <- create ProgramPipeline glCreateProgramPipelines ;;
  call (glUseProgramStages pipeline GL_VERTEX_SHADER_BIT vert) ;;
  call (glUseProgramStages pipeline GL_FRAGMENT_SHADER_BIT frag) ;;
  ret (pipeline, vert, frag).

Definition create_shader (vert frag : GLuint) : GL GLuint :=
  pipeline <- create ProgramPipeline glCreateProgramPipelines ;;
  call (glUseProgramStages pipeline GL_VERTEX_SHADER_BIT vert) ;;
  call (glUseProgramStages pipeline GL_FRAGMENT_SHADER_BIT frag) ;;
  ret pipeline.

Definition create_texture_2d (internal_format format : GLenum) (width height : GLsizei)
    (data : option image) (filter repeat : GLenum) : GL GLuint :=
  tex <- create Texture (glCreateTextures GL_TEXTURE_2D) ;;
  call (glTextureStorage2D tex 1 internal_format width height) ;;
  call (glTextureParameteri tex GL_TEXTURE_MIN_FILTER filter) ;;
  call (glTextureParameteri tex GL_TEXTURE_MAG_FILTER filter) ;;
  call (glTextureParameteri tex GL_TEXTURE_WRAP_S repeat) ;;
  call (glTextureParameteri tex GL_TEXTURE_WRAP_T repeat) ;;
  call (glTextureParameteri tex GL_TEXTURE_WRAP_R repeat) ;;
  match data with
  | Some pixels =>
      call (glTextureSubImage2D tex 0 0 0 width height format GL_UNSIGNED_BYTE pixels)
  | None => ret tt
  end ;;
  ret tex.

(** [data] is the [std::array<T*, 6>]; an index outside it is an
    out-of-bounds read. *)
Definition create_texture_cube (internal_format format : GLenum) (width height : GLsizei)
    (data : list (option image)) : GL GLuint :=
  tex <- create Texture (glCreateTextures GL_TEXTURE_CUBE_MAP) ;;
  call (glTextureStorage2D tex 1 internal_format width height) ;;
  for_range 0 6 (fun i =>
    match data !! i with
    | Some (Some pixels) =>
        call (glTextureSubImage3D tex 0 0 0 (Z.of_nat i) width height 1
                                  format GL_UNSIGNED_BYTE pixels)
    | Some None => ret tt
    | None => undefined
    end) ;;
  ret tex.

(** The [switch (comp)] of both [*_from_file] functions. *)
Definition stb_formats (comp : stb_comp_t) : GL (GLenum * GLenum) :=
  match comp with
  | STBI_rgb_alpha => ret (GL_RGBA8, GL_RGBA)
  | STBI_rgb => ret (GL_RGB8, GL_RGB)
  | STBI_grey => ret (GL_R8, GL_RED)
  | STBI_grey_alpha => ret (GL_RG8, GL_RG)
  | STBI_default => throw "invalid format"
  end.

(** [int x, y, c;] start uninitialised; [stbi_load] writes them when it
    succeeds.  There is no check of its answer: after a decode that
    failed, [x] and [y] are passed on as they are, with a null [data]. *)
Definition create_texture_2d_from_file (filepath : string) (comp : stb_comp_t) : GL GLuint :=
  match read_file W filepath with
  | None => throw ("file " +:+ filepath +:+ " does not exist.")
  | Some _ =>
      let data := stbi_load W filepath comp in
      let xy := match data with
                | Some i => (img_x i, img_y i)
                | None => (indeterminate W "x", indeterminate W "y")
                end in
      fmt <- stb_formats comp ;;
      create_texture_2d (fst fmt) (snd fmt) (fst xy) (snd xy) data GL_LINEAR GL_REPEAT
  end.

(** The decoding loop of [create_texture_cube_from_file]:
    [faces[i] = stbi_load(filepath[i].data(), &x, &y, &c, comp)] for
    [i] from [first], [n] times.  [xy] is the current content of the one
    pair of variables [x], [y] every decode writes to, [None] as long as
    no decode has written them. *)
Fixpoint load_faces (filepath : list string) (comp : stb_comp_t) (first n : nat)
    (xy : option (Z * Z)) (faces : list (option image))
  : GL (option (Z * Z) * list (option image)) :=
  match n with
  | O => ret (xy, faces)
  | S n' =>
      match filepath !! first with
      | None => undefined
      | Some path =>
          let data := stbi_load W path comp in
          let xy' := match data with Some i => Some (img_x i, img_y i) | None => xy end in
          load_faces filepath comp (S first) n' xy' (<[first := data]> faces)
      end
  end.

(** No decode is checked here either: when none succeeded, [x] and [y]
    are passed on never written, and a face of another size than the last
    decode is uploaded with the size of the last. *)
Definition create_texture_cube_from_file (filepath : list string) (comp : stb_comp_t)
  : GL GLuint :=
  fmt <- stb_formats comp ;;
  r <- load_faces filepath comp 0 6 None (replicate 6 None) ;;
  let xy := match fst r with
            | Some xy => xy
            | None => (indeterminate W "x", indeterminate W "y")
            end in
  create_texture_cube (fst fmt) (snd fmt) (fst xy) (snd xy) (snd r).

(** [draw_buffs[i] = v] on the [std::array<GLenum, 32>]: a write at an
    index outside the array is out of bounds. *)
Definition array_write (draw_buffs : list (option GLenum)) (i : nat) (v : GLenum)
  : GL (list (option GLenum)) :=
  if decide (i < length draw_buffs)%nat
  then ret (<[i := Some v]> draw_buffs)
  else undefined.

(** The second loop of [create_framebuffer]; [i] is a [GLenum]. *)
Fixpoint fill_draw_buffs (first n : nat) (draw_buffs : list (option GLenum))
  : GL (list (option GLenum)) :=
  match n with
  | O => ret draw_buffs
  | S n' =>
      a <- array_write draw_buffs first (wrap32 (GL_COLOR_ATTACHMENT0 + Z.of_nat first)) ;;
      fill_draw_buffs (S first) n' a
  end.

(** The first [n] entries the driver reads through [draw_buffs.data()];
    reading an entry never written is undefined. *)
Fixpoint array_read (n : nat) (draw_buffs : list (option GLenum)) : GL (list GLenum) :=
  match n with
  | O => ret []
  | S n' =>
      match draw_buffs with
      | Some v :: rest => vs <- array_read n' rest ;; ret (v :: vs)
      | _ => undefined
      end
  end.

(** [glCheckNamedFramebufferStatus]. *)
Definition check_framebuffer_status (fbo : GLuint) : GL GLenum :=
  call (glCheckNamedFramebufferStatus fbo GL_FRAMEBUFFER) ;;
  fun s => (Ok (framebuffer_status W (calls s) fbo), s).

Definition create_framebuffer (cols : list GLuint) (depth : GLuint) : GL GLuint :=
  fbo <- create Framebuffer glCreateFramebuffers ;;
  for_range 0 (length cols) (fun i =>
    match cols !! i with
    | Some tex =>
        call (glNamedFramebufferTexture fbo (GL_COLOR_ATTACHMENT0 + Z.of_nat i) tex 0)
    | None => undefined
    end) ;;
  draw_buffs <- fill_draw_buffs 0 (length cols) (replicate 32 None) ;;
  bufs <- array_read (length cols) draw_buffs ;;
  call (glNamedFramebufferDrawBuffers fbo (Z.of_nat (length cols)) bufs) ;;
  (if decide (depth ≠ GL_NONE)
   then call (glNamedFramebufferTexture fbo GL_DEPTH_ATTACHMENT depth 0)
   else ret tt) ;;
  status <- check_framebuffer_status fbo ;;
  if decide (status ≠ GL_FRAMEBUFFER_COMPLETE)
  then throw "incomplete framebuffer"
  else ret fbo.
End WithWorld.

(** A value of one of the types [set_uniform<T>] can be instantiated
    with.  The template accepts every [T]; [V_other] stands for a value of
    any type outside the seventeen the function names (a [glm::mat2], a
    [long], ...), tagged with the name of its type. *)
Inductive uniform_value :=
| V_GLint (v : GLint)
| V_GLuint (v : GLuint)
| V_bool (v : bool)
| V_GLfloat (v : GLfloat)
| V_GLdouble (v : GLdouble)
| V_vec2 (v : glm.vec2)
| V_vec3 (v : glm.vec3)
| V_vec4 (v : glm.vec4)
| V_ivec2 (v : glm.ivec2)
| V_ivec3 (v : glm.ivec3)
| V_ivec4 (v : glm.ivec4)
| V_uvec2 (v : glm.uvec2)
| V_uvec3 (v : glm.uvec3)
| V_uvec4 (v : glm.uvec4)
| V_quat (v : glm.quat)
| V_mat3 (v : glm.mat3)
| V_mat4 (v : glm.mat4)
| V_other (type_name : string).

Definition set_uniform (shader : GLuint) (location : GLint) (value : uniform_value) : GL unit :=
  match value with
  | V_GLint v => call (glProgramUniform1i shader location v)
  | V_GLuint v => call (glProgramUniform1ui shader location v)
  | V_bool v => call (glProgramUniform1ui shader location (Z.b2z v))
  | V_GLfloat v => call (glProgramUniform1f shader location v)
  | V_GLdouble v => call (glProgramUniform1d shader location v)
  | V_vec2 v => call (glProgramUniform2fv shader location 1 (glm.value_ptr v))
  | V_vec3 v => call (glProgramUniform3fv shader location 1 (glm.value_ptr v))
  | V_vec4 v => call (glProgramUniform4fv shader location 1 (glm.value_ptr v))
  | V_ivec2 v => call (glProgramUniform2iv shader location 1 (glm.value_ptr v))
  | V_ivec3 v => call (glProgramUniform3iv shader location 1 (glm.value_ptr v))
  | V_ivec4 v => call (glProgramUniform4iv shader location 1 (glm.value_ptr v))
  | V_uvec2 v => call (glProgramUniform2uiv shader location 1 (glm.value_ptr v))
  | V_uvec3 v => call (glProgramUniform3uiv shader location 1 (glm.value_ptr v))
  | V_uvec4 v => call (glProgramUniform4uiv shader location 1 (glm.value_ptr v))
  | V_quat v => call (glProgramUniform4fv shader location 1 (glm.value_ptr v))
  | V_mat3 v => call (glProgramUniformMatrix3fv shader location 1 false (glm.value_ptr v))
  | V_mat4 v => call (glProgramUniformMatrix4fv shader location 1 false (glm.value_ptr v))
  | V_other _ => throw "unsupported type"
  end.

Definition delete_shader (pr vs fs : GLuint) : GL unit :=
  call (glDeleteProgramPipelines 1 [pr]) ;;
  call (glDeleteProgram vs) ;;
  call (glDeleteProgram fs).

(** The two overloads of [delete_items]: for a [glDeleterFuncv], one call
    on the whole list; for a [glDeleterFunc], one call per item. *)
Definition delete_items_v (deleter : GLsizei -> list GLuint -> gl_call) (items : list GLuint)
  : GL unit :=
  call (deleter (Z.of_nat (length items)) items).

Definition delete_items_1 (deleter : GLuint -> gl_call) (items : list GLuint) : GL unit :=
  for_range 0 (length items) (fun i =>
    match items !! i with
    | Some item => call (deleter item)
    | None => undefined
    end).

(** ** main *)

(** Everything [main] creates before the frame loop. *)
Record handles := mk_handles {
  texture_cube_diffuse : GLuint;
  texture_cube_specular : GLuint;
  texture_cube_normal : GLuint;
  texture_skybox : GLuint;
  texture_gbuffer_color : GLuint;
  texture_gbuffer_position : GLuint;
  texture_gbuffer_normal : GLuint;
  texture_gbuffer_albedo : GLuint;
  texture_gbuffer_depth : GLuint;
  fb_gbuffer : GLuint;
  fb_finalcolor : GLuint;
  vao_empty : GLuint;
  vao_cube : GLuint; vbo_cube : GLuint; ibo_cube : GLuint;
  vao_quad : GLuint; vbo_quad : GLuint; ibo_quad : GLuint;
  pr : GLuint; vert_shader : GLuint; frag_shader : GLuint;
  pr_g : GLuint; vert_shader_g : GLuint; frag_shader_g : GLuint
}.

(** The values one iteration of the loop computes in floating point with
    glm from the keys held and the time passed, and [SDL_PollEvent]'s
    answer in that iteration: the type of the event taken from the queue,
    if any.  They are inputs of the model. *)
Record frame_input := mk_frame_input {
  polled : option Z;
  camera_view : glm.mat4;
  camera_position : glm.vec3;
  camera_dir : glm.mat3;                (* glm::inverse(glm::mat3(camera_view)) *)
  model_cube : glm.mat4;
  model_orbit : nat -> glm.mat4;        (* the four orbiting cubes *)
  model_quad : glm.mat4;
  aspect : GLfloat;
  uvs_diff : glm.vec2
}.

Definition SDL_QUIT : Z := 0x100.

Definition window_width : Z := 1920.
Definition window_height : Z := 1080.

Definition uniform_projection : GLint := 0.
Definition uniform_cam_pos : GLint := 0.
Definition uniform_cam_dir : GLint := 0.
Definition uniform_view : GLint := 1.
Definition uniform_fov : GLint := 1.
Definition uniform_aspect : GLint := 2.
Definition uniform_modl : GLint := 2.
Definition uniform_lght : GLint := 3.
Definition uniform_uvs_diff : GLint := 3.

Definition vtx (px py pz cx cy cz nx ny nz tu tv : GLfloat) : vertex_t :=
  mk_vertex (glm.mk_vec3 px py pz) (glm.mk_vec3 cx cy cz) (glm.mk_vec3 nx ny nz)
            (glm.mk_vec2 tu tv).

Definition vertices_cube : list vertex_t :=
  let o := glm.f0 in let l := glm.f1 in let m := glm.fm1 in
  let h := glm.fhalf in let n := glm.fmhalf in
  [ vtx n h n  l o o  o o m  o o;  vtx h h n  o l o  o o m  l o;
    vtx h n n  o o l  o o m  l l;  vtx n n n  l o l  o o m  o l;

    vtx h h n  l o o  l o o  o o;  vtx h h h  o l o  l o o  l o;
    vtx h n h  o o l  l o o  l l;  vtx h n n  l o l  l o o  o l;

    vtx h h h  o l o  o o l  l o;  vtx n h h  l o o  o o l  o o;
    vtx n n h  l o l  o o l  o l;  vtx h n h  o o l  o o l  l l;

    vtx n h h  o l o  m o o  l o;  vtx n h n  l o o  m o o  o o;
    vtx n n n  l o l  m o o  o l;  vtx n n h  o o l  m o o  l l;

    vtx n h h  l o o  o l o  o o;  vtx h h h  o l o  o l o  l o;
    vtx h h n  o o l  o l o  l l;  vtx n h n  l o l  o l o  o l;

    vtx h n h  o l o  o m o  l o;  vtx n n h  l o o  o m o  o o;
    vtx n n n  l o l  o m o  o l;  vtx h n n  o o l  o m o  l l ].

Definition vertices_quad : list vertex_t :=
  let o := glm.f0 in let l := glm.f1 in
  let h := glm.fhalf in let n := glm.fmhalf in
  [ vtx n o h  l o o  o l o  o o;  vtx h o h  o l o  o l o  l o;
    vtx h o n  o o l  o l o  l l;  vtx n o n  l o l  o l o  o l ].

Definition u8 (n : N) : uint8_t :=
  match Byte.of_N n with Some b => b | None => Byte.x00 end.

Definition indices_cube : list uint8_t :=
  map u8 [ 0;  1;  2;  2;  3;  0;
           4;  5;  6;  6;  7;  4;
           8;  9; 10; 10; 11;  8;
          12; 13; 14; 14; 15; 12;
          16; 17; 18; 18; 19; 16;
          20; 21; 22; 22; 23; 20 ]%N.

Definition indices_quad : list uint8_t :=
  map u8 [ 0; 1; 2; 2; 3; 0 ]%N.

Section Main.
Variable W : world.

(** [camera_projection] and [fov] are computed once, in floating point,
    before the loop; they are inputs of the model as well. *)
Variable camera_projection : glm.mat4.
Variable fov : GLfloat.

Definition screen_width : Z := display_w W.
Definition screen_height : Z := display_h W.
Definition viewport_width : Z := screen_width.
Definition viewport_height : Z := screen_height.

Definition skybox_files : list string :=
  [ ".\textures\TC_SkySpace_Xn.png"; ".\textures\TC_SkySpace_Xp.png";
    ".\textures\TC_SkySpace_Yn.png"; ".\textures\TC_SkySpace_Yp.png";
    ".\textures\TC_SkySpace_Zn.png"; ".\textures\TC_SkySpace_Zp.png" ]%string.

(** [main] up to and including the two [create_program] calls (the
    release build: the [_DEBUG] block is compiled out). *)
Definition startup : GL handles :=
  (if gladLoadGL W then ret tt else throw "failed to load gl") ;;
  log (gl_version W +:+ nl) ;;
  call (glEnable GL_CULL_FACE) ;;
  call (glEnable GL_DEPTH_TEST) ;;
  call (glEnable GL_PROGRAM_POINT_SIZE) ;;
  texture_cube_diffuse <- create_texture_2d_from_file W ".\textures\T_Default_D.png" STBI_rgb ;;
  texture_cube_specular <- create_texture_2d_from_file W ".\textures\T_Default_S.png" STBI_grey ;;
  texture_cube_normal <- create_texture_2d_from_file W ".\textures\T_Default_N.png" STBI_rgb ;;
  texture_skybox <- create_texture_cube_from_file W skybox_files STBI_rgb_alpha ;;
  texture_gbuffer_color <-
    create_texture_2d GL_RGB8 GL_RGB screen_width screen_height None GL_NEAREST GL_REPEAT ;;
  texture_gbuffer_position <-
    create_texture_2d GL_RGB16F GL_RGB screen_width screen_height None GL_NEAREST GL_REPEAT ;;
  texture_gbuffer_normal <-
    create_texture_2d GL_RGB16F GL_RGB screen_width screen_height None GL_NEAREST GL_REPEAT ;;
  texture_gbuffer_albedo <-
    create_texture_2d GL_RGBA16F GL_RGBA screen_width screen_height None GL_NEAREST GL_REPEAT ;;
  texture_gbuffer_depth <-
    create_texture_2d GL_DEPTH_COMPONENT32 GL_DEPTH screen_width screen_height None
                      GL_NEAREST GL_REPEAT ;;
  fb_gbuffer <-
    create_framebuffer W
      [texture_gbuffer_position; texture_gbuffer_normal; texture_gbuffer_albedo]
      texture_gbuffer_depth ;;
  fb_finalcolor <- create_framebuffer W [texture_gbuffer_color] GL_NONE ;;
  f_position <- create_attrib_format AT_vec3 0 0 ;;
  f_color <- create_attrib_format AT_vec3 1 12 ;;
  f_normal <- create_attrib_format AT_vec3 2 24 ;;
  f_texcoord <- create_attrib_format AT_vec2 3 36 ;;
  let vertex_format := [f_position; f_color; f_normal; f_texcoord] in
  vao_empty <- create VertexArray glCreateVertexArrays ;;
  cube <- create_geometry vertices_cube indices_cube vertex_format ;;
  quad <- create_geometry vertices_quad indices_quad vertex_format ;;
  p <- create_program W ".\shaders\main.vert" ".\shaders\main.frag" ;;
  p_g <- create_program W ".\shaders\gbuffer.vert" ".\shaders\gbuffer.frag" ;;
  ret {| texture_cube_diffuse := texture_cube_diffuse;
         texture_cube_specular := texture_cube_specular;
         texture_cube_normal := texture_cube_normal;
         texture_skybox := texture_skybox;
         texture_gbuffer_color := texture_gbuffer_color;
         texture_gbuffer_position := texture_gbuffer_position;
         texture_gbuffer_normal := texture_gbuffer_normal;
         texture_gbuffer_albedo := texture_gbuffer_albedo;
         texture_gbuffer_depth := texture_gbuffer_depth;
         fb_gbuffer := fb_gbuffer;
         fb_finalcolor := fb_finalcolor;
         vao_empty := vao_empty;
         vao_cube := fst (fst cube); vbo_cube := snd (fst cube); ibo_cube := snd cube;
         vao_quad := fst (fst quad); vbo_quad := snd (fst quad); ibo_quad := snd quad;
         pr := fst (fst p); vert_shader := snd (fst p); frag_shader := snd p;
         pr_g := fst (fst p_g); vert_shader_g := snd (fst p_g); frag_shader_g := snd p_g |}.

(** The GL work of one iteration of the [while] loop, from the write of
    the view matrix to the buffer swap.  What precedes it in the loop body
    (frame timing, the event poll, the keys, the camera) computes the
    fields of [i].  [glClearNamedFramebufferfv] is recorded with the
    floats of the glm value its pointer argument points to. *)
Definition frame (h : handles) (i : frame_input) : GL unit :=
  set_uniform (vert_shader_g h) uniform_view (V_mat4 (camera_view i)) ;;
  (* g-buffer pass *)
  call (glViewport 0 0 viewport_width viewport_height) ;;
  let depth_clear_val := glm.f1 in
  call (glClearNamedFramebufferfv (fb_gbuffer h) GL_COLOR 0
          (glm.value_ptr (glm.vec3_splat glm.f0))) ;;
  call (glClearNamedFramebufferfv (fb_gbuffer h) GL_COLOR 1
          (glm.value_ptr (glm.vec3_splat glm.f0))) ;;
  call (glClearNamedFramebufferfv (fb_gbuffer h) GL_COLOR 2
          (glm.value_ptr (glm.vec4_splat glm.f0))) ;;
  call (glClearNamedFramebufferfv (fb_gbuffer h) GL_DEPTH 0 [depth_clear_val]) ;;
  call (glBindFramebuffer GL_FRAMEBUFFER (fb_gbuffer h)) ;;
  call (glBindTextureUnit 0 (texture_cube_diffuse h)) ;;
  call (glBindTextureUnit 1 (texture_cube_specular h)) ;;
  call (glBindTextureUnit 2 (texture_cube_normal h)) ;;
  call (glBindProgramPipeline (pr_g h)) ;;
  call (glBindVertexArray (vao_cube h)) ;;
  (* cube orbit *)
  set_uniform (vert_shader_g h) uniform_modl (V_mat4 (model_cube i)) ;;
  call (glDrawElements GL_TRIANGLES (Z.of_nat (length indices_cube)) GL_UNSIGNED_BYTE) ;;
  for_range 0 4 (fun k =>
    set_uniform (vert_shader_g h) uniform_modl (V_mat4 (model_orbit i k)) ;;
    call (glDrawElements GL_TRIANGLES (Z.of_nat (length indices_cube)) GL_UNSIGNED_BYTE)) ;;
  call (glBindVertexArray (vao_quad h)) ;;
  set_uniform (vert_shader_g h) uniform_modl (V_mat4 (model_quad i)) ;;
  call (glDrawElements GL_TRIANGLES (Z.of_nat (length indices_quad)) GL_UNSIGNED_BYTE) ;;
  (* actual shading pass *)
  call (glClearNamedFramebufferfv (fb_finalcolor h) GL_COLOR 0
          (glm.value_ptr (glm.vec3_splat glm.f0))) ;;
  call (glClearNamedFramebufferfv (fb_finalcolor h) GL_DEPTH 0 [depth_clear_val]) ;;
  call (glBindFramebuffer GL_FRAMEBUFFER (fb_finalcolor h)) ;;
  call (glBindTextureUnit 0 (texture_gbuffer_position h)) ;;
  call (glBindTextureUnit 1 (texture_gbuffer_normal h)) ;;
  call (glBindTextureUnit 2 (texture_gbuffer_albedo h)) ;;
  call (glBindTextureUnit 3 (texture_gbuffer_depth h)) ;;
  call (glBindTextureUnit 4 (texture_skybox h)) ;;
  call (glBindProgramPipeline (pr h)) ;;
  call (glBindVertexArray (vao_empty h)) ;;
  set_uniform (frag_shader h) uniform_cam_pos (V_vec3 (camera_position i)) ;;
  set_uniform (vert_shader h) uniform_cam_dir (V_mat3 (camera_dir i)) ;;
  set_uniform (vert_shader h) uniform_fov (V_GLfloat fov) ;;
  set_uniform (vert_shader h) uniform_aspect (V_GLfloat (aspect i)) ;;
  set_uniform (vert_shader h) uniform_uvs_diff (V_vec2 (uvs_diff i)) ;;
  call (glDrawArrays GL_TRIANGLES 0 6) ;;
  (* scale raster *)
  call (glViewport 0 0 window_width window_height) ;;
  call (glBindFramebuffer GL_FRAMEBUFFER 0) ;;
  call (glBlitNamedFramebuffer (fb_finalcolor h) 0 0 0 viewport_width viewport_height
                               0 0 window_width window_height
                               GL_COLOR_BUFFER_BIT GL_NEAREST) ;;
  call SDL_GL_SwapWindow.

(** [while (ev.type != SDL_QUIT) { ... }] over the inputs of the
    iterations to come.  [ev_type] is [ev.type] at the loop test; the
    answer is [true] when the test ended the loop and [false] when the
    inputs ran out with the loop still running. *)
Fixpoint frame_loop (h : handles) (ev_type : Z) (inputs : list frame_input) : GL bool :=
  if decide (ev_type = SDL_QUIT) then ret true
  else match inputs with
       | [] => ret false
       | i :: rest =>
           frame h i ;;
           frame_loop h (match polled i with Some t => t | None => ev_type end) rest
       end.

(** The deletions after the loop. *)
Definition shutdown (h : handles) : GL unit :=
  delete_items_v glDeleteBuffers [vbo_cube h; ibo_cube h; vbo_quad h; ibo_quad h] ;;
  delete_items_v glDeleteTextures
    [ texture_cube_diffuse h; texture_cube_specular h; texture_cube_normal h;
      texture_gbuffer_position h; texture_gbuffer_albedo h; texture_gbuffer_normal h;
      texture_gbuffer_depth h; texture_gbuffer_color h;
      texture_skybox h ] ;;
  delete_items_1 glDeleteProgram
    [vert_shader h; frag_shader h; vert_shader_g h; frag_shader_g h] ;;
  delete_items_v glDeleteProgramPipelines [pr h; pr_g h] ;;
  delete_items_v glDeleteVertexArrays [vao_cube h; vao_empty h] ;;
  call (glDeleteFramebuffers 1 [fb_gbuffer h]) ;;
  call (glDeleteFramebuffers 1 [fb_finalcolor h]).

(** [main]: [Some 0] is the [return 0]; [None] means the inputs given
    did not bring the loop to its end. *)
Definition main (inputs : list frame_input) : GL (option Z) :=
  h <- startup ;;
  set_uniform (vert_shader_g h) uniform_projection (V_mat4 camera_projection) ;;
  finished <- frame_loop h 0 inputs ;;
  if finished : bool then shutdown h ;; ret (Some 0) else ret None.
End Main.

(** ** The code of main that issues no OpenGL call

    [string_format], [measure_frames] and the two pieces of the loop body
    that come before the camera: the frame-time bookkeeping and the update
    of the key arrays.  They touch neither the driver nor the handles, and
    are embedded as functions on their own variables. *)

(** A run of code that has no OpenGL state to thread. *)
Definition and_then {A B} (o : outcome A) (f : A -> outcome B) : outcome B :=
  match o with
  | Ok a => f a
  | Throw w => Throw w
  | UB => UB
  end.

Definition INT_MAX : Z := 2 ^ 31 - 1.

(** The arithmetic of [double]: IEEE-754 binary64, rounded to nearest
    even. *)
Module double.
Definition prec : Z := 53.
Definition emax : Z := 1024.
Definition add : GLdouble -> GLdouble -> GLdouble := SFadd prec emax.
Definition sub : GLdouble -> GLdouble -> GLdouble := SFsub prec emax.
Definition mul : GLdouble -> GLdouble -> GLdouble := SFmul prec emax.
Definition div : GLdouble -> GLdouble -> GLdouble := SFdiv prec emax.
(** The conversion of an [int] or a [Uint32], which is exact. *)
Definition of_int (n : Z) : GLdouble := binary_normalize prec emax n 0 false.
Definition zero : GLdouble := S754_zero false.
End double.

Section Formatting.
(** The arguments of the format, and the text the C library expands a
    format and its arguments to; [None] when it reports an output error. *)
Context {Args : Type}.
Variable expansion : string -> Args -> option string.

(** [snprintf(buf, n, format, args...)]: the value it returns, the length
    of the whole expansion or a negative value on an error, and the bytes
    it stores in [buf], at most [n - 1] characters of the expansion and a
    terminating NUL; with [n] zero it stores nothing. *)
Definition snprintf (n : nat) (format : string) (args : Args) : Z * list ascii :=
  match expansion format args with
  | Some text =>
      if decide (Z.of_nat (String.length text) <= INT_MAX)
      then (Z.of_nat (String.length text),
            match n with
            | O => []
            | S m => take m (list_ascii_of_string text) ++ [Ascii.zero]
            end)
      else (-1, [])
  | None => (-1, [])
  end.

(** The characters of [buf[0 .. n - 1]]; reading one never written is
    undefined. *)
Fixpoint read_chars (n : nat) (buf : list (option ascii)) : outcome (list ascii) :=
  match n with
  | O => Ok []
  | S n' =>
      match buf with
      | Some c :: rest => and_then (read_chars n' rest) (fun cs => Ok (c :: cs))
      | _ => UB
      end
  end.

Definition string_format (format : string) (args : Args) : outcome string :=
  let r := fst (snprintf 0 format args) in
  (* [r + 1] is computed in [int] *)
  if decide (r = INT_MAX) then UB
  else
    let size := Z.to_nat (r + 1) in
    let buf : list (option ascii) := replicate size None in
    let stored := snd (snprintf size format args) in
    let buf := map Some stored ++ drop (length stored) buf in
    match size with
    | O => UB                     (* [buf.get() + size - 1] is before the array *)
    | S len => and_then (read_chars len buf) (fun cs => Ok (string_of_list_ascii cs))
    end.
End Formatting.

(** The variables [t1], [deltaTimeAverage] and [frameCounter] of [main]. *)
Record frame_timer := mk_timer {
  t1 : GLdouble;
  deltaTimeAverage : GLdouble;
  frameCounter : Z
}.

Definition framesToAverage : Z := 10.

Section FrameTime.
Variable expansion : string -> GLdouble * GLdouble -> option string.

(** The new values of the two references, and the title handed to
    [SDL_SetWindowTitle], if any. *)
Definition measure_frames (deltaTimeAverage : GLdouble) (frameCounter framesToAverage : Z)
  : outcome (GLdouble * Z * option string) :=
  if decide (frameCounter = framesToAverage) then
    let deltaTimeAverage := double.div deltaTimeAverage (double.of_int framesToAverage) in
    and_then
      (string_format expansion "frametime = %.3fms, fps = %.1f"
         (double.mul (double.of_int 1000) deltaTimeAverage,
          double.div (double.of_int 1) deltaTimeAverage))
      (fun window_title => Ok (double.zero, 0, Some window_title))
  else Ok (deltaTimeAverage, frameCounter, None).

(** [auto t1 = SDL_GetTicks() / 1000.0] and the two initialisations
    before the loop. *)
Definition start_timer (ticks : Z) : frame_timer :=
  mk_timer (double.div (double.of_int ticks) (double.of_int 1000)) double.zero 0.

(** The first lines of the loop body, up to the call of [measure_frames];
    [ticks] is what [SDL_GetTicks] answers in this iteration. *)
Definition frame_time (timer : frame_timer) (ticks : Z)
  : outcome (frame_timer * option string) :=
  let t2 := double.div (double.of_int ticks) (double.of_int 1000) in
  let dt := double.sub t2 (t1 timer) in
  let average := double.add (deltaTimeAverage timer) dt in
  if decide (frameCounter timer = INT_MAX) then UB      (* [frameCounter++] overflows *)
  else
    and_then (measure_frames average (frameCounter timer + 1) framesToAverage)
      (fun r => Ok (mk_timer t2 (fst (fst r)) (snd (fst r)), snd r)).

(** The frame-time code over the iterations of the loop, with the titles
    the window was given, in order. *)
Fixpoint frame_times (timer : frame_timer) (ticks : list Z)
  : outcome (frame_timer * list string) :=
  match ticks with
  | [] => Ok (timer, [])
  | now :: rest =>
      and_then (frame_time timer now) (fun r =>
        and_then (frame_times (fst r) rest) (fun r' =>
          Ok (fst r', match snd r with
                      | Some title => title :: snd r'
                      | None => snd r'
                      end)))
  end.
End FrameTime.

(** The three [std::array<bool, 512>] of [main]; an entry is [None] until
    it is written. *)
Record keyboard := mk_keyboard {
  key : list (option bool);
  key_pressed : list (option bool);
  key_released : list (option bool)
}.

Definition declared_keys : keyboard :=
  mk_keyboard (replicate 512 None) (replicate 512 None) (replicate 512 None).

(** The body of the loop over the keys, for the index [i]; [key_state] is
    the array [SDL_GetKeyboardState] returned.  An index outside an array,
    and a read of [key[i]] before it was written, are undefined. *)
Definition update_key (key_state : list Z) (i : nat) (k : keyboard) : outcome keyboard :=
  match key k !! i, key_state !! i with
  | Some (Some held), Some state =>
      let down := negb (state =? 0) in
      if decide (i < length (key_pressed k) /\ i < length (key_released k))%nat then
        Ok (mk_keyboard (<[i := Some down]> (key k))
                        (<[i := Some (negb held && down)]> (key_pressed k))
                        (<[i := Some (held && negb down)]> (key_released k)))
      else UB
  | _, _ => UB
  end.

(** [for (int i = first; i < first + n; i++)]. *)
Fixpoint update_keys (key_state : list Z) (first n : nat) (k : keyboard) : outcome keyboard :=
  match n with
  | O => Ok k
  | S n' => and_then (update_key key_state first k) (update_keys key_state (S first) n')
  end.

(** [if (SDL_PollEvent(&ev)) { for (int i = 0; i < key_count; i++) ... }]. *)
Definition poll_keys (event : bool) (key_state : list Z) (key_count : Z) (k : keyboard)
  : outcome keyboard :=
  if event then update_keys key_state 0 (Z.to_nat key_count) k else Ok k.

(** * Specification side

    The definitions below are not part of the program: they name the call
    sequences and the state changes the theorems speak about. *)

(** The state after the calls [t] have been issued. *)
Definition emit (t : list gl_call) (s : gl_state) : gl_state :=
  mk_state (next_name s) (programs s) (calls s ++ t) (clog s).

(** The state after the driver has handed out one name of kind [k]. *)
Definition alloc (k : object_kind) (s : gl_state) : gl_state :=
  mk_state (bump k (next_name s)) (programs s) (calls s) (clog s).

(** How many of the calls [t] satisfy [p]. *)
Definition count_calls (p : gl_call -> bool) (t : list gl_call) : nat :=
  length (List.filter p t).

(** ** create_framebuffer *)

Definition is_status_check (c : gl_call) : bool :=
  match c with glCheckNamedFramebufferStatus _ _ => true | _ => false end.

(** Colour textures attached at the slots [first], [first + 1], ... *)
Definition color_attachments (fbo : GLuint) (first : nat) (cols : list GLuint) : list gl_call :=
  imap (fun i tex =>
          glNamedFramebufferTexture fbo (GL_COLOR_ATTACHMENT0 + Z.of_nat (first + i)) tex 0)
       cols.

(** The slots [first .. first + n - 1] as draw targets. *)
Definition draw_buffer_slots (first n : nat) : list GLenum :=
  map (fun i => GL_COLOR_ATTACHMENT0 + Z.of_nat i) (seq first n).

(** What the specification says [create_framebuffer] does, in its order. *)
Definition framebuffer_calls (fbo : GLuint) (cols : list GLuint) (depth : GLuint) : list gl_call :=
  [glCreateFramebuffers fbo]
  ++ color_attachments fbo 0 cols
  ++ [glNamedFramebufferDrawBuffers fbo (Z.of_nat (length cols))
        (draw_buffer_slots 0 (length cols))]
  ++ (if decide (depth = GL_NONE) then []
      else [glNamedFramebufferTexture fbo GL_DEPTH_ATTACHMENT depth 0])
  ++ [glCheckNamedFramebufferStatus fbo GL_FRAMEBUFFER].

(** The sizes the texture [tex] is given storage with in [t]. *)
Definition storage_of (tex : GLuint) (t : list gl_call) : list (GLsizei * GLsizei) :=
  flat_map (fun c => match c with
                     | glTextureStorage2D name _ _ width height =>
                         if name =? tex then [(width, height)] else []
                     | _ => []
                     end) t.

(** The textures attached to [fbo] in [t], and their sizes. *)
Definition attached_textures (fbo : GLuint) (t : list gl_call) : list GLuint :=
  flat_map (fun c => match c with
                     | glNamedFramebufferTexture f _ tex _ => if f =? fbo then [tex] else []
                     | _ => []
                     end) t.

Definition attachment_sizes (fbo : GLuint) (t : list gl_call) : list (GLsizei * GLsizei) :=
  flat_map (fun tex => storage_of tex t) (attached_textures fbo t).

(** Whether the attachments of [fbo] all have one size. *)
Definition dimensions_match (fbo : GLuint) (t : list gl_call) : bool :=
  match attachment_sizes fbo t with
  | [] => true
  | d :: rest => forallb (fun d' => (fst d' =? fst d) && (snd d' =? snd d)) rest
  end.

(** A driver that takes a framebuffer for complete exactly when its
    attachments have one size, as the specification has it.  OpenGL 4.5
    has no such rule: there a framebuffer with attachments of different
    sizes is complete. *)
Definition checks_dimensions (W : world) : Prop :=
  forall (t : list gl_call) (fbo : GLuint),
    framebuffer_status W t fbo = GL_FRAMEBUFFER_COMPLETE <-> dimensions_match fbo t = true.

(** ** A concrete world, for running the program

    Every file exists and decodes to a 2x2 RGBA image, the source text
    [bad] fails to compile, every framebuffer is complete, the display
    is 1920x1080, and a variable never written holds 0. *)
Definition demo_image : image := mk_image 2 2 4 (replicate 16 Byte.xff).

Definition demo_world : world :=
  mk_world (fun _ => Some "void main() {}")
           (fun _ _ => Some demo_image)
           (fun _ source => if String.eqb source "bad"
                            then (false, "0(1) : error C0000: syntax error")
                            else (true, ""))
           (fun _ _ => GL_FRAMEBUFFER_COMPLETE)
           true "4.5.0" 1920 1080 (fun _ => 0).

(** The world of [demo_world] with a driver that checks dimensions
    (0x8CD9 is GL_FRAMEBUFFER_INCOMPLETE_DIMENSIONS_EXT). *)
Definition dimension_world : world :=
  mk_world (read_file demo_world) (stbi_load demo_world) (compile demo_world)
           (fun t fbo => if dimensions_match fbo t then GL_FRAMEBUFFER_COMPLETE else 0x8CD9)
           true "4.5.0" 1920 1080 (fun _ => 0).

(** Two colour textures of different sizes, 2x2 and 4x4, and a
    framebuffer made of them. *)
Definition mismatched_framebuffer (W : world) : GL GLuint :=
  small <- create_texture_2d GL_RGB8 GL_RGB 2 2 None GL_NEAREST GL_REPEAT ;;
  large <- create_texture_2d GL_RGB8 GL_RGB 4 4 None GL_NEAREST GL_REPEAT ;;
  create_framebuffer W [small; large] GL_NONE.

(** ** set_uniform *)

(** The scalar a uniform call carries in each component. *)
Inductive scalar :=
| S_int (v : GLint)
| S_uint (v : GLuint)
| S_float (v : GLfloat)
| S_double (v : GLdouble).

(** The semantic types the specification lists as supported. *)
Definition supported (value : uniform_value) : bool :=
  match value with
  | V_other _ => false
  | _ => true
  end.

(** The components of a supported value in the order the specification
    gives: a vector and a quaternion component by component (x, y, z, w),
    a matrix column after column, a [bool] as the unsigned 0 or 1. *)
Definition components (value : uniform_value) : list scalar :=
  match value with
  | V_GLint v => [S_int v]
  | V_GLuint v => [S_uint v]
  | V_bool v => [S_uint (if v then 1 else 0)]
  | V_GLfloat v => [S_float v]
  | V_GLdouble v => [S_double v]
  | V_vec2 (glm.mk_vec2 x y) => [S_float x; S_float y]
  | V_vec3 (glm.mk_vec3 x y z) => [S_float x; S_float y; S_float z]
  | V_vec4 (glm.mk_vec4 x y z w) => [S_float x; S_float y; S_float z; S_float w]
  | V_ivec2 (glm.mk_ivec2 x y) => [S_int x; S_int y]
  | V_ivec3 (glm.mk_ivec3 x y z) => [S_int x; S_int y; S_int z]
  | V_ivec4 (glm.mk_ivec4 x y z w) => [S_int x; S_int y; S_int z; S_int w]
  | V_uvec2 (glm.mk_uvec2 x y) => [S_uint x; S_uint y]
  | V_uvec3 (glm.mk_uvec3 x y z) => [S_uint x; S_uint y; S_uint z]
  | V_uvec4 (glm.mk_uvec4 x y z w) => [S_uint x; S_uint y; S_uint z; S_uint w]
  | V_quat (glm.mk_quat x y z w) => [S_float x; S_float y; S_float z; S_float w]
  | V_mat3 (glm.mk_mat3 (glm.mk_vec3 a0 a1 a2) (glm.mk_vec3 b0 b1 b2) (glm.mk_vec3 c0 c1 c2)) =>
      map S_float [a0; a1; a2; b0; b1; b2; c0; c1; c2]
  | V_mat4 (glm.mk_mat4 (glm.mk_vec4 a0 a1 a2 a3) (glm.mk_vec4 b0 b1 b2 b3)
                        (glm.mk_vec4 c0 c1 c2 c3) (glm.mk_vec4 d0 d1 d2 d3)) =>
      map S_float [a0; a1; a2; a3; b0; b1; b2; b3; c0; c1; c2; c3; d0; d1; d2; d3]
  | V_other _ => []
  end.

(** The program object and location a call writes a uniform of, if it is
    a uniform write. *)
Definition uniform_target (c : gl_call) : option (GLuint * GLint) :=
  match c with
  | glProgramUniform1i p l _ | glProgramUniform1ui p l _
  | glProgramUniform1f p l _ | glProgramUniform1d p l _
  | glProgramUniform2fv p l _ _ | glProgramUniform3fv p l _ _ | glProgramUniform4fv p l _ _
  | glProgramUniform2iv p l _ _ | glProgramUniform3iv p l _ _ | glProgramUniform4iv p l _ _
  | glProgramUniform2uiv p l _ _ | glProgramUniform3uiv p l _ _ | glProgramUniform4uiv p l _ _
  | glProgramUniformMatrix3fv p l _ _ _ | glProgramUniformMatrix4fv p l _ _ _ => Some (p, l)
  | _ => None
  end.

(** The components a uniform write hands to the driver. *)
Definition uniform_payload (c : gl_call) : list scalar :=
  match c with
  | glProgramUniform1i _ _ v => [S_int v]
  | glProgramUniform1ui _ _ v => [S_uint v]
  | glProgramUniform1f _ _ v => [S_float v]
  | glProgramUniform1d _ _ v => [S_double v]
  | glProgramUniform2fv _ _ _ v | glProgramUniform3fv _ _ _ v | glProgramUniform4fv _ _ _ v
  | glProgramUniformMatrix3fv _ _ _ _ v | glProgramUniformMatrix4fv _ _ _ _ v => map S_float v
  | glProgramUniform2iv _ _ _ v | glProgramUniform3iv _ _ _ v | glProgramUniform4iv _ _ _ v =>
      map S_int v
  | glProgramUniform2uiv _ _ _ v | glProgramUniform3uiv _ _ _ v | glProgramUniform4uiv _ _ _ v =>
      map S_uint v
  | _ => []
  end.

(** The shape the driver is told the payload has: the number of columns
    and of rows of one element, the element count, and for a matrix the
    transpose flag. *)
Definition uniform_shape (c : gl_call) : option (nat * nat * GLsizei * option bool) :=
  match c with
  | glProgramUniform1i _ _ _ | glProgramUniform1ui _ _ _
  | glProgramUniform1f _ _ _ | glProgramUniform1d _ _ _ => Some (1%nat, 1%nat, 1, None)
  | glProgramUniform2fv _ _ n _ | glProgramUniform2iv _ _ n _
  | glProgramUniform2uiv _ _ n _ => Some (1%nat, 2%nat, n, None)
  | glProgramUniform3fv _ _ n _ | glProgramUniform3iv _ _ n _
  | glProgramUniform3uiv _ _ n _ => Some (1%nat, 3%nat, n, None)
  | glProgramUniform4fv _ _ n _ | glProgramUniform4iv _ _ n _
  | glProgramUniform4uiv _ _ n _ => Some (1%nat, 4%nat, n, None)
  | glProgramUniformMatrix3fv _ _ n t _ => Some (3%nat, 3%nat, n, Some t)
  | glProgramUniformMatrix4fv _ _ n t _ => Some (4%nat, 4%nat, n, Some t)
  | _ => None
  end.

(** The shape the specification gives each supported type; a quaternion
    is a 4-component vector, and no matrix is transposed. *)
Definition expected_shape (value : uniform_value) : option (nat * nat * GLsizei * option bool) :=
  match value with
  | V_GLint _ | V_GLuint _ | V_bool _ | V_GLfloat _ | V_GLdouble _ => Some (1%nat, 1%nat, 1, None)
  | V_vec2 _ | V_ivec2 _ | V_uvec2 _ => Some (1%nat, 2%nat, 1, None)
  | V_vec3 _ | V_ivec3 _ | V_uvec3 _ => Some (1%nat, 3%nat, 1, None)
  | V_vec4 _ | V_ivec4 _ | V_uvec4 _ | V_quat _ => Some (1%nat, 4%nat, 1, None)
  | V_mat3 _ => Some (3%nat, 3%nat, 1, Some false)
  | V_mat4 _ => Some (4%nat, 4%nat, 1, Some false)
  | V_other _ => None
  end.

(** ** create_program *)

(** The line [validate_program] prints for a stage that failed. *)
Definition compile_error_message (filename diagnostic : string) : string :=
  "shader " +:+ filename +:+ " contains error(s):" +:+ nl +:+ nl +:+ diagnostic +:+ nl.

(** What a stage adds to [std::clog]: nothing when it linked, and else
    the message with the file's name and the info log, of which the
    1024-byte buffer holds the first 1023 characters. *)
Definition stage_log (filename : string) (r : bool * string) : string :=
  if fst r then "" else compile_error_message filename (substring 0 1023 (snd r)).

Definition validation_calls (shader : GLuint) (linked : bool) : list gl_call :=
  [glProgramParameteri shader GL_PROGRAM_SEPARABLE GL_TRUE;
   glGetProgramiv shader GL_LINK_STATUS]
  ++ (if linked then [] else [glGetProgramInfoLog shader 1024; glDeleteShader shader]).

Definition program_calls (pipeline vert frag : GLuint) (vert_source frag_source : string)
    (vert_linked frag_linked : bool) : list gl_call :=
  [glCreateShaderProgramv GL_VERTEX_SHADER vert_source vert;
   glCreateShaderProgramv GL_FRAGMENT_SHADER frag_source frag]
  ++ validation_calls vert vert_linked
  ++ validation_calls frag frag_linked
  ++ [glCreateProgramPipelines pipeline;
      glUseProgramStages pipeline GL_VERTEX_SHADER_BIT vert;
      glUseProgramStages pipeline GL_FRAGMENT_SHADER_BIT frag].

(** The state [create_program] leaves behind. *)
Definition after_create_program (W : world) (vert_filepath frag_filepath : string)
    (vert_source frag_source : string) (s : gl_state) : gl_state :=
  let vert := n_program (next_name s) in
  let frag := vert + 1 in
  let rv := compile W GL_VERTEX_SHADER vert_source in
  let rf := compile W GL_FRAGMENT_SHADER frag_source in
  mk_state (bump ProgramPipeline (bump Program (bump Program (next_name s))))
           (<[frag := rf]> (<[vert := rv]> (programs s)))
           (calls s ++ program_calls (n_pipeline (next_name s)) vert frag
                                     vert_source frag_source (fst rv) (fst rf))
           ((clog s +:+ stage_log vert_filepath rv) +:+ stage_log frag_filepath rf).

(** A world in which the vertex shader does not compile. *)
Definition broken_shader_world : world :=
  mk_world (fun path => if String.eqb path "broken.vert" then Some "bad"
                        else Some "void main() {}")
           (stbi_load demo_world) (compile demo_world)
           (framebuffer_status demo_world) true "4.5.0" 1920 1080 (fun _ => 0).

(** ** Textures *)

Definition texture_2d_calls (tex : GLuint) (internal_format format : GLenum)
    (width height : GLsizei) (data : option image) (filter repeat : GLenum) : list gl_call :=
  [glCreateTextures GL_TEXTURE_2D tex;
   glTextureStorage2D tex 1 internal_format width height;
   glTextureParameteri tex GL_TEXTURE_MIN_FILTER filter;
   glTextureParameteri tex GL_TEXTURE_MAG_FILTER filter;
   glTextureParameteri tex GL_TEXTURE_WRAP_S repeat;
   glTextureParameteri tex GL_TEXTURE_WRAP_T repeat;
   glTextureParameteri tex GL_TEXTURE_WRAP_R repeat]
  ++ match data with
     | Some pixels =>
         [glTextureSubImage2D tex 0 0 0 width height format GL_UNSIGNED_BYTE pixels]
     | None => []
     end.

(** The upload of face [i], when it was decoded. *)
Definition face_upload (tex : GLuint) (format : GLenum) (width height : GLsizei)
    (i : nat) (face : option image) : list gl_call :=
  match face with
  | Some pixels =>
      [glTextureSubImage3D tex 0 0 0 (Z.of_nat i) width height 1 format GL_UNSIGNED_BYTE pixels]
  | None => []
  end.

Definition texture_cube_calls (tex : GLuint) (internal_format format : GLenum)
    (width height : GLsizei) (faces : list (option image)) : list gl_call :=
  [glCreateTextures GL_TEXTURE_CUBE_MAP tex;
   glTextureStorage2D tex 1 internal_format width height]
  ++ concat (imap (face_upload tex format width height) faces).

(** An upload is faithful when the width and height it declares are those
    of the buffer it reads. *)
Definition upload_matches_pixels (c : gl_call) : Prop :=
  match c with
  | glTextureSubImage2D _ _ _ _ w h _ _ px
  | glTextureSubImage3D _ _ _ _ _ w h _ _ _ px => img_x px = w /\ img_y px = h
  | _ => True
  end.

(** The width and height a texture's storage is allocated with. *)
Definition storage_size (c : gl_call) : option (GLsizei * GLsizei) :=
  match c with
  | glTextureStorage2D _ _ _ w h => Some (w, h)
  | _ => None
  end.

(** A world whose six sky faces do not agree in size: the last one is
    4x4, the others 2x2. *)
Definition uneven_faces_world : world :=
  mk_world (read_file demo_world)
           (fun path _ => if String.eqb path "f5" then Some (mk_image 4 4 4 [])
                          else Some demo_image)
           (compile demo_world) (framebuffer_status demo_world) true "4.5.0" 1920 1080
           (fun _ => 0).

(** The content of the variables [x], [y] after the decodes [faces], in
    order: each successful decode overwrites them. *)
Definition last_decoded (faces : list (option image)) : option (Z * Z) :=
  fold_left (fun xy face => match face with
                            | Some i => Some (img_x i, img_y i)
                            | None => xy
                            end) faces None.

Definition is_storage (c : gl_call) : bool :=
  match c with glTextureStorage2D _ _ _ _ _ => true | _ => false end.

(** A face agrees with the size [width] x [height] when it was not decoded
    or has exactly that size. *)
Definition face_has_size (width height : Z) (face : option image) : Prop :=
  forall i : image, face = Some i -> img_x i = width /\ img_y i = height.

(** ** Geometry *)

Definition attrib_calls (vao : GLuint) (format : attrib_format_t) : list gl_call :=
  [glEnableVertexArrayAttrib vao (attrib_index format);
   glVertexArrayAttribFormat vao (attrib_index format) (size format) (type format) false
                             (relative_offset format);
   glVertexArrayAttribBinding vao (attrib_index format) 0].

Definition geometry_calls {T} `{BufferElem T} (vao vbo ibo : GLuint)
    (vertices : list T) (indices : list uint8_t) (attrib_formats : list attrib_format_t)
  : list gl_call :=
  [glCreateBuffers vbo;
   glNamedBufferStorage vbo (sizeof * Z.of_nat (length vertices)) (buffer_of vertices)
                        GL_DYNAMIC_STORAGE_BIT;
   glCreateBuffers ibo;
   glNamedBufferStorage ibo (1 * Z.of_nat (length indices)) (IndexData indices)
                        GL_DYNAMIC_STORAGE_BIT;
   glCreateVertexArrays vao;
   glVertexArrayVertexBuffer vao 0 vbo 0 sizeof;
   glVertexArrayElementBuffer vao ibo]
  ++ flat_map (attrib_calls vao) attrib_formats.

(** ** The frame loop *)

(** The calls of one frame. *)
Definition frame_calls (W : world) (fov : GLfloat) (h : handles) (i : frame_input)
  : list gl_call :=
  calls (snd (frame W fov h i initial_state)).

(** [ev.type] after an iteration. *)
Definition next_event (ev_type : Z) (i : frame_input) : Z :=
  match polled i with Some t => t | None => ev_type end.

(** The inputs of the iterations the loop runs. *)
Fixpoint iterations (ev_type : Z) (inputs : list frame_input) : list frame_input :=
  if decide (ev_type = SDL_QUIT) then []
  else match inputs with
       | [] => []
       | i :: rest => i :: iterations (next_event ev_type i) rest
       end.

(** Whether the loop test ends the loop within the inputs given. *)
Fixpoint loop_ends (ev_type : Z) (inputs : list frame_input) : bool :=
  if decide (ev_type = SDL_QUIT) then true
  else match inputs with
       | [] => false
       | i :: rest => loop_ends (next_event ev_type i) rest
       end.

(** The calls after the loop. *)
Definition shutdown_calls (h : handles) : list gl_call :=
  [glDeleteBuffers 4 [vbo_cube h; ibo_cube h; vbo_quad h; ibo_quad h];
   glDeleteTextures 9
     [texture_cube_diffuse h; texture_cube_specular h; texture_cube_normal h;
      texture_gbuffer_position h; texture_gbuffer_albedo h; texture_gbuffer_normal h;
      texture_gbuffer_depth h; texture_gbuffer_color h; texture_skybox h];
   glDeleteProgram (vert_shader h); glDeleteProgram (frag_shader h);
   glDeleteProgram (vert_shader_g h); glDeleteProgram (frag_shader_g h);
   glDeleteProgramPipelines 2 [pr h; pr_g h];
   glDeleteVertexArrays 2 [vao_cube h; vao_empty h];
   glDeleteFramebuffers 1 [fb_gbuffer h];
   glDeleteFramebuffers 1 [fb_finalcolor h]].

(** The write of the projection matrix before the loop. *)
Definition projection_write (camera_projection : glm.mat4) (h : handles) : gl_call :=
  glProgramUniformMatrix4fv (vert_shader_g h) uniform_projection 1 false
                            (glm.value_ptr camera_projection).

(** ** The startup of main *)

(** The [k]-th name the driver hands out after [base]. *)
Definition nth_name (base : GLuint) (k : nat) : GLuint :=
  Nat.iter k (fun z => z + 1) base.

(** The handles [main] gets when the driver's counters stand at [n]. *)
Definition startup_handles (n : name_counters) : handles :=
  {| texture_cube_diffuse := nth_name (n_texture n) 0;
     texture_cube_specular := nth_name (n_texture n) 1;
     texture_cube_normal := nth_name (n_texture n) 2;
     texture_skybox := nth_name (n_texture n) 3;
     texture_gbuffer_color := nth_name (n_texture n) 4;
     texture_gbuffer_position := nth_name (n_texture n) 5;
     texture_gbuffer_normal := nth_name (n_texture n) 6;
     texture_gbuffer_albedo := nth_name (n_texture n) 7;
     texture_gbuffer_depth := nth_name (n_texture n) 8;
     fb_gbuffer := nth_name (n_framebuffer n) 0;
     fb_finalcolor := nth_name (n_framebuffer n) 1;
     vao_empty := nth_name (n_vertex_array n) 0;
     vao_cube := nth_name (n_vertex_array n) 1;
     vbo_cube := nth_name (n_buffer n) 0;
     ibo_cube := nth_name (n_buffer n) 1;
     vao_quad := nth_name (n_vertex_array n) 2;
     vbo_quad := nth_name (n_buffer n) 2;
     ibo_quad := nth_name (n_buffer n) 3;
     pr := nth_name (n_pipeline n) 0;
     vert_shader := nth_name (n_program n) 0;
     frag_shader := nth_name (n_program n) 1;
     pr_g := nth_name (n_pipeline n) 1;
     vert_shader_g := nth_name (n_program n) 2;
     frag_shader_g := nth_name (n_program n) 3 |}.

Definition formats_of (comp : stb_comp_t) : GLenum * GLenum :=
  match comp with
  | STBI_rgb_alpha => (GL_RGBA8, GL_RGBA)
  | STBI_rgb => (GL_RGB8, GL_RGB)
  | STBI_grey => (GL_R8, GL_RED)
  | STBI_grey_alpha => (GL_RG8, GL_RG)
  | STBI_default => (0, 0)
  end.

(** What [x], [y] hold after the one decode of
    [create_texture_2d_from_file]: its size, or, when it failed, what the
    never-written variables happen to hold. *)
Definition decoded_size (W : world) (data : option image) : Z * Z :=
  match data with
  | Some px => (img_x px, img_y px)
  | None => (indeterminate W "x", indeterminate W "y")
  end.

(** The calls of a successful [create_texture_2d_from_file]. *)
Definition file_texture_calls (W : world) (tex : GLuint) (path : string) (comp : stb_comp_t)
  : list gl_call :=
  let data := stbi_load W path comp in
  texture_2d_calls tex (fst (formats_of comp)) (snd (formats_of comp))
                   (fst (decoded_size W data)) (snd (decoded_size W data)) data
                   GL_LINEAR GL_REPEAT.

Definition sky_faces (W : world) : list (option image) :=
  map (fun p => stbi_load W p STBI_rgb_alpha) skybox_files.

Definition sky_size (W : world) : Z * Z :=
  default (indeterminate W "x", indeterminate W "y") (last_decoded (sky_faces W)).

(** The calls of a successful [create_texture_cube_from_file] on the sky. *)
Definition sky_calls (W : world) (tex : GLuint) : list gl_call :=
  texture_cube_calls tex GL_RGBA8 GL_RGBA (fst (sky_size W)) (snd (sky_size W))
                     (sky_faces W).

Definition source_of (W : world) (path : string) : string :=
  default "" (read_file W path).

(** The calls of a successful [create_program]. *)
Definition shader_calls (W : world) (pipeline vert frag : GLuint)
    (vert_filepath frag_filepath : string) : list gl_call :=
  program_calls pipeline vert frag
                (source_of W vert_filepath) (source_of W frag_filepath)
                (fst (compile W GL_VERTEX_SHADER (source_of W vert_filepath)))
                (fst (compile W GL_FRAGMENT_SHADER (source_of W frag_filepath))).

Definition vertex_format : list attrib_format_t :=
  [mk_attrib_format 0 3 GL_FLOAT 0; mk_attrib_format 1 3 GL_FLOAT 12;
   mk_attrib_format 2 3 GL_FLOAT 24; mk_attrib_format 3 2 GL_FLOAT 36].

Definition render_target_calls (W : world) (tex : GLuint) (internal_format format : GLenum)
  : list gl_call :=
  texture_2d_calls tex internal_format format (display_w W) (display_h W) None
                   GL_NEAREST GL_REPEAT.

(** The calls of a successful startup, by the handles it produced. *)
Definition startup_calls (W : world) (h : handles) : list gl_call :=
  [glEnable GL_CULL_FACE; glEnable GL_DEPTH_TEST; glEnable GL_PROGRAM_POINT_SIZE]
  ++ file_texture_calls W (texture_cube_diffuse h) ".\textures\T_Default_D.png" STBI_rgb
  ++ file_texture_calls W (texture_cube_specular h) ".\textures\T_Default_S.png" STBI_grey
  ++ file_texture_calls W (texture_cube_normal h) ".\textures\T_Default_N.png" STBI_rgb
  ++ sky_calls W (texture_skybox h)
  ++ render_target_calls W (texture_gbuffer_color h) GL_RGB8 GL_RGB
  ++ render_target_calls W (texture_gbuffer_position h) GL_RGB16F GL_RGB
  ++ render_target_calls W (texture_gbuffer_normal h) GL_RGB16F GL_RGB
  ++ render_target_calls W (texture_gbuffer_albedo h) GL_RGBA16F GL_RGBA
  ++ render_target_calls W (texture_gbuffer_depth h) GL_DEPTH_COMPONENT32 GL_DEPTH
  ++ framebuffer_calls (fb_gbuffer h)
       [texture_gbuffer_position h; texture_gbuffer_normal h; texture_gbuffer_albedo h]
       (texture_gbuffer_depth h)
  ++ framebuffer_calls (fb_finalcolor h) [texture_gbuffer_color h] GL_NONE
  ++ [glCreateVertexArrays (vao_empty h)]
  ++ geometry_calls (vao_cube h) (vbo_cube h) (ibo_cube h)
                    vertices_cube indices_cube vertex_format
  ++ geometry_calls (vao_quad h) (vbo_quad h) (ibo_quad h)
                    vertices_quad indices_quad vertex_format
  ++ shader_calls W (pr h) (vert_shader h) (frag_shader h)
                  ".\shaders\main.vert" ".\shaders\main.frag"
  ++ shader_calls W (pr_g h) (vert_shader_g h) (frag_shader_g h)
                  ".\shaders\gbuffer.vert" ".\shaders\gbuffer.frag".

(** ** Reading a trace *)

(** A write of the uniform at [location] of [program]. *)
Definition writes_uniform (program : GLuint) (location : GLint) (c : gl_call) : bool :=
  match uniform_target c with
  | Some (p, l) => (p =? program) && (l =? location)
  | None => false
  end.

Definition is_draw (c : gl_call) : bool :=
  match c with
  | glDrawElements _ _ _ | glDrawArrays _ _ _ => true
  | _ => false
  end.

(** The calls of [t] before its first draw call. *)
Fixpoint before_first_draw (t : list gl_call) : list gl_call :=
  match t with
  | [] => []
  | c :: rest => if is_draw c then [] else c :: before_first_draw rest
  end.

(** The colour slots of [fbo] a texture is attached to in [t]. *)
Definition attached_color_slots (fbo : GLuint) (t : list gl_call) : list Z :=
  flat_map (fun c => match c with
                     | glNamedFramebufferTexture f attachment _ _ =>
                         if (f =? fbo) && (GL_COLOR_ATTACHMENT0 <=? attachment)
                            && (attachment <? GL_COLOR_ATTACHMENT0 + 32)
                         then [attachment - GL_COLOR_ATTACHMENT0] else []
                     | _ => []
                     end) t.

(** A call that gives the vertex array [vao] a vertex buffer, an index
    buffer or an attribute. *)
Definition feeds_vertex_array (vao : GLuint) (c : gl_call) : bool :=
  match c with
  | glVertexArrayVertexBuffer v _ _ _ _ | glVertexArrayElementBuffer v _
  | glEnableVertexArrayAttrib v _ | glVertexArrayAttribFormat v _ _ _ _ _
  | glVertexArrayAttribBinding v _ _ => v =? vao
  | _ => false
  end.

(** The objects a call creates, and the objects a call deletes.
    [glDeleteShader] deletes shader objects; [validate_program] passes it
    the name of a program object, which it leaves alone. *)
Definition created (c : gl_call) : list (object_kind * GLuint) :=
  match c with
  | glCreateBuffers n => [(Buffer, n)]
  | glCreateVertexArrays n => [(VertexArray, n)]
  | glCreateShaderProgramv _ _ n => [(Program, n)]
  | glCreateProgramPipelines n => [(ProgramPipeline, n)]
  | glCreateTextures _ n => [(Texture, n)]
  | glCreateFramebuffers n => [(Framebuffer, n)]
  | _ => []
  end.

Definition deleted (c : gl_call) : list (object_kind * GLuint) :=
  match c with
  | glDeleteBuffers _ items => map (pair Buffer) items
  | glDeleteVertexArrays _ items => map (pair VertexArray) items
  | glDeleteProgram p => [(Program, p)]
  | glDeleteProgramPipelines _ items => map (pair ProgramPipeline) items
  | glDeleteTextures _ items => map (pair Texture) items
  | glDeleteFramebuffers _ items => map (pair Framebuffer) items
  | _ => []
  end.

(** Inputs for a run of two frames: the second iteration takes the quit
    event from the queue. *)
Definition demo_matrix : glm.mat4 :=
  glm.mk_mat4 (glm.mk_vec4 glm.f1 glm.f0 glm.f0 glm.f0) (glm.mk_vec4 glm.f0 glm.f1 glm.f0 glm.f0)
              (glm.mk_vec4 glm.f0 glm.f0 glm.f1 glm.f0) (glm.mk_vec4 glm.f0 glm.f0 glm.f0 glm.f1).

Definition demo_frame (event : option Z) : frame_input :=
  {| polled := event;
     camera_view := demo_matrix;
     camera_position := glm.mk_vec3 glm.f0 glm.f0 glm.f0;
     camera_dir := glm.mk_mat3 (glm.mk_vec3 glm.f1 glm.f0 glm.f0)
                               (glm.mk_vec3 glm.f0 glm.f1 glm.f0)
                               (glm.mk_vec3 glm.f0 glm.f0 glm.f1);
     model_cube := demo_matrix;
     model_orbit := fun _ => demo_matrix;
     model_quad := demo_matrix;
     aspect := glm.f1;
     uvs_diff := glm.mk_vec2 glm.f1 glm.f1 |}.

Definition demo_inputs : list frame_input :=
  [demo_frame None; demo_frame (Some SDL_QUIT); demo_frame None].

(** ** The lighting pass *)

(** The binds that open the lighting pass of a frame. *)
Definition lighting_binds (h : handles) : list gl_call :=
  [glBindFramebuffer GL_FRAMEBUFFER (fb_finalcolor h);
   glBindTextureUnit 0 (texture_gbuffer_position h);
   glBindTextureUnit 1 (texture_gbuffer_normal h);
   glBindTextureUnit 2 (texture_gbuffer_albedo h);
   glBindTextureUnit 3 (texture_gbuffer_depth h);
   glBindTextureUnit 4 (texture_skybox h);
   glBindProgramPipeline (pr h);
   glBindVertexArray (vao_empty h)].

Definition is_draw_arrays (c : gl_call) : bool :=
  match c with glDrawArrays _ _ _ => true | _ => false end.

Definition is_uniform_write (c : gl_call) : bool :=
  match uniform_target c with Some _ => true | None => false end.

(** The objects a finished run has created, in the order of creation. *)
Definition objects_created : list (object_kind * GLuint) :=
  [(Texture, 1); (Texture, 2); (Texture, 3); (Texture, 4); (Texture, 5); (Texture, 6);
   (Texture, 7); (Texture, 8); (Texture, 9); (Framebuffer, 1); (Framebuffer, 2);
   (VertexArray, 1); (Buffer, 1); (Buffer, 2); (VertexArray, 2); (Buffer, 3); (Buffer, 4);
   (VertexArray, 3); (Program, 1); (Program, 2); (ProgramPipeline, 1); (Program, 3);
   (Program, 4); (ProgramPipeline, 2)].

(** The objects a finished run has deleted, in the order of deletion. *)
Definition objects_deleted : list (object_kind * GLuint) :=
  [(Buffer, 1); (Buffer, 2); (Buffer, 3); (Buffer, 4);
   (Texture, 1); (Texture, 2); (Texture, 3); (Texture, 6); (Texture, 8); (Texture, 7);
   (Texture, 9); (Texture, 5); (Texture, 4);
   (Program, 1); (Program, 2); (Program, 3); (Program, 4);
   (ProgramPipeline, 1); (ProgramPipeline, 2);
   (VertexArray, 2); (VertexArray, 1); (Framebuffer, 1); (Framebuffer, 2)].

(** ** Indexing a mesh *)

(** The index list reaches every one of the first [n] vertices. *)
Definition mesh_uses_all_vertices (n : nat) (indices : list uint8_t) : Prop :=
  forall k : nat, (k < n)%nat -> In (Z.of_nat k) (map uint8_value indices).

(** The 256 index values, in order. *)
Definition all_indices : list uint8_t :=
  map (fun k => u8 (N.of_nat k)) (seq 0 256).

(** The index type of an indexed draw. *)
Definition draws_with_8_bit_indices (c : gl_call) : bool :=
  match c with
  | glDrawElements _ _ ty => ty =? GL_UNSIGNED_BYTE
  | _ => true
  end.

(** * Beyond the claims: more of source.cpp *)

(** Whether a call returned. *)
Definition is_ok {A} (o : outcome A) : bool :=
  match o with Ok _ => true | _ => false end.

(** ** Failures of the constructors *)

(** The file [create_program] reports: the vertex source when it is
    missing, and else the fragment source. *)
Definition first_missing (W : world) (vert_filepath frag_filepath : string) : string :=
  match read_file W vert_filepath with
  | None => vert_filepath
  | Some _ => frag_filepath
  end.

(** A world without any file. *)
Definition no_files_world : world :=
  mk_world (fun _ => None) (stbi_load demo_world) (compile demo_world)
           (framebuffer_status demo_world) true "4.5.0" 1920 1080 (fun _ => 0).

(** A world whose driver finds every framebuffer incomplete (0x8CD6 is
    GL_FRAMEBUFFER_INCOMPLETE_ATTACHMENT). *)
Definition incomplete_world : world :=
  mk_world (read_file demo_world) (stbi_load demo_world) (compile demo_world)
           (fun _ _ => 0x8CD6) true "4.5.0" 1920 1080 (fun _ => 0).

(** A world in which every file exists and none decodes; the variables
    never written hold 640 and -3. *)
Definition undecodable_world : world :=
  mk_world (fun _ => Some "") (fun _ _ => None) (compile demo_world)
           (framebuffer_status demo_world) true "4.5.0" 1920 1080
           (fun name => if String.eqb name "x" then 640 else -3).

Definition is_upload_2d (c : gl_call) : bool :=
  match c with glTextureSubImage2D _ _ _ _ _ _ _ _ _ => true | _ => false end.

(** The widths and heights of the texture storages allocated in [t]. *)
Definition storage_sizes (t : list gl_call) : list (GLsizei * GLsizei) :=
  omap storage_size t.

(** The cube layer a call uploads to, with the image uploaded. *)
Definition upload_layer (c : gl_call) : list (Z * image) :=
  match c with
  | glTextureSubImage3D _ _ _ _ zoffset _ _ _ _ _ pixels => [(zoffset, pixels)]
  | _ => []
  end.

(** The faces that were decoded, each with its index counted from
    [first]. *)
Fixpoint decoded_layers (first : nat) (faces : list (option image)) : list (Z * image) :=
  match faces with
  | [] => []
  | Some pixels :: rest => (Z.of_nat first, pixels) :: decoded_layers (S first) rest
  | None :: rest => decoded_layers (S first) rest
  end.


(** ** What a call is for *)

Definition is_delete (c : gl_call) : bool :=
  match c with
  | glDeleteProgramPipelines _ _ | glDeleteProgram _ | glDeleteBuffers _ _
  | glDeleteTextures _ _ | glDeleteVertexArrays _ _ | glDeleteFramebuffers _ _ => true
  | _ => false
  end.


Definition is_blit (c : gl_call) : bool :=
  match c with glBlitNamedFramebuffer _ _ _ _ _ _ _ _ _ _ _ _ => true | _ => false end.

Definition is_swap (c : gl_call) : bool :=
  match c with SDL_GL_SwapWindow => true | _ => false end.

(** A call of the startup: it neither draws, nor writes a uniform, nor
    deletes, nor presents. *)
Definition is_setup_call (c : gl_call) : bool :=
  negb (is_draw c || is_uniform_write c || is_delete c || is_blit c || is_swap c).

(** [m] issues only calls that satisfy [P], however it ends. *)
Definition emits_only (P : gl_call -> bool) {A} (m : GL A) : Prop :=
  forall s out s', m s = (out, s') ->
    exists t, calls s' = calls s ++ t /\ forallb P t = true.

(** [m] throws only messages that satisfy [Q]. *)
Definition throws_only (Q : string -> bool) {A} (m : GL A) : Prop :=
  forall s what s', m s = (Throw what, s') -> Q what = true.

(** The message of a missing file. *)
Definition missing_file (path : string) : string :=
  "file " +:+ path +:+ " does not exist.".

(** The exceptions the startup of [main] can throw. *)
Definition startup_errors : list string :=
  ["failed to load gl";
   missing_file ".\textures\T_Default_D.png";
   missing_file ".\textures\T_Default_S.png";
   missing_file ".\textures\T_Default_N.png";
   "incomplete framebuffer";
   missing_file ".\shaders\main.vert";
   missing_file ".\shaders\main.frag";
   missing_file ".\shaders\gbuffer.vert";
   missing_file ".\shaders\gbuffer.frag"].

Definition is_startup_error (what : string) : bool :=
  existsb (String.eqb what) startup_errors.

(** ** The end of the loop *)

(** The iteration whose poll takes the quit event from the queue. *)
Fixpoint first_quit (inputs : list frame_input) : option nat :=
  match inputs with
  | [] => None
  | i :: rest =>
      if decide (polled i = Some SDL_QUIT) then Some 0%nat
      else S <$> first_quit rest
  end.

(** Whether some iteration polls the quit event. *)
Definition quits (inputs : list frame_input) : bool :=
  match first_quit inputs with Some _ => true | None => false end.

(** The iterations the loop runs: up to and including the one that polls
    the quit event. *)
Definition frames_drawn (inputs : list frame_input) : list frame_input :=
  match first_quit inputs with
  | Some k => take (S k) inputs
  | None => inputs
  end.

(** ** Render targets and viewports *)

(** The viewports set in [t]. *)
Definition viewports (t : list gl_call) : list (GLint * GLint * GLsizei * GLsizei) :=
  flat_map (fun c => match c with
                     | glViewport x y width height => [(x, y, width, height)]
                     | _ => []
                     end) t.

(** The textures [main] renders into. *)
Definition render_targets (h : handles) : list GLuint :=
  [texture_gbuffer_color h; texture_gbuffer_position h; texture_gbuffer_normal h;
   texture_gbuffer_albedo h; texture_gbuffer_depth h].

(** ** Reading a trace with a state

    A checker follows a trace call by call; it stops with [None] at the
    first call it rejects. *)
Fixpoint run_checker {S} (step : S -> gl_call -> option S) (st : S) (t : list gl_call)
  : option S :=
  match t with
  | [] => Some st
  | c :: rest =>
      match step st c with
      | Some st' => run_checker step st' rest
      | None => None
      end
  end.

(** ** Object lifetimes *)

(** The object a name stands for; the name 0 stands for none (and for
    the window's framebuffer). *)
Definition named (k : object_kind) (n : GLuint) : list (object_kind * GLuint) :=
  if n =? 0 then [] else [(k, n)].

(** The objects a call names and expects to exist, of the kinds the
    program creates.  [glDeleteShader] names a shader object, a kind of
    which the program creates none: see [names_shader]. *)
Definition references (c : gl_call) : list (object_kind * GLuint) :=
  match c with
  | glNamedBufferStorage buffer _ _ _ => [(Buffer, buffer)]
  | glVertexArrayVertexBuffer vao _ buffer _ _ => [(VertexArray, vao); (Buffer, buffer)]
  | glVertexArrayElementBuffer vao buffer => [(VertexArray, vao); (Buffer, buffer)]
  | glEnableVertexArrayAttrib vao _ | glVertexArrayAttribFormat vao _ _ _ _ _
  | glVertexArrayAttribBinding vao _ _ => [(VertexArray, vao)]
  | glProgramParameteri p _ _ | glGetProgramiv p _ | glGetProgramInfoLog p _ => [(Program, p)]
  | glUseProgramStages pipeline _ p => [(ProgramPipeline, pipeline); (Program, p)]
  | glTextureStorage2D tex _ _ _ _ | glTextureParameteri tex _ _
  | glTextureSubImage2D tex _ _ _ _ _ _ _ _
  | glTextureSubImage3D tex _ _ _ _ _ _ _ _ _ _ => [(Texture, tex)]
  | glNamedFramebufferTexture fbo _ tex _ => (Framebuffer, fbo) :: named Texture tex
  | glNamedFramebufferDrawBuffers fbo _ _ | glCheckNamedFramebufferStatus fbo _ =>
      [(Framebuffer, fbo)]
  | glClearNamedFramebufferfv fbo _ _ _ => named Framebuffer fbo
  | glBindFramebuffer _ fbo => named Framebuffer fbo
  | glBindTextureUnit _ tex => named Texture tex
  | glBindProgramPipeline pipeline => named ProgramPipeline pipeline
  | glBindVertexArray vao => named VertexArray vao
  | glBlitNamedFramebuffer readfb drawfb _ _ _ _ _ _ _ _ _ _ =>
      named Framebuffer readfb ++ named Framebuffer drawfb
  | glDeleteProgramPipelines _ _ | glDeleteProgram _ | glDeleteBuffers _ _
  | glDeleteTextures _ _ | glDeleteVertexArrays _ _ | glDeleteFramebuffers _ _ => deleted c
  | _ => match uniform_target c with
         | Some (p, _) => [(Program, p)]
         | None => []
         end
  end.

Definition same_object (a b : object_kind * GLuint) : bool :=
  bool_decide (fst a = fst b) && (snd a =? snd b).

Definition is_live (live : list (object_kind * GLuint)) (o : object_kind * GLuint) : bool :=
  existsb (same_object o) live.

(** Whether a call names a shader object.  No call of the program creates
    one ([glCreateShaderProgramv] creates a program object), so a call
    that names one names an object that does not exist, whatever the
    name; the name 0 is no name, and the driver ignores it. *)
Definition names_shader (c : gl_call) : bool :=
  match c with
  | glDeleteShader shader => negb (shader =? 0)
  | _ => false
  end.

(** One call against the objects alive: it must name live objects only,
    and no shader object; what it creates is alive after it, what it
    deletes is not. *)
Definition scope_step (live : list (object_kind * GLuint)) (c : gl_call)
  : option (list (object_kind * GLuint)) :=
  if negb (names_shader c) && forallb (is_live live) (references c)
  then Some (List.filter (fun o => negb (is_live (deleted c) o)) (live ++ created c))
  else None.

(** ** Fetching indices and vertices *)

(** What the driver knows of a vertex array: the buffer at binding 0 with
    its offset and stride, the index buffer, the attributes enabled, and
    the size, type and relative offset each attribute was given. *)
Record vertex_array := mk_vertex_array {
  va_buffer : option (GLuint * Z * GLsizei);
  va_elements : option GLuint;
  va_enabled : list GLuint;
  va_formats : list (GLuint * (GLint * GLenum * GLuint))
}.

Record fetch_state := mk_fetch {
  fs_storage : list (GLuint * (Z * buffer_data));
  fs_arrays : list (GLuint * vertex_array);
  fs_bound : GLuint
}.

Definition assoc {V} (k : GLuint) (l : list (GLuint * V)) : option V :=
  snd <$> List.find (fun e => fst e =? k) l.

Definition unassoc {V} (ks : list GLuint) (l : list (GLuint * V)) : list (GLuint * V) :=
  List.filter (fun e => negb (existsb (Z.eqb (fst e)) ks)) l.

(** Change the vertex array [vao], which has to exist. *)
Definition with_array (st : fetch_state) (vao : GLuint) (f : vertex_array -> vertex_array)
  : option fetch_state :=
  match assoc vao (fs_arrays st) with
  | Some va => Some (mk_fetch (fs_storage st) ((vao, f va) :: fs_arrays st) (fs_bound st))
  | None => None
  end.

(** The bytes of one component of an attribute. *)
Definition component_bytes (ty : GLenum) : option Z :=
  if (ty =? GL_FLOAT) || (ty =? GL_INT) || (ty =? GL_UNSIGNED_INT) then Some 4 else None.

(** Every enabled attribute of the vertex [index] lies inside the vertex
    buffer. *)
Definition vertex_in_bounds (st : fetch_state) (va : vertex_array) (index : Z) : bool :=
  forallb (fun attrib =>
             match va_buffer va, assoc attrib (va_formats va) with
             | Some (buffer, offset, stride), Some (sz, ty, reloff) =>
                 match assoc buffer (fs_storage st), component_bytes ty with
                 | Some (bytes, _), Some b =>
                     let first := offset + index * stride + reloff in
                     (0 <=? first) && (first + sz * b <=? bytes)
                 | _, _ => false
                 end
             | _, _ => false
             end) (va_enabled va).

(** [glDrawElements(mode, count, GL_UNSIGNED_BYTE, nullptr)]: the [count]
    indices lie inside the index buffer of the bound vertex array, and
    each vertex they select inside its vertex buffer. *)
Definition draw_elements_ok (st : fetch_state) (count : GLsizei) (ty : GLenum) : bool :=
  (ty =? GL_UNSIGNED_BYTE) && (0 <=? count)
  && match assoc (fs_bound st) (fs_arrays st) with
     | Some va =>
         match va_elements va with
         | Some ibo =>
             match assoc ibo (fs_storage st) with
             | Some (bytes, IndexData indices) =>
                 (count <=? bytes) && (count <=? Z.of_nat (length indices))
                 && forallb (fun b => vertex_in_bounds st va (uint8_value b))
                            (take (Z.to_nat count) indices)
             | _ => false
             end
         | None => false
         end
     | None => false
     end.

(** [glDrawArrays(mode, first, count)]. *)
Definition draw_arrays_ok (st : fetch_state) (first : GLint) (count : GLsizei) : bool :=
  (0 <=? first) && (0 <=? count)
  && match assoc (fs_bound st) (fs_arrays st) with
     | Some va =>
         forallb (fun k => vertex_in_bounds st va (first + Z.of_nat k))
                 (seq 0 (Z.to_nat count))
     | None => false
     end.

(** One call against what the driver knows of buffers and vertex arrays.
    Only the binding 0 the program uses is followed. *)
Definition fetch_step (st : fetch_state) (c : gl_call) : option fetch_state :=
  match c with
  | glNamedBufferStorage buffer bytes data _ =>
      Some (mk_fetch ((buffer, (bytes, data)) :: fs_storage st) (fs_arrays st) (fs_bound st))
  | glCreateVertexArrays vao =>
      Some (mk_fetch (fs_storage st)
                     ((vao, mk_vertex_array None None [] []) :: fs_arrays st) (fs_bound st))
  | glVertexArrayVertexBuffer vao bindingindex buffer offset stride =>
      if bindingindex =? 0
      then with_array st vao (fun va =>
             mk_vertex_array (Some (buffer, offset, stride)) (va_elements va)
                             (va_enabled va) (va_formats va))
      else None
  | glVertexArrayElementBuffer vao buffer =>
      with_array st vao (fun va =>
        mk_vertex_array (va_buffer va) (Some buffer) (va_enabled va) (va_formats va))
  | glEnableVertexArrayAttrib vao index =>
      with_array st vao (fun va =>
        mk_vertex_array (va_buffer va) (va_elements va) (index :: va_enabled va) (va_formats va))
  | glVertexArrayAttribFormat vao index sz ty _ reloff =>
      with_array st vao (fun va =>
        mk_vertex_array (va_buffer va) (va_elements va) (va_enabled va)
                        ((index, (sz, ty, reloff)) :: va_formats va))
  | glVertexArrayAttribBinding vao _ bindingindex =>
      if bindingindex =? 0 then with_array st vao (fun va => va) else None
  | glDeleteBuffers _ items =>
      Some (mk_fetch (unassoc items (fs_storage st)) (fs_arrays st) (fs_bound st))
  | glDeleteVertexArrays _ items =>
      Some (mk_fetch (fs_storage st) (unassoc items (fs_arrays st)) (fs_bound st))
  | glBindVertexArray vao => Some (mk_fetch (fs_storage st) (fs_arrays st) vao)
  | glDrawElements _ count ty => if draw_elements_ok st count ty then Some st else None
  | glDrawArrays _ first count => if draw_arrays_ok st first count then Some st else None
  | _ => Some st
  end.

Definition no_buffers : fetch_state := mk_fetch [] [] 0.

(** Whether every draw of [t] fetches inside the buffers. *)
Definition fetches_in_bounds (t : list gl_call) : bool :=
  match run_checker fetch_step no_buffers t with Some _ => true | None => false end.

(** Whether every call of [t] names objects that exist when it is
    issued, and the objects left alive at the end. *)
Definition well_scoped (t : list gl_call) : bool :=
  match run_checker scope_step [] t with Some _ => true | None => false end.

Definition left_alive (t : list gl_call) : list (object_kind * GLuint) :=
  default [] (run_checker scope_step [] t).

(** The names handed to [glDeleteShader] in [t], and [t] without these
    calls. *)
Definition shaders_deleted (t : list gl_call) : list GLuint :=
  flat_map (fun c => match c with glDeleteShader shader => [shader] | _ => [] end) t.

Definition is_delete_shader (c : gl_call) : bool :=
  match c with glDeleteShader _ => true | _ => false end.

Definition without_delete_shader (t : list gl_call) : list gl_call :=
  List.filter (fun c => negb (is_delete_shader c)) t.

(** [scope_step] with the calls of [glDeleteShader] passed over. *)
Definition lenient_step (live : list (object_kind * GLuint)) (c : gl_call)
  : option (list (object_kind * GLuint)) :=
  if is_delete_shader c then Some live else scope_step live c.

(** The names [validate_program] hands to [glDeleteShader] for the stage
    programs [vert] and [frag] with the given link status. *)
Definition unlinked (vert frag : GLuint) (vert_linked frag_linked : bool) : list GLuint :=
  (if vert_linked then [] else [vert]) ++ (if frag_linked then [] else [frag]).

(** The four stage programs of [main] with the link status the driver
    gives each, in the order [main] builds them, and those that failed to
    link. *)
Definition stages (W : world) (h : handles) : list (GLuint * bool) :=
  [(vert_shader h, fst (compile W GL_VERTEX_SHADER (source_of W ".\shaders\main.vert")));
   (frag_shader h, fst (compile W GL_FRAGMENT_SHADER (source_of W ".\shaders\main.frag")));
   (vert_shader_g h, fst (compile W GL_VERTEX_SHADER (source_of W ".\shaders\gbuffer.vert")));
   (frag_shader_g h,
    fst (compile W GL_FRAGMENT_SHADER (source_of W ".\shaders\gbuffer.frag")))].

Definition failed_stages (W : world) (h : handles) : list GLuint :=
  map fst (List.filter (fun st => negb (snd st)) (stages W h)).

Definition all_linked (W : world) (h : handles) : bool :=
  forallb snd (stages W h).

(** ** Frame times *)

(** A formatter that prints the same short text for every argument. *)
Definition demo_expansion {Args} (format : string) (args : Args) : option string :=
  Some "frametime".

(** [SDL_GetTicks() / 1000.0]. *)
Definition seconds (ticks : Z) : GLdouble :=
  double.div (double.of_int ticks) (double.of_int 1000).

(** What [t1] holds after the iterations with the given ticks. *)
Definition last_seconds (t1 : GLdouble) (ticks : list Z) : GLdouble :=
  match last ticks with
  | Some now => seconds now
  | None => t1
  end.

(** The frame times [dt] of the iterations. *)
Fixpoint frame_deltas (t1 : GLdouble) (ticks : list Z) : list GLdouble :=
  match ticks with
  | [] => []
  | now :: rest => double.sub (seconds now) t1 :: frame_deltas (seconds now) rest
  end.

(** The sum [deltaTimeAverage] accumulates over the frame times [dts]. *)
Definition accumulate (dts : list GLdouble) (sum : GLdouble) : GLdouble :=
  fold_left double.add dts sum.

(** The two numbers the title shows for the frame times of one block:
    the average in milliseconds and its inverse. *)
Definition title_numbers (dts : list GLdouble) : GLdouble * GLdouble :=
  let average := double.div (accumulate dts double.zero) (double.of_int framesToAverage) in
  (double.mul (double.of_int 1000) average, double.div (double.of_int 1) average).

(** The [k]-th block of ten frame times. *)
Definition block (k : nat) (dts : list GLdouble) : list GLdouble :=
  take 10 (drop (10 * k) dts).

(** ** Keys *)

(** Whether [SDL_GetKeyboardState] reports the key as held. *)
Definition is_down (state : Z) : bool := negb (state =? 0).

(** The three arrays have their 512 entries, and the first [n] entries
    of [key] have been written. *)
Definition keys_ready (n : nat) (k : keyboard) : Prop :=
  length (key k) = 512%nat
  /\ length (key_pressed k) = 512%nat
  /\ length (key_released k) = 512%nat
  /\ forall i : nat, (i < n)%nat -> exists held : bool, key k !! i = Some (Some held).

(** A keyboard with every entry written: no key held. *)
Definition idle_keys : keyboard :=
  mk_keyboard (replicate 512 (Some false)) (replicate 512 (Some false))
              (replicate 512 (Some false)).

(** ** What is bound when a draw is issued *)

(** The framebuffer, the pipeline and the vertex array bound, and the
    textures bound to units, the latest binding first. *)
Record bindings := mk_bindings {
  b_framebuffer : GLuint;
  b_pipeline : GLuint;
  b_vertex_array : GLuint;
  b_units : list (GLuint * GLuint)
}.

Definition bind_step (b : bindings) (c : gl_call) : bindings :=
  match c with
  | glBindFramebuffer target fbo =>
      if target =? GL_FRAMEBUFFER
      then mk_bindings fbo (b_pipeline b) (b_vertex_array b) (b_units b)
      else b
  | glBindProgramPipeline pipeline =>
      mk_bindings (b_framebuffer b) pipeline (b_vertex_array b) (b_units b)
  | glBindVertexArray vao =>
      mk_bindings (b_framebuffer b) (b_pipeline b) vao (b_units b)
  | glBindTextureUnit unit_ tex =>
      mk_bindings (b_framebuffer b) (b_pipeline b) (b_vertex_array b)
                  ((unit_, tex) :: b_units b)
  | _ => b
  end.

(** The bindings under which each draw of [t] is issued, and the
    bindings [t] leaves. *)
Fixpoint draw_bindings (b : bindings) (t : list gl_call) : list bindings * bindings :=
  match t with
  | [] => ([], b)
  | c :: rest =>
      let r := draw_bindings (bind_step b c) rest in
      (if is_draw c then bind_step b c :: fst r else fst r, snd r)
  end.

(** The framebuffer, pipeline and vertex array of [b], and the textures
    at the units 0 to 4. *)
Definition pass_state (b : bindings)
  : GLuint * GLuint * GLuint * list (option GLuint) :=
  (b_framebuffer b, b_pipeline b, b_vertex_array b,
   map (fun unit_ => assoc unit_ (b_units b)) [0; 1; 2; 3; 4]).

(** The state of the geometry pass with the vertex array [vao], on top
    of the bindings [b] the frame started with, and the state of the
    lighting pass. *)
Definition geometry_state (h : handles) (vao : GLuint) (b : bindings)
  : GLuint * GLuint * GLuint * list (option GLuint) :=
  (fb_gbuffer h, pr_g h, vao,
   [Some (texture_cube_diffuse h); Some (texture_cube_specular h);
    Some (texture_cube_normal h); assoc 3 (b_units b); assoc 4 (b_units b)]).

Definition lighting_state (h : handles) (fbo : GLuint)
  : GLuint * GLuint * GLuint * list (option GLuint) :=
  (fbo, pr h, vao_empty h,
   [Some (texture_gbuffer_position h); Some (texture_gbuffer_normal h);
    Some (texture_gbuffer_albedo h); Some (texture_gbuffer_depth h);
    Some (texture_skybox h)]).

Definition nothing_bound : bindings := mk_bindings 0 0 0 [].

(** ** Vertex layout *)

(** The bytes an attribute covers in a vertex: from its relative offset,
    as many 4-byte components as its size. *)
Definition attrib_extent (f : attrib_format_t) : Z * Z :=
  (relative_offset f, relative_offset f + 4 * size f).

(** Whether the attributes follow one another without a gap or an
    overlap, from the byte [first] to the byte [stride]. *)
Fixpoint tiles (first stride : Z) (formats : list attrib_format_t) : bool :=
  match formats with
  | [] => first =? stride
  | f :: rest => (fst (attrib_extent f) =? first) && tiles (snd (attrib_extent f)) stride rest
  end.

(** * Proofs *)

(** ** The monad and the trace *)

Lemma call_emit c s : call c s = (Ok tt, emit [c] s).
Proof. reflexivity. Qed.

Lemma emit_emit t1 t2 s : emit t2 (emit t1 s) = emit (t1 ++ t2) s.
Proof. unfold emit; simpl. by rewrite app_assoc. Qed.

Lemma emit_nil s : emit [] s = s.
Proof. destruct s; unfold emit; simpl. by rewrite app_nil_r. Qed.

Lemma count_calls_app p t1 t2 :
  count_calls p (t1 ++ t2) = (count_calls p t1 + count_calls p t2)%nat.
Proof. unfold count_calls. by rewrite List.filter_app, length_app. Qed.

Lemma count_calls_none p t :
  Forall (fun c => p c = false) t -> count_calls p t = 0%nat.
Proof.
  unfold count_calls. induction 1 as [|c t Hc _ IH]; [reflexivity|].
  simpl. by rewrite Hc.
Qed.

(** Run the straight-line part of a computation; the state it starts from
    has to be an explicit record, or its projections get stuck. *)
Ltac gl_run :=
  cbv beta iota delta [bind ret call log fresh create throw undefined
                       next_name programs calls clog next_of bump
                       n_buffer n_vertex_array n_program n_pipeline n_texture n_framebuffer];
  cbn [fst snd].

Lemma bind_ok {A B} (m : GL A) (f : A -> GL B) s a s' :
  m s = (Ok a, s') -> bind m f s = f a s'.
Proof. intros E. unfold bind. by rewrite E. Qed.

Lemma bind_ub {A B} (m : GL A) (f : A -> GL B) s s' :
  m s = (UB, s') -> bind m f s = (UB, s').
Proof. intros E. unfold bind. by rewrite E. Qed.

Lemma attach_loop fbo (rest : list GLuint) : forall (pre : list GLuint) s,
  for_range (length pre) (length rest)
    (fun i => match (pre ++ rest) !! i with
              | Some tex => call (glNamedFramebufferTexture fbo (GL_COLOR_ATTACHMENT0 + Z.of_nat i) tex 0)
              | None => undefined
              end) s
  = (Ok tt, emit (color_attachments fbo (length pre) rest) s).
Proof.
  induction rest as [|tex rest IH]; intros pre s.
  - simpl. by rewrite emit_nil.
  - simpl for_range.
    erewrite bind_ok; last first.
    { rewrite lookup_app_r by lia. rewrite Nat.sub_diag. simpl. apply call_emit. }
    specialize (IH (pre ++ [tex])).
    rewrite length_app in IH. simpl in IH. rewrite Nat.add_1_r in IH.
    rewrite <- app_assoc in IH. simpl in IH. rewrite IH.
    rewrite emit_emit. f_equal. f_equal.
    unfold color_attachments. simpl. rewrite Nat.add_0_r. f_equal.
    apply imap_ext. intros i x _. simpl. do 2 f_equal. lia.
Qed.

Lemma wrap32_slot (i : nat) : (i < 32)%nat ->
  wrap32 (GL_COLOR_ATTACHMENT0 + Z.of_nat i) = GL_COLOR_ATTACHMENT0 + Z.of_nat i.
Proof.
  intros Hi. unfold wrap32, GL_COLOR_ATTACHMENT0. apply Z.mod_small. lia.
Qed.

Lemma fill_draw_buffs_in_bounds (n : nat) : forall (pre rest : list (option GLenum)) s,
  (n <= length rest)%nat -> (length pre + length rest <= 32)%nat ->
  fill_draw_buffs (length pre) n (pre ++ rest) s
  = (Ok (pre ++ map Some (draw_buffer_slots (length pre) n) ++ drop n rest), s).
Proof.
  induction n as [|n IH]; intros pre rest s Hn H32.
  - reflexivity.
  - destruct rest as [|x rest]; simpl in Hn; [lia|].
    simpl fill_draw_buffs. unfold array_write.
    destruct (decide (length pre < length (pre ++ x :: rest))%nat) as [_|Hge].
    2:{ rewrite length_app in Hge. simpl in Hge. lia. }
    unfold bind at 1, ret at 1.
    rewrite wrap32_slot by (simpl in H32; lia).
    replace (<[length pre:=_]> (pre ++ x :: rest))
      with ((pre ++ [Some (GL_COLOR_ATTACHMENT0 + Z.of_nat (length pre))]) ++ rest).
    2:{ rewrite <- (Nat.add_0_r (length pre)) at 2. rewrite insert_app_r.
        by rewrite <- app_assoc. }
    specialize (IH (pre ++ [Some (GL_COLOR_ATTACHMENT0 + Z.of_nat (length pre))]) rest s).
    rewrite length_app in IH. simpl in IH, H32. rewrite Nat.add_1_r in IH.
    rewrite IH by lia. by rewrite <- app_assoc.
Qed.

Lemma fill_draw_buffs_overflow (n : nat) : forall (pre rest : list (option GLenum)) s,
  (length rest < n)%nat -> (length pre + length rest <= 32)%nat ->
  fill_draw_buffs (length pre) n (pre ++ rest) s = (UB, s).
Proof.
  induction n as [|n IH]; intros pre rest s Hn H32; [lia|].
  simpl fill_draw_buffs. unfold array_write.
  destruct rest as [|x rest].
  - rewrite app_nil_r.
    destruct (decide (length pre < length pre)%nat); [lia|reflexivity].
  - destruct (decide (length pre < length (pre ++ x :: rest))%nat) as [_|Hge].
    2:{ rewrite length_app in Hge. simpl in Hge. lia. }
    unfold bind at 1, ret at 1.
    replace (<[length pre:=_]> (pre ++ x :: rest))
      with ((pre ++ [Some (wrap32 (GL_COLOR_ATTACHMENT0 + Z.of_nat (length pre)))]) ++ rest).
    2:{ rewrite <- (Nat.add_0_r (length pre)) at 2. rewrite insert_app_r.
        by rewrite <- app_assoc. }
    specialize (IH (pre ++ [Some (wrap32 (GL_COLOR_ATTACHMENT0 + Z.of_nat (length pre)))]) rest s).
    rewrite length_app in IH. simpl in IH, H32, Hn. rewrite Nat.add_1_r in IH.
    apply IH; lia.
Qed.

Lemma array_read_written (vs : list GLenum) : forall (rest : list (option GLenum)) s,
  array_read (length vs) (map Some vs ++ rest) s = (Ok vs, s).
Proof.
  induction vs as [|v vs IH]; intros rest s; [reflexivity|].
  simpl. unfold bind. by rewrite IH.
Qed.

Lemma create_run k c s :
  create k c s = (Ok (next_of k (next_name s)), emit [c (next_of k (next_name s))] (alloc k s)).
Proof. reflexivity. Qed.

Lemma create_framebuffer_run W cols depth s :
  (length cols <= 32)%nat ->
  let fbo := n_framebuffer (next_name s) in
  let s' := emit (framebuffer_calls fbo cols depth) (alloc Framebuffer s) in
  create_framebuffer W cols depth s
  = (if decide (framebuffer_status W (calls s') fbo = GL_FRAMEBUFFER_COMPLETE)
     then Ok fbo else Throw "incomplete framebuffer", s').
Proof.
  intros Hlen fbo s'. unfold create_framebuffer.
  erewrite bind_ok by apply create_run.
  erewrite bind_ok by apply (attach_loop _ cols []).
  erewrite bind_ok.
  2:{ apply (fill_draw_buffs_in_bounds (length cols) [] (replicate 32 None)).
      - rewrite length_replicate. lia.
      - rewrite length_replicate. simpl. lia. }
  simpl app.
  erewrite bind_ok.
  2:{ replace (length cols) with (length (draw_buffer_slots 0 (length cols))) at 1
        by (unfold draw_buffer_slots; rewrite length_map, length_seq; reflexivity).
      apply array_read_written. }
  erewrite bind_ok by apply call_emit.
  assert (Hdepth : forall s0,
    (if decide (depth ≠ GL_NONE)
     then call (glNamedFramebufferTexture fbo GL_DEPTH_ATTACHMENT depth 0) else ret tt) s0
    = (Ok tt, emit (if decide (depth = GL_NONE) then []
                    else [glNamedFramebufferTexture fbo GL_DEPTH_ATTACHMENT depth 0]) s0)).
  { intros s0. destruct (decide (depth ≠ GL_NONE)), (decide (depth = GL_NONE)); try tauto; try reflexivity.
    unfold ret. by rewrite emit_nil. }
  erewrite bind_ok by apply Hdepth.
  unfold check_framebuffer_status.
  unfold bind at 1. unfold bind at 1. rewrite call_emit.
  rewrite !emit_emit.
  change (emit _ (alloc Framebuffer s)) with s'.
  destruct (decide (framebuffer_status W (calls s') (next_of Framebuffer (next_name s)) ≠ _)) as [Hne|He];
    destruct (decide (framebuffer_status W (calls s') fbo = _)) as [He'|Hne']; try reflexivity.
  - exfalso. apply Hne, He'.
  - exfalso. apply He. intros E. apply Hne', E.
Qed.

Lemma create_framebuffer_overflow W cols depth s :
  (32 < length cols)%nat ->
  fst (create_framebuffer W cols depth s) = UB.
Proof.
  intros Hlen. unfold create_framebuffer.
  erewrite bind_ok by apply create_run.
  erewrite bind_ok by apply (attach_loop _ cols []).
  erewrite bind_ub; [reflexivity|].
  apply (fill_draw_buffs_overflow (length cols) [] (replicate 32 None)).
  - rewrite length_replicate. lia.
  - rewrite length_replicate. simpl. lia.
Qed.

(** ** Claims about create_framebuffer *)

(** C9: the draw-target list is built in a 32-entry array with no bounds
    check.  With at most 32 colour textures every write of the second loop
    is inside the array, which then holds the slots 0..N-1 in its first N
    entries; with more than 32 the loop writes outside it.  So the function
    has undefined behaviour exactly when the list is longer than 32. *)
Theorem create_framebuffer_draw_buffs_bound (W : world) (cols : list GLuint) (depth : GLuint)
    (s : gl_state) :
  ((length cols <= 32)%nat ->
     fill_draw_buffs 0 (length cols) (replicate 32 None) s
     = (Ok (map Some (draw_buffer_slots 0 (length cols))
            ++ replicate (32 - length cols) None), s))
  /\ ((32 < length cols)%nat ->
        fill_draw_buffs 0 (length cols) (replicate 32 None) s = (UB, s))
  /\ (fst (create_framebuffer W cols depth s) = UB <-> (32 < length cols)%nat).
Proof.
  split; [|split].
  - intros Hlen.
    rewrite (fill_draw_buffs_in_bounds (length cols) [] (replicate 32 None))
      by (rewrite length_replicate; simpl; lia).
    rewrite drop_replicate. reflexivity.
  - intros Hlen.
    apply (fill_draw_buffs_overflow (length cols) [] (replicate 32 None));
      rewrite length_replicate; simpl; lia.
  - split.
    + intros Hub. destruct (decide (length cols <= 32)%nat) as [Hle|]; [|lia].
      rewrite create_framebuffer_run in Hub by assumption. simpl in Hub.
      by destruct (decide _).
    + apply create_framebuffer_overflow.
Qed.

Lemma create_framebuffer_draw_buffs_bound_witness :
  fst (create_framebuffer demo_world [6; 7; 8] 9 initial_state) <> UB
  /\ fst (create_framebuffer demo_world (replicate 33 6) 9 initial_state) = UB.
Proof.
  split.
  - intros Hub.
    apply (create_framebuffer_draw_buffs_bound demo_world [6; 7; 8] 9 initial_state) in Hub.
    simpl in Hub. lia.
  - apply (create_framebuffer_draw_buffs_bound demo_world (replicate 33 6) 9 initial_state).
    simpl. lia.
Defined.

(** C3, as the specification states it, fails on two inputs.  At a list
    of 33 colour textures the function neither returns a handle nor
    throws: the write of [draw_buffs[32]] is outside the array.  And at
    colour textures of different sizes it returns the handle whenever the
    driver reports the framebuffer complete, as a driver of OpenGL 4.5
    does: the function compares no sizes of its own. *)
Lemma create_framebuffer_unchecked_inputs :
  fst (create_framebuffer demo_world (replicate 33 5) GL_NONE initial_state) = UB
  /\ fst (mismatched_framebuffer demo_world initial_state) = Ok 1
  /\ attachment_sizes 1 (calls (snd (mismatched_framebuffer demo_world initial_state)))
     = [(2, 2); (4, 4)]
  /\ dimensions_match 1 (calls (snd (mismatched_framebuffer demo_world initial_state)))
     = false.
Proof. repeat split; vm_compute; reflexivity. Qed.

(** C3, amended: for every list of at most 32 colour textures and every
    depth texture ([GL_NONE] for none), [create_framebuffer] creates the
    framebuffer, attaches the colours at the slots 0..N-1, declares exactly
    those N slots as draw targets, attaches the depth texture only when
    there is one, and checks completeness once; it returns the handle when
    the framebuffer is complete and throws [incomplete framebuffer]
    otherwise.  Complete is what the driver answers: attachments of
    different sizes make the function throw under a driver that takes
    them for incomplete, and only under such a driver. *)
Theorem create_framebuffer_checked (W : world) (cols : list GLuint) (depth : GLuint)
    (s : gl_state) :
  (length cols <= 32)%nat ->
  let fbo := n_framebuffer (next_name s) in
  let s' := emit (framebuffer_calls fbo cols depth) (alloc Framebuffer s) in
  create_framebuffer W cols depth s
  = (if decide (framebuffer_status W (calls s') fbo = GL_FRAMEBUFFER_COMPLETE)
     then Ok fbo else Throw "incomplete framebuffer", s')
  /\ (forall (k : nat) (tex : GLuint), cols !! k = Some tex ->
        In (glNamedFramebufferTexture fbo (GL_COLOR_ATTACHMENT0 + Z.of_nat k) tex 0)
           (framebuffer_calls fbo cols depth))
  /\ (In (glNamedFramebufferTexture fbo GL_DEPTH_ATTACHMENT depth 0)
         (framebuffer_calls fbo cols depth) <-> depth <> GL_NONE)
  /\ count_calls is_status_check (framebuffer_calls fbo cols depth) = 1%nat
  /\ (fst (create_framebuffer W cols depth s) = Ok fbo
      <-> framebuffer_status W (calls s') fbo = GL_FRAMEBUFFER_COMPLETE)
  /\ (fst (create_framebuffer W cols depth s) = Throw "incomplete framebuffer"
      <-> framebuffer_status W (calls s') fbo <> GL_FRAMEBUFFER_COMPLETE)
  /\ (checks_dimensions W ->
      (fst (create_framebuffer W cols depth s) = Ok fbo
       <-> dimensions_match fbo (calls s') = true)
      /\ (fst (create_framebuffer W cols depth s) = Throw "incomplete framebuffer"
          <-> dimensions_match fbo (calls s') = false)).
Proof.
  intros Hlen fbo s'.
  assert (Hrun : create_framebuffer W cols depth s
                 = (if decide (framebuffer_status W (calls s') fbo = GL_FRAMEBUFFER_COMPLETE)
                    then Ok fbo else Throw "incomplete framebuffer", s'))
    by (by apply create_framebuffer_run).
  assert (Hok : fst (create_framebuffer W cols depth s) = Ok fbo
                <-> framebuffer_status W (calls s') fbo = GL_FRAMEBUFFER_COMPLETE).
  { rewrite Hrun. cbn [fst]. destruct (decide _) as [E|E]; [done|].
    split; [discriminate|done]. }
  assert (Hthrow : fst (create_framebuffer W cols depth s) = Throw "incomplete framebuffer"
                   <-> framebuffer_status W (calls s') fbo <> GL_FRAMEBUFFER_COMPLETE).
  { rewrite Hrun. cbn [fst]. destruct (decide _) as [E|E]; [|done].
    split; [discriminate|done]. }
  split; [exact Hrun|].
  split; [|split; [|split; [|split; [exact Hok|split; [exact Hthrow|]]]]].
  4:{ intros Hdim. rewrite Hok, Hthrow, (Hdim (calls s') fbo).
      split; [reflexivity|]. by destruct (dimensions_match fbo (calls s')). }
  - intros k tex Hk. unfold framebuffer_calls.
    apply in_or_app. right. apply in_or_app. left.
    apply list_elem_of_In. unfold color_attachments.
    apply list_elem_of_lookup. exists k.
    rewrite list_lookup_imap, Hk. reflexivity.
  - unfold framebuffer_calls. split.
    + intros Hin Hd. rewrite !in_app_iff in Hin.
      destruct (decide (depth = GL_NONE)) as [_|?]; [|done].
      destruct Hin as [[E|[]]|[Hin|[[E|[]]|[[]|[E|[]]]]]]; try discriminate.
      apply list_elem_of_In in Hin. unfold color_attachments in Hin.
      apply list_elem_of_lookup in Hin as [i Hi].
      rewrite list_lookup_imap in Hi.
      destruct (cols !! i) eqn:Ei; simpl in Hi; [|discriminate].
      injection Hi as Hatt _.
      apply lookup_lt_Some in Ei.
      unfold GL_COLOR_ATTACHMENT0, GL_DEPTH_ATTACHMENT in Hatt. lia.
    + intros Hd. rewrite !in_app_iff. right. right. right. left.
      destruct (decide (depth = GL_NONE)); [done|]. by left.
  - unfold framebuffer_calls. rewrite !count_calls_app.
    rewrite (count_calls_none is_status_check (color_attachments fbo 0 cols)).
    + destruct (decide (depth = GL_NONE)); reflexivity.
    + apply Forall_forall. intros c Hc.
      unfold color_attachments in Hc. apply list_elem_of_lookup in Hc as [i Hi].
      rewrite list_lookup_imap in Hi.
      destruct (cols !! i); simpl in Hi; [|discriminate].
      injection Hi as <-. reflexivity.
Qed.

Lemma dimension_world_checks_dimensions : checks_dimensions dimension_world.
Proof.
  intros t fbo. unfold dimension_world, framebuffer_status.
  destruct (dimensions_match fbo t); [done|]. split; discriminate.
Qed.

Lemma create_framebuffer_checked_witness :
  create_framebuffer demo_world [6; 7; 8] 9 initial_state
  = (Ok 1, emit (framebuffer_calls 1 [6; 7; 8] 9) (alloc Framebuffer initial_state))
  /\ fst (mismatched_framebuffer dimension_world initial_state)
     = Throw "incomplete framebuffer".
Proof.
  split.
  - pose proof (create_framebuffer_checked demo_world [6; 7; 8] 9 initial_state) as H.
    simpl in H. destruct H as [H _]; [lia|]. exact H.
  - unfold mismatched_framebuffer.
    erewrite bind_ok by (vm_compute; reflexivity).
    erewrite bind_ok by (vm_compute; reflexivity).
    match goal with
    | |- fst (create_framebuffer _ ?cols ?depth ?s) = _ =>
        pose proof (create_framebuffer_checked dimension_world cols depth s) as H
    end.
    destruct H as (_ & _ & _ & _ & _ & _ & Hdim); [simpl; lia|].
    apply (Hdim dimension_world_checks_dimensions). vm_compute. reflexivity.
Defined.

(** ** Claim about set_uniform *)

(** C6: a value of a supported type is written by exactly one call, to the
    stage and slot given, with its components in order; a quaternion goes
    out as a 4-component float vector and a matrix column after column
    with the transpose flag off.  A value of any other type is rejected
    with the exception [unsupported type], and no call is issued. *)
Theorem set_uniform_supported_types (shader : GLuint) (location : GLint)
    (value : uniform_value) (s : gl_state) :
  if supported value
  then exists c : gl_call,
         set_uniform shader location value s = (Ok tt, emit [c] s)
         /\ uniform_target c = Some (shader, location)
         /\ uniform_payload c = components value
         /\ uniform_shape c = expected_shape value
  else set_uniform shader location value s = (Throw "unsupported type", s).
Proof.
  destruct value as [v|v|[]|v|v|[]|[]|[]|[]|[]|[]|[]|[]|[]|[]|[[] [] []]|[[] [] [] []]|name];
    simpl; try reflexivity; eexists; (split; [reflexivity|]); repeat split.
Qed.

(** ** create_program *)

Lemma string_app_nil_r (t : string) : t +:+ "" = t.
Proof.
  induction t as [|a t IH]; [reflexivity|].
  change (String a t +:+ "") with (String a (t +:+ "")). by rewrite IH.
Qed.

Lemma validate_program_run shader filename (r : bool * string) s :
  programs s !! shader = Some r ->
  validate_program shader filename s
  = (Ok tt, mk_state (next_name s) (programs s)
                     (calls s ++ validation_calls shader (fst r))
                     (clog s +:+ stage_log filename r)).
Proof.
  destruct s as [n progs cs lg]. cbn [programs]. intros Hr.
  unfold validate_program, get_link_status, get_info_log, stage_log.
  destruct r as [[] text]; gl_run; rewrite Hr.
  - change (GL_TRUE =? GL_FALSE) with false. cbv iota.
    by rewrite string_app_nil_r, <- app_assoc.
  - change (GL_FALSE =? GL_FALSE) with true. gl_run. rewrite Hr. gl_run.
    by rewrite <- !app_assoc.
Qed.

Lemma create_program_run W vert_filepath frag_filepath vert_source frag_source s :
  read_file W vert_filepath = Some vert_source ->
  read_file W frag_filepath = Some frag_source ->
  create_program W vert_filepath frag_filepath s
  = (Ok (n_pipeline (next_name s), n_program (next_name s), n_program (next_name s) + 1),
     after_create_program W vert_filepath frag_filepath vert_source frag_source s).
Proof.
  intros Hv Hf. destruct s as [[b v p pl t f] progs cs lg].
  unfold create_program, read_text_file. rewrite Hv, Hf.
  erewrite bind_ok by reflexivity. erewrite bind_ok by reflexivity.
  erewrite bind_ok by (unfold create_shader_program; gl_run; reflexivity).
  erewrite bind_ok by (unfold create_shader_program; gl_run; reflexivity).
  erewrite bind_ok.
  2:{ apply (validate_program_run _ _ (compile W GL_VERTEX_SHADER vert_source)).
      cbn [programs]. rewrite lookup_insert_ne by lia. apply lookup_insert_eq. }
  cbn [next_name programs calls clog].
  erewrite bind_ok.
  2:{ apply (validate_program_run _ _ (compile W GL_FRAGMENT_SHADER frag_source)).
      cbn [programs]. apply lookup_insert_eq. }
  cbn [next_name programs calls clog].
  unfold after_create_program, program_calls. gl_run.
  rewrite <- !app_assoc. reflexivity.
Qed.

Lemma frame_returns W fov h i s : fst (frame W fov h i s) = Ok tt.
Proof. reflexivity. Qed.

(** ** Claim about create_program *)

(** C1: whatever the two source texts are, and whether either of them
    compiles and links or not, [create_program] returns the pipeline handle
    and both stage handles.  Each stage is created by a call of its own and
    its status depends on its own source alone; a stage that failed adds to
    the log one message with its file name and the driver's diagnostic
    text (as much of it as the 1024-byte buffer holds); the pipeline is
    created and both stages are attached to it all the same, and no later
    frame drawn with these handles throws. *)
Theorem create_program_failure_not_fatal (W : world)
    (vert_filepath frag_filepath vert_source frag_source : string) (s : gl_state) :
  read_file W vert_filepath = Some vert_source ->
  read_file W frag_filepath = Some frag_source ->
  let pipeline := n_pipeline (next_name s) in
  let vert := n_program (next_name s) in
  let frag := n_program (next_name s) + 1 in
  let rv := compile W GL_VERTEX_SHADER vert_source in
  let rf := compile W GL_FRAGMENT_SHADER frag_source in
  exists s' : gl_state,
    create_program W vert_filepath frag_filepath s = (Ok (pipeline, vert, frag), s')
    /\ programs s' !! vert = Some rv
    /\ programs s' !! frag = Some rf
    /\ calls s' = calls s ++ program_calls pipeline vert frag vert_source frag_source
                                           (fst rv) (fst rf)
    /\ clog s' = (clog s
                  +:+ (if fst rv then ""
                       else "shader " +:+ vert_filepath +:+ " contains error(s):" +:+ nl +:+ nl
                            +:+ substring 0 1023 (snd rv) +:+ nl))
                 +:+ (if fst rf then ""
                      else "shader " +:+ frag_filepath +:+ " contains error(s):" +:+ nl +:+ nl
                           +:+ substring 0 1023 (snd rf) +:+ nl)
    /\ (forall fov h i s0, fst (frame W fov h i s0) = Ok tt).
Proof.
  intros Hv Hf pipeline vert frag rv rf.
  exists (after_create_program W vert_filepath frag_filepath vert_source frag_source s).
  split; [by apply create_program_run|].
  unfold after_create_program; cbn [programs calls clog].
  split; [|split; [|split; [|split]]].
  - rewrite lookup_insert_ne by lia. apply lookup_insert_eq.
  - apply lookup_insert_eq.
  - reflexivity.
  - reflexivity.
  - intros. apply frame_returns.
Qed.

Lemma create_program_failure_not_fatal_witness :
  exists s' : gl_state,
    create_program broken_shader_world "broken.vert" "main.frag" initial_state
    = (Ok (1, 1, 2), s')
    /\ programs s' !! 1 = Some (false, "0(1) : error C0000: syntax error")
    /\ clog s' = compile_error_message "broken.vert" "0(1) : error C0000: syntax error".
Proof.
  destruct (create_program_failure_not_fatal broken_shader_world
              "broken.vert" "main.frag" "bad" "void main() {}" initial_state
              eq_refl eq_refl) as (s' & Hrun & Hvert & _ & _ & Hlog & _).
  exists s'. split; [exact Hrun|]. split; [exact Hvert|]. exact Hlog.
Defined.

(** ** Loops over an array *)

Lemma for_range_emits {A} (l : list A) (body : nat -> A -> GL unit)
    (t : nat -> A -> list gl_call) :
  (forall i x s, body i x s = (Ok tt, emit (t i x) s)) ->
  forall (rest pre : list A) s, l = pre ++ rest ->
    for_range (length pre) (length rest)
      (fun i => match l !! i with Some x => body i x | None => undefined end) s
    = (Ok tt, emit (concat (imap (fun i x => t (length pre + i)%nat x) rest)) s).
Proof.
  intros Hbody rest. induction rest as [|x rest IH]; intros pre s ->.
  - simpl. by rewrite emit_nil.
  - simpl for_range.
    erewrite bind_ok; last first.
    { rewrite lookup_app_r by lia. rewrite Nat.sub_diag. simpl. apply Hbody. }
    specialize (IH (pre ++ [x]) (emit (t (length pre) x) s)).
    rewrite length_app in IH. simpl in IH. rewrite Nat.add_1_r in IH.
    rewrite IH by (by rewrite <- app_assoc).
    rewrite emit_emit. simpl. rewrite Nat.add_0_r. do 4 f_equal.
    apply imap_ext. intros i y _. simpl. f_equal. lia.
Qed.

Lemma for_range_all {A} (l : list A) (body : nat -> A -> GL unit)
    (t : nat -> A -> list gl_call) s :
  (forall i x s, body i x s = (Ok tt, emit (t i x) s)) ->
  for_range 0 (length l)
    (fun i => match l !! i with Some x => body i x | None => undefined end) s
  = (Ok tt, emit (concat (imap t l)) s).
Proof.
  intros Hbody. apply (for_range_emits l body t Hbody l [] s eq_refl).
Qed.

(** ** Textures *)

Lemma create_texture_2d_run internal_format format width height data filter repeat s :
  create_texture_2d internal_format format width height data filter repeat s
  = (Ok (n_texture (next_name s)),
     emit (texture_2d_calls (n_texture (next_name s)) internal_format format width height
                            data filter repeat) (alloc Texture s)).
Proof.
  destruct s as [[b v p pl t f] progs cs lg].
  unfold create_texture_2d, texture_2d_calls, emit, alloc.
  destruct data; gl_run; by rewrite <- !app_assoc.
Qed.

Lemma create_texture_cube_run internal_format format width height data s :
  length data = 6%nat ->
  create_texture_cube internal_format format width height data s
  = (Ok (n_texture (next_name s)),
     emit (texture_cube_calls (n_texture (next_name s)) internal_format format width height data)
          (alloc Texture s)).
Proof.
  intros Hlen. unfold create_texture_cube.
  erewrite bind_ok by apply create_run.
  erewrite bind_ok by apply call_emit.
  rewrite <- Hlen.
  erewrite bind_ok.
  2:{ apply (for_range_all data
               (fun i x => match x with
                           | Some pixels =>
                               call (glTextureSubImage3D _ 0 0 0 (Z.of_nat i) width height 1
                                                         format GL_UNSIGNED_BYTE pixels)
                           | None => ret tt
                           end)
               (face_upload (next_of Texture (next_name s)) format width height)).
      intros i [px|] s0; [reflexivity|]. unfold ret. by rewrite emit_nil. }
  unfold ret. rewrite !emit_emit. reflexivity.
Qed.

Lemma load_faces_six W p0 p1 p2 p3 p4 p5 comp s :
  let faces := map (fun p => stbi_load W p comp) [p0; p1; p2; p3; p4; p5] in
  load_faces W [p0; p1; p2; p3; p4; p5] comp 0 6 None (replicate 6 None) s
  = (Ok (last_decoded faces, faces), s).
Proof. reflexivity. Qed.

Lemma stb_formats_run comp s :
  comp <> STBI_default ->
  exists internal_format format, stb_formats comp s = (Ok (internal_format, format), s).
Proof. destruct comp; [done|..]; intros _; by do 2 eexists. Qed.

Lemma create_texture_cube_from_file_run W p0 p1 p2 p3 p4 p5 comp internal_format format x y s :
  let faces := map (fun p => stbi_load W p comp) [p0; p1; p2; p3; p4; p5] in
  stb_formats comp s = (Ok (internal_format, format), s) ->
  last_decoded faces = Some (x, y) ->
  create_texture_cube_from_file W [p0; p1; p2; p3; p4; p5] comp s
  = (Ok (n_texture (next_name s)),
     emit (texture_cube_calls (n_texture (next_name s)) internal_format format x y faces)
          (alloc Texture s)).
Proof.
  intros faces Hfmt Hxy. unfold create_texture_cube_from_file.
  erewrite bind_ok by exact Hfmt.
  erewrite bind_ok by apply load_faces_six.
  cbn [fst snd]. fold faces. rewrite Hxy.
  by apply create_texture_cube_run.
Qed.

Lemma uploads_match tex format width height (faces : list (option image)) :
  forall idx : nat -> nat,
    Forall upload_matches_pixels
           (concat (imap (fun i => face_upload tex format width height (idx i)) faces))
    <-> Forall (face_has_size width height) faces.
Proof.
  induction faces as [|face faces IH]; intros idx.
  - simpl. split; constructor.
  - rewrite imap_cons. simpl concat. rewrite Forall_app, Forall_cons.
    rewrite <- (IH (idx ∘ S)).
    assert (Hface : Forall upload_matches_pixels (face_upload tex format width height (idx 0%nat) face)
                    <-> face_has_size width height face).
    { unfold face_has_size. destruct face as [px|]; simpl.
      - split.
        + intros H i [= <-]. by apply Forall_inv in H.
        + intros H. constructor; [|constructor]. exact (H px eq_refl).
      - split; [intros _ i [=]|constructor]. }
    rewrite Hface. reflexivity.
Qed.

(** ** Claim about create_texture_cube_from_file *)

(** C10: all six faces are decoded first; then one storage is allocated,
    with the width and height the last decode returned, and every decoded
    face is uploaded with that same width and height.  The function
    returns normally whatever the sizes of the faces are, and the uploads
    agree with the buffers they read exactly when every decoded face has
    the size of the last one. *)
Theorem cube_faces_take_last_size (W : world) (p0 p1 p2 p3 p4 p5 : string)
    (comp : stb_comp_t) (last : image) (s : gl_state) :
  comp <> STBI_default ->
  stbi_load W p5 comp = Some last ->
  let faces := map (fun p => stbi_load W p comp) [p0; p1; p2; p3; p4; p5] in
  let tex := n_texture (next_name s) in
  exists (internal_format format : GLenum) (t : list gl_call),
    stb_formats comp s = (Ok (internal_format, format), s)
    /\ create_texture_cube_from_file W [p0; p1; p2; p3; p4; p5] comp s
       = (Ok tex, emit t (alloc Texture s))
    /\ t = [glCreateTextures GL_TEXTURE_CUBE_MAP tex;
            glTextureStorage2D tex 1 internal_format (img_x last) (img_y last)]
           ++ concat (imap (face_upload tex format (img_x last) (img_y last)) faces)
    /\ count_calls is_storage t = 1%nat
    /\ (Forall upload_matches_pixels t
        <-> Forall (face_has_size (img_x last) (img_y last)) faces).
Proof.
  intros Hcomp Hlast faces tex.
  destruct (stb_formats_run comp s Hcomp) as (internal_format & format & Hfmt).
  exists internal_format, format.
  eexists. split; [exact Hfmt|]. split; [|split; [reflexivity|split]].
  - apply create_texture_cube_from_file_run; [exact Hfmt|].
    unfold last_decoded. simpl. rewrite Hlast. reflexivity.
  - rewrite count_calls_app. rewrite (count_calls_none is_storage (concat _)); [reflexivity|].
    apply Forall_concat. apply Forall_forall. intros l Hl.
    apply list_elem_of_lookup in Hl as [i Hi]. rewrite list_lookup_imap in Hi.
    destruct (faces !! i) as [[px|]|]; simpl in Hi; [| |discriminate];
      injection Hi as <-; repeat constructor.
  - rewrite Forall_app.
    rewrite (uploads_match tex format (img_x last) (img_y last) faces (fun i => i)).
    split; [tauto|]. intros H. split; [|exact H]. repeat constructor.
Qed.

Lemma cube_faces_take_last_size_witness :
  exists t : list gl_call,
    create_texture_cube_from_file uneven_faces_world ["f0"; "f1"; "f2"; "f3"; "f4"; "f5"]
                                  STBI_rgb_alpha initial_state
    = (Ok 1, emit t (alloc Texture initial_state))
    /\ In (glTextureSubImage3D 1 0 0 0 0 4 4 1 GL_RGBA GL_UNSIGNED_BYTE demo_image) t
    /\ ~ Forall upload_matches_pixels t.
Proof.
  destruct (cube_faces_take_last_size uneven_faces_world "f0" "f1" "f2" "f3" "f4" "f5"
              STBI_rgb_alpha (mk_image 4 4 4 []) initial_state)
    as (internal_format & format & t & Hfmt & Hrun & Ht & _ & Hiff);
    [discriminate|reflexivity|].
  exists t. split; [exact Hrun|].
  assert (Hfmt' : internal_format = GL_RGBA8 /\ format = GL_RGBA)
    by (by injection Hfmt as <- <-).
  clear Hfmt. rename Hfmt' into Hfmt.
  destruct Hfmt as [-> ->].
  split.
  - rewrite Ht. simpl. right. right. left. reflexivity.
  - intros Hall. apply Hiff in Hall. 
    apply Forall_inv in Hall. specialize (Hall demo_image eq_refl).
    simpl in Hall. lia.
Defined.

(** ** Geometry *)

Lemma for_each_emits {A} (body : A -> GL unit) (t : A -> list gl_call) :
  (forall x s, body x s = (Ok tt, emit (t x) s)) ->
  forall (xs : list A) s, for_each xs body s = (Ok tt, emit (flat_map t xs) s).
Proof.
  intros Hbody xs. induction xs as [|x xs IH]; intros s.
  - simpl. by rewrite emit_nil.
  - simpl. erewrite bind_ok by apply Hbody. rewrite IH, emit_emit. reflexivity.
Qed.

Lemma create_geometry_run {T} `{BufferElem T} (vertices : list T) indices attrib_formats s :
  let vbo := n_buffer (next_name s) in
  let ibo := n_buffer (next_name s) + 1 in
  let vao := n_vertex_array (next_name s) in
  create_geometry vertices indices attrib_formats s
  = (Ok (vao, vbo, ibo),
     emit (geometry_calls vao vbo ibo vertices indices attrib_formats)
          (alloc VertexArray (alloc Buffer (alloc Buffer s)))).
Proof.
  destruct s as [[b v p pl t f] progs cs lg].
  unfold create_geometry, create_buffer. gl_run.
  rewrite (for_each_emits _ (attrib_calls v))
    by (intros; unfold emit; gl_run; by rewrite <- !app_assoc).
  unfold emit, alloc, geometry_calls. gl_run. cbn [bump sizeof buffer_of uint8_elem].
  rewrite <- !app_assoc. reflexivity.
Qed.

(** ** The frame loop and the shutdown *)

Lemma frame_run W fov h i s :
  frame W fov h i s = (Ok tt, emit (frame_calls W fov h i) s).
Proof.
  destruct s as [n progs cs lg].
  unfold frame_calls, frame, emit, initial_state.
  cbv beta iota delta [bind ret call set_uniform for_range next_name programs calls clog snd].
  rewrite <- !app_assoc. reflexivity.
Qed.

Lemma frame_loop_run W fov h (inputs : list frame_input) : forall ev_type s,
  frame_loop W fov h ev_type inputs s
  = (Ok (loop_ends ev_type inputs),
     emit (flat_map (frame_calls W fov h) (iterations ev_type inputs)) s).
Proof.
  induction inputs as [|i rest IH]; intros ev_type s;
    cbn [frame_loop iterations loop_ends];
    destruct (decide (ev_type = SDL_QUIT)); cbn [flat_map];
    try (unfold ret; by rewrite emit_nil).
  erewrite bind_ok by apply frame_run.
  unfold next_event. rewrite IH, emit_emit. reflexivity.
Qed.

Lemma delete_items_1_run deleter (items : list GLuint) s :
  delete_items_1 deleter items s = (Ok tt, emit (map deleter items) s).
Proof.
  unfold delete_items_1.
  rewrite (for_range_all items (fun _ item => call (deleter item))
                         (fun _ item => [deleter item]))
    by (intros; apply call_emit).
  do 2 f_equal. clear s.
  induction items as [|x items IH]; [reflexivity|].
  rewrite imap_cons. simpl. f_equal. exact IH.
Qed.

Lemma shutdown_run h s : shutdown h s = (Ok tt, emit (shutdown_calls h) s).
Proof.
  unfold shutdown, delete_items_v.
  erewrite bind_ok by apply call_emit.
  erewrite bind_ok by apply call_emit.
  erewrite bind_ok by apply delete_items_1_run.
  erewrite bind_ok by apply call_emit.
  erewrite bind_ok by apply call_emit.
  erewrite bind_ok by apply call_emit.
  rewrite call_emit, !emit_emit. reflexivity.
Qed.

(** ** What a successful call leaves behind *)

Lemma create_texture_2d_from_file_inv W path comp s tex s' :
  create_texture_2d_from_file W path comp s = (Ok tex, s') ->
  tex = n_texture (next_name s)
  /\ s' = emit (file_texture_calls W (n_texture (next_name s)) path comp) (alloc Texture s).
Proof.
  unfold create_texture_2d_from_file, file_texture_calls.
  destruct (read_file W path); [|discriminate].
  destruct comp; (erewrite bind_ok by reflexivity) || discriminate;
    destruct (stbi_load W path _);
    rewrite create_texture_2d_run; by intros [= <- <-].
Qed.

Lemma create_sky_inv W s tex s' :
  create_texture_cube_from_file W skybox_files STBI_rgb_alpha s = (Ok tex, s') ->
  tex = n_texture (next_name s)
  /\ s' = emit (sky_calls W (n_texture (next_name s))) (alloc Texture s).
Proof.
  unfold create_texture_cube_from_file, skybox_files, sky_calls, sky_size.
  erewrite bind_ok by reflexivity.
  erewrite bind_ok by apply load_faces_six.
  cbn [fst snd]. fold skybox_files. fold (sky_faces W).
  destruct (last_decoded (sky_faces W)) as [[x y]|];
    rewrite create_texture_cube_run by reflexivity; by intros [= <- <-].
Qed.

Lemma create_framebuffer_inv W cols depth s fbo s' :
  (length cols <= 32)%nat ->
  create_framebuffer W cols depth s = (Ok fbo, s') ->
  fbo = n_framebuffer (next_name s)
  /\ s' = emit (framebuffer_calls (n_framebuffer (next_name s)) cols depth)
               (alloc Framebuffer s).
Proof.
  intros Hlen. rewrite create_framebuffer_run by assumption.
  destruct (decide _); [|discriminate]. by intros [= <- <-].
Qed.

Lemma create_program_inv W vert_filepath frag_filepath s r s' :
  create_program W vert_filepath frag_filepath s = (Ok r, s') ->
  r = (n_pipeline (next_name s), n_program (next_name s), n_program (next_name s) + 1)
  /\ s' = after_create_program W vert_filepath frag_filepath
            (source_of W vert_filepath) (source_of W frag_filepath) s.
Proof.
  unfold source_of.
  destruct (read_file W vert_filepath) as [vs|] eqn:Ev;
    [destruct (read_file W frag_filepath) as [fs|] eqn:Ef|].
  - rewrite (create_program_run W _ _ vs fs s Ev Ef). by intros [= <- <-].
  - unfold create_program, read_text_file. rewrite Ev, Ef. discriminate.
  - unfold create_program, read_text_file. rewrite Ev. discriminate.
Qed.

(** ** The startup *)

Lemma bind_inv {A B} (m : GL A) (f : A -> GL B) s b s' :
  bind m f s = (Ok b, s') ->
  exists a s0, m s = (Ok a, s0) /\ f a s0 = (Ok b, s').
Proof.
  unfold bind. destruct (m s) as [[a|w|] s0]; [|discriminate..].
  intros H. by exists a, s0.
Qed.

(** Bring the state in [H] back to an explicit record. *)
Ltac norm_state H :=
  cbn [emit alloc next_name programs calls clog next_of bump fst snd
       n_buffer n_vertex_array n_program n_pipeline n_texture n_framebuffer] in H.

(** The next call of [H] may fail: keep the case where it returned, and
    rewrite what it returned and left behind with [inv]. *)
Tactic Notation "step" hyp(H) constr(inv) :=
  let E := fresh "E" in
  apply bind_inv in H as (? & ? & E & H);
  apply inv in E as [-> ->]; [|simpl; lia..];
  norm_state H.

(** The next call of [H] always returns, as [run] says. *)
Tactic Notation "run" hyp(H) constr(lem) :=
  erewrite bind_ok in H by apply lem;
  norm_state H.

Lemma create_attrib_format_vec3 index offset s :
  create_attrib_format AT_vec3 index offset s
  = (Ok (mk_attrib_format index 3 GL_FLOAT offset), s).
Proof. reflexivity. Qed.

Lemma create_attrib_format_vec2 index offset s :
  create_attrib_format AT_vec2 index offset s
  = (Ok (mk_attrib_format index 2 GL_FLOAT offset), s).
Proof. reflexivity. Qed.

Lemma startup_inv W s h s1 :
  startup W s = (Ok h, s1) ->
  h = startup_handles (next_name s)
  /\ calls s1 = calls s ++ startup_calls W h.
Proof.
  intros H. destruct s as [[b v p pl t f] progs cs lg].
  unfold startup in H.
  destruct (gladLoadGL W).
  2:{ unfold bind at 1 in H. discriminate. }
  run H (ltac:(reflexivity) : forall s, ret tt s = (Ok tt, s)).
  run H (ltac:(reflexivity) : forall t s, log t s = (Ok tt, mk_state (next_name s) (programs s) (calls s) (clog s +:+ t))).
  do 3 run H call_emit.
  do 3 step H create_texture_2d_from_file_inv.
  step H create_sky_inv.
  do 5 run H create_texture_2d_run.
  do 2 step H create_framebuffer_inv.
  do 3 run H create_attrib_format_vec3.
  run H create_attrib_format_vec2.
  run H create_run.
  do 2 run H (create_geometry_run (T := vertex_t)).
  do 2 step H create_program_inv.
  unfold ret in H. injection H as <- <-.
  split; [reflexivity|].
  unfold after_create_program.
  cbn [calls emit alloc next_name programs clog bump
       n_buffer n_vertex_array n_program n_pipeline n_texture n_framebuffer].
  unfold startup_calls.
  cbn [texture_cube_diffuse texture_cube_specular texture_cube_normal texture_skybox
       texture_gbuffer_color texture_gbuffer_position texture_gbuffer_normal
       texture_gbuffer_albedo texture_gbuffer_depth fb_gbuffer fb_finalcolor
       vao_empty vao_cube vbo_cube ibo_cube vao_quad vbo_quad ibo_quad
       pr vert_shader frag_shader pr_g vert_shader_g frag_shader_g].
  rewrite <- !app_assoc. reflexivity.
Qed.

(** ** main *)

Lemma main_inv W camera_projection fov inputs s r s' :
  main W camera_projection fov inputs s = (Ok r, s') ->
  let h := startup_handles (next_name s) in
  r = (if loop_ends 0 inputs then Some 0 else None)
  /\ calls s' = calls s ++ startup_calls W h
                ++ [projection_write camera_projection h]
                ++ flat_map (frame_calls W fov h) (iterations 0 inputs)
                ++ (if loop_ends 0 inputs then shutdown_calls h else []).
Proof.
  intros H h. unfold main in H.
  apply bind_inv in H as (h' & s0 & E & H).
  apply startup_inv in E as [-> E]. fold h in E, H.
  erewrite bind_ok in H by apply call_emit.
  erewrite bind_ok in H by apply frame_loop_run.
  destruct (loop_ends 0 inputs).
  - erewrite bind_ok in H by apply shutdown_run.
    unfold ret in H. injection H as <- <-. split; [reflexivity|].
    cbn [calls emit]. rewrite E, <- !app_assoc. reflexivity.
  - unfold ret in H. injection H as <- <-. split; [reflexivity|].
    cbn [calls emit]. rewrite E, <- !app_assoc, app_nil_r. reflexivity.
Qed.

(** Once the startup has succeeded, [main] returns 0 as soon as the loop
    test sees the quit event. *)
Lemma main_returns W camera_projection fov inputs s h s1 :
  startup W s = (Ok h, s1) ->
  loop_ends 0 inputs = true ->
  exists s', main W camera_projection fov inputs s = (Ok (Some 0), s').
Proof.
  intros Hstart Hloop. unfold main.
  erewrite bind_ok by exact Hstart.
  erewrite bind_ok by apply call_emit.
  erewrite bind_ok by apply frame_loop_run.
  rewrite Hloop.
  erewrite bind_ok by apply shutdown_run.
  eexists. reflexivity.
Qed.

(** The demo run: two frames, the quit event polled in the second, and a
    return of 0 after 239 calls. *)
Example demo_run_returns :
  fst (main demo_world demo_matrix glm.f1 demo_inputs initial_state) = Ok (Some 0)
  /\ length (iterations 0 demo_inputs) = 2%nat
  /\ length (calls (snd (main demo_world demo_matrix glm.f1 demo_inputs initial_state)))
     = 239%nat.
Proof. vm_compute. repeat split. Qed.

(** Without the quit event the loop is still running when the inputs end. *)
Example demo_run_unfinished :
  fst (main demo_world demo_matrix glm.f1 [demo_frame None] initial_state) = Ok None.
Proof. vm_compute. reflexivity. Qed.

(** A missing texture file ends the startup with an exception. *)
Example missing_texture_throws :
  fst (create_texture_2d_from_file
         (mk_world (fun _ => None) (stbi_load demo_world) (compile demo_world)
                   (framebuffer_status demo_world) true "4.5.0" 1920 1080 (fun _ => 0))
         "T.png" STBI_rgb initial_state)
  = Throw "file T.png does not exist.".
Proof. reflexivity. Qed.

(** ** Reading the trace of a run *)

(** Case analysis on what the files decode and compile to. *)
Ltac case_stuck :=
  repeat match goal with
         | |- context [stbi_load ?W ?p ?c] => destruct (stbi_load W p c)
         | |- context [compile ?W ?t ?src] => destruct (compile W t src) as [[] ?]
         | |- context [decide ?P] => destruct (decide P)
         end.

(** Evaluate a function of one segment of the startup trace; the result
    must not depend on what the files decode or compile to. *)
Ltac eval_segment :=
  cbv [file_texture_calls sky_calls render_target_calls shader_calls
       texture_2d_calls texture_cube_calls framebuffer_calls geometry_calls
       program_calls validation_calls color_attachments face_upload attrib_calls
       decoded_size sky_size sky_faces skybox_files vertex_format draw_buffer_slots
       projection_write shutdown_calls];
  cbn [map imap concat app flat_map seq length];
  case_stuck; lazy; reflexivity.

Ltac eval_counts :=
  rewrite ?count_calls_app;
  repeat match goal with
         | |- context [count_calls ?p ?seg] =>
             let E := fresh "E" in
             eassert (E : count_calls p seg = _) by eval_segment;
             rewrite E; clear E
         end.

Lemma startup_writes_no_uniform W h program location :
  count_calls (writes_uniform program location) (startup_calls W h) = 0%nat.
Proof.
  unfold startup_calls. eval_counts. reflexivity.
Qed.

Lemma count_calls_flat_map_none {A} p (f : A -> list gl_call) (l : list A) :
  (forall x, count_calls p (f x) = 0%nat) ->
  count_calls p (flat_map f l) = 0%nat.
Proof.
  intros Hf. induction l as [|x l IH]; [reflexivity|].
  simpl. by rewrite count_calls_app, Hf, IH.
Qed.

Lemma frame_writes_view_first W fov h i :
  exists rest,
    frame_calls W fov h i
    = glProgramUniformMatrix4fv (vert_shader_g h) uniform_view 1 false
                                (glm.value_ptr (camera_view i)) :: rest.
Proof. exists (tl (frame_calls W fov h i)). reflexivity. Qed.

(** ** Claims about the frame loop *)

(** C4: in a run of [main] the projection matrix is written exactly once,
    before the loop, whatever events the loop polls (the program has no
    code for a resize); no frame writes it.  The view matrix is written
    exactly once in every frame, by the frame's first call, so before any
    draw of the geometry pass. *)
Theorem projection_once_view_every_frame (W : world) (camera_projection : glm.mat4)
    (fov : GLfloat) (inputs : list frame_input) (r : option Z) (s' : gl_state) :
  main W camera_projection fov inputs initial_state = (Ok r, s') ->
  let h := startup_handles (next_name initial_state) in
  let is_projection := writes_uniform (vert_shader_g h) uniform_projection in
  let is_view := writes_uniform (vert_shader_g h) uniform_view in
  exists before_loop after_loop : list gl_call,
    calls s' = before_loop
               ++ flat_map (frame_calls W fov h) (iterations 0 inputs)
               ++ after_loop
    /\ count_calls is_projection before_loop = 1%nat
    /\ count_calls is_projection (calls s') = 1%nat
    /\ count_calls is_view before_loop = 0%nat
    /\ count_calls is_view after_loop = 0%nat
    /\ forall i : frame_input,
         count_calls is_projection (frame_calls W fov h i) = 0%nat
         /\ count_calls is_view (frame_calls W fov h i) = 1%nat
         /\ exists rest : list gl_call,
              frame_calls W fov h i
              = glProgramUniformMatrix4fv (vert_shader_g h) uniform_view 1 false
                                          (glm.value_ptr (camera_view i)) :: rest.
Proof.
  intros Hmain h is_projection is_view. subst is_projection is_view.
  apply main_inv in Hmain as [_ Hcalls]. fold h in Hcalls.
  change (calls initial_state) with (@nil gl_call) in Hcalls. rewrite app_nil_l in Hcalls.
  assert (Hframe_p : forall i, count_calls (writes_uniform (vert_shader_g h) uniform_projection)
                                           (frame_calls W fov h i) = 0%nat)
    by (intros i; reflexivity).
  assert (Hframe_v : forall i, count_calls (writes_uniform (vert_shader_g h) uniform_view)
                                           (frame_calls W fov h i) = 1%nat)
    by (intros i; reflexivity).
  assert (Hafter : forall p, count_calls (writes_uniform (vert_shader_g h) p)
                     (if loop_ends 0 inputs then shutdown_calls h else []) = 0%nat)
    by (intros p; destruct (loop_ends 0 inputs); reflexivity).
  exists (startup_calls W h ++ [projection_write camera_projection h]),
         (if loop_ends 0 inputs then shutdown_calls h else []).
  split; [by rewrite Hcalls, <- app_assoc|].
  split; [rewrite count_calls_app, startup_writes_no_uniform; reflexivity|].
  split.
  { rewrite Hcalls, !count_calls_app, startup_writes_no_uniform.
    rewrite count_calls_flat_map_none by exact Hframe_p.
    rewrite Hafter. reflexivity. }
  split; [rewrite count_calls_app, startup_writes_no_uniform; reflexivity|].
  split; [apply Hafter|].
  intros i. split; [apply Hframe_p|]. split; [apply Hframe_v|].
  apply frame_writes_view_first.
Qed.

Lemma projection_once_view_every_frame_witness :
  let t := calls (snd (main demo_world demo_matrix glm.f1 demo_inputs initial_state)) in
  count_calls (writes_uniform 3 uniform_projection) t = 1%nat
  /\ count_calls (writes_uniform 3 uniform_view) t = 2%nat.
Proof.
  assert (Hrun : main demo_world demo_matrix glm.f1 demo_inputs initial_state
                 = (Ok (Some 0),
                    snd (main demo_world demo_matrix glm.f1 demo_inputs initial_state)))
    by (vm_compute; reflexivity).
  destruct (projection_once_view_every_frame demo_world demo_matrix glm.f1 demo_inputs
              (Some 0) _ Hrun)
    as (before_loop & after_loop & _ & _ & Hp & _).
  split; [exact Hp|vm_compute; reflexivity].
Defined.

Lemma flat_map_flat_map_nil {A B} (g : gl_call -> list B) (f : A -> list gl_call) (l : list A) :
  (forall x, flat_map g (f x) = []) ->
  flat_map g (flat_map f l) = [].
Proof.
  intros Hf. induction l as [|x l IH]; [reflexivity|].
  simpl. by rewrite flat_map_app, Hf, IH.
Qed.

Lemma lookup_In {A} (l : list A) (i : nat) (x : A) : l !! i = Some x -> In x l.
Proof. intros H. apply list_elem_of_In. by apply list_elem_of_lookup_2 with i. Qed.

Ltac eval_flat_maps :=
  rewrite ?flat_map_app;
  repeat match goal with
         | |- context [flat_map ?g ?seg] =>
             let E := fresh "E" in
             eassert (E : flat_map g seg = _) by eval_segment;
             rewrite E; clear E
         end.

(** The calls of a finished or unfinished run, in the order issued. *)
Lemma run_calls W camera_projection fov inputs r s' :
  main W camera_projection fov inputs initial_state = (Ok r, s') ->
  let h := startup_handles (next_name initial_state) in
  r = (if loop_ends 0 inputs then Some 0 else None)
  /\ calls s' = startup_calls W h
                ++ [projection_write camera_projection h]
                ++ flat_map (frame_calls W fov h) (iterations 0 inputs)
                ++ (if loop_ends 0 inputs then shutdown_calls h else []).
Proof.
  intros Hmain h. apply main_inv in Hmain as [Hr Hcalls]. split; [exact Hr|].
  rewrite Hcalls. reflexivity.
Qed.

Lemma run_attached_color_slots W camera_projection fov inputs r s' :
  main W camera_projection fov inputs initial_state = (Ok r, s') ->
  let h := startup_handles (next_name initial_state) in
  attached_color_slots (fb_gbuffer h) (calls s') = [0; 1; 2].
Proof.
  intros Hmain h. apply run_calls in Hmain as [_ ->]. fold h.
  unfold attached_color_slots, startup_calls.
  rewrite !flat_map_app.
  rewrite (flat_map_flat_map_nil _ (frame_calls W fov h)) by (intros i; reflexivity).
  destruct (loop_ends 0 inputs); eval_flat_maps; reflexivity.
Qed.

(** C7: the g-buffer has colour attachments at the slots 0, 1 and 2, and
    in every frame each of these slots is cleared to a vector of zeros,
    and the depth attachment to 1.0, before the first draw call of the
    frame. *)
Theorem gbuffer_cleared_before_draws (W : world) (camera_projection : glm.mat4)
    (fov : GLfloat) (inputs : list frame_input) (r : option Z) (s' : gl_state) :
  main W camera_projection fov inputs initial_state = (Ok r, s') ->
  let h := startup_handles (next_name initial_state) in
  attached_color_slots (fb_gbuffer h) (calls s') = [0; 1; 2]
  /\ forall i : frame_input,
       (forall slot : Z, In slot (attached_color_slots (fb_gbuffer h) (calls s')) ->
          exists value : list GLfloat,
            In (glClearNamedFramebufferfv (fb_gbuffer h) GL_COLOR slot value)
               (before_first_draw (frame_calls W fov h i))
            /\ value <> [] /\ Forall (eq glm.f0) value)
       /\ In (glClearNamedFramebufferfv (fb_gbuffer h) GL_DEPTH 0 [glm.f1])
             (before_first_draw (frame_calls W fov h i)).
Proof.
  intros Hmain h.
  pose proof (run_attached_color_slots _ _ _ _ _ _ Hmain) as Hslots. fold h in Hslots.
  split; [exact Hslots|]. intros i. split.
  - rewrite Hslots. intros slot [<-|[<-|[<-|[]]]].
    + exists (glm.value_ptr (glm.vec3_splat glm.f0)).
      split; [by apply lookup_In with 2%nat|]. split; [discriminate|repeat constructor].
    + exists (glm.value_ptr (glm.vec3_splat glm.f0)).
      split; [by apply lookup_In with 3%nat|]. split; [discriminate|repeat constructor].
    + exists (glm.value_ptr (glm.vec4_splat glm.f0)).
      split; [by apply lookup_In with 4%nat|]. split; [discriminate|repeat constructor].
  - by apply lookup_In with 5%nat.
Qed.

Lemma gbuffer_cleared_before_draws_witness :
  attached_color_slots 1
    (calls (snd (main demo_world demo_matrix glm.f1 demo_inputs initial_state))) = [0; 1; 2]
  /\ In (glClearNamedFramebufferfv 1 GL_DEPTH 0 [glm.f1])
        (before_first_draw (frame_calls demo_world glm.f1
                              (startup_handles (next_name initial_state)) (demo_frame None))).
Proof.
  assert (Hrun : main demo_world demo_matrix glm.f1 demo_inputs initial_state
                 = (Ok (Some 0),
                    snd (main demo_world demo_matrix glm.f1 demo_inputs initial_state)))
    by (vm_compute; reflexivity).
  destruct (gbuffer_cleared_before_draws demo_world demo_matrix glm.f1 demo_inputs
              (Some 0) _ Hrun) as [Hslots Hframe].
  split; [exact Hslots|]. exact (proj2 (Hframe (demo_frame None))).
Defined.

Lemma run_feeds_no_empty_vertex_array W camera_projection fov inputs r s' :
  main W camera_projection fov inputs initial_state = (Ok r, s') ->
  let h := startup_handles (next_name initial_state) in
  count_calls (feeds_vertex_array (vao_empty h)) (calls s') = 0%nat.
Proof.
  intros Hmain h. apply run_calls in Hmain as [_ ->]. fold h.
  unfold startup_calls. rewrite !count_calls_app.
  rewrite (count_calls_flat_map_none _ (frame_calls W fov h)) by (intros i; reflexivity).
  destruct (loop_ends 0 inputs); eval_counts; reflexivity.
Qed.

(** C8: in every frame the lighting pass binds the final-colour
    framebuffer, binds the position, normal, albedo and depth textures of
    the g-buffer and the sky cube texture to the texture units 0 to 4,
    binds its pipeline and the empty vertex array, writes five uniforms and
    then issues [glDrawArrays(GL_TRIANGLES, 0, 6)], the one non-indexed
    draw of the frame; nothing draws after it.  Throughout the run no call
    gives the empty vertex array a vertex buffer, an index buffer or an
    attribute. *)
Theorem lighting_pass_one_fullscreen_draw (W : world) (camera_projection : glm.mat4)
    (fov : GLfloat) (inputs : list frame_input) (r : option Z) (s' : gl_state) :
  main W camera_projection fov inputs initial_state = (Ok r, s') ->
  let h := startup_handles (next_name initial_state) in
  count_calls (feeds_vertex_array (vao_empty h)) (calls s') = 0%nat
  /\ In (glNamedFramebufferTexture (fb_gbuffer h) GL_COLOR_ATTACHMENT0
                                   (texture_gbuffer_position h) 0) (calls s')
  /\ In (glNamedFramebufferTexture (fb_gbuffer h) (GL_COLOR_ATTACHMENT0 + 1)
                                   (texture_gbuffer_normal h) 0) (calls s')
  /\ In (glNamedFramebufferTexture (fb_gbuffer h) (GL_COLOR_ATTACHMENT0 + 2)
                                   (texture_gbuffer_albedo h) 0) (calls s')
  /\ In (glNamedFramebufferTexture (fb_gbuffer h) GL_DEPTH_ATTACHMENT
                                   (texture_gbuffer_depth h) 0) (calls s')
  /\ In (glCreateTextures GL_TEXTURE_CUBE_MAP (texture_skybox h)) (calls s')
  /\ forall i : frame_input,
       exists before uniforms after : list gl_call,
         frame_calls W fov h i
         = before ++ lighting_binds h ++ uniforms ++ [glDrawArrays GL_TRIANGLES 0 6] ++ after
         /\ length uniforms = 5%nat
         /\ forallb is_uniform_write uniforms = true
         /\ count_calls is_draw_arrays (frame_calls W fov h i) = 1%nat
         /\ count_calls is_draw after = 0%nat.
Proof.
  intros Hmain h.
  split; [by apply (run_feeds_no_empty_vertex_array _ _ _ _ _ _ Hmain)|].
  apply run_calls in Hmain as [_ ->]. fold h.
  assert (Hfb : forall c,
             In c (framebuffer_calls (fb_gbuffer h)
                     [texture_gbuffer_position h; texture_gbuffer_normal h;
                      texture_gbuffer_albedo h] (texture_gbuffer_depth h)) ->
             In c (startup_calls W h
                   ++ [projection_write camera_projection h]
                   ++ flat_map (frame_calls W fov h) (iterations 0 inputs)
                   ++ (if loop_ends 0 inputs then shutdown_calls h else []))).
  { intros c Hc. apply in_or_app. left. unfold startup_calls.
    do 10 (apply in_or_app; right). apply in_or_app. by left. }
  split; [apply Hfb; by apply lookup_In with 1%nat|].
  split; [apply Hfb; by apply lookup_In with 2%nat|].
  split; [apply Hfb; by apply lookup_In with 3%nat|].
  split; [apply Hfb; by apply lookup_In with 5%nat|].
  split.
  { apply in_or_app. left. unfold startup_calls.
    do 4 (apply in_or_app; right). apply in_or_app. left. left. reflexivity. }
  intros i.
  exists (firstn 27 (frame_calls W fov h i)),
         (firstn 5 (skipn 35 (frame_calls W fov h i))),
         (skipn 41 (frame_calls W fov h i)).
  repeat split; reflexivity.
Qed.

Lemma lighting_pass_one_fullscreen_draw_witness :
  count_calls (feeds_vertex_array 1)
    (calls (snd (main demo_world demo_matrix glm.f1 demo_inputs initial_state))) = 0%nat
  /\ In (glCreateTextures GL_TEXTURE_CUBE_MAP 4)
        (calls (snd (main demo_world demo_matrix glm.f1 demo_inputs initial_state))).
Proof.
  assert (Hrun : main demo_world demo_matrix glm.f1 demo_inputs initial_state
                 = (Ok (Some 0),
                    snd (main demo_world demo_matrix glm.f1 demo_inputs initial_state)))
    by (vm_compute; reflexivity).
  destruct (lighting_pass_one_fullscreen_draw demo_world demo_matrix glm.f1 demo_inputs
              (Some 0) _ Hrun) as (Hfeeds & _ & _ & _ & _ & Hsky & _).
  split; [exact Hfeeds|exact Hsky].
Defined.

(** ** The shutdown *)

(** C2, evaluated on the code: in every run of [main] that returns, the
    objects created and the objects deleted are the two lists below, each
    without repetition.  Every object created is deleted once, in the
    batches buffers, textures, stage programs, pipelines, vertex arrays,
    framebuffers, except the vertex array of the quad: [create_geometry]
    created it, and no call deletes it. *)
Theorem shutdown_misses_quad_vertex_array (W : world) (camera_projection : glm.mat4)
    (fov : GLfloat) (inputs : list frame_input) (s' : gl_state) :
  main W camera_projection fov inputs initial_state = (Ok (Some 0), s') ->
  let h := startup_handles (next_name initial_state) in
  flat_map created (calls s') = objects_created
  /\ flat_map deleted (calls s') = objects_deleted
  /\ In (glCreateVertexArrays (vao_quad h))
        (geometry_calls (vao_quad h) (vbo_quad h) (ibo_quad h)
                        vertices_quad indices_quad vertex_format)
  /\ In (VertexArray, vao_quad h) (flat_map created (calls s'))
  /\ ~ In (VertexArray, vao_quad h) (flat_map deleted (calls s'))
  /\ (forall o, In o (flat_map created (calls s')) -> o <> (VertexArray, vao_quad h) ->
        count_occ (prod_eq_dec (A := object_kind) (B := Z)) (flat_map deleted (calls s')) o = 1%nat).
Proof.
  intros Hmain h.
  apply run_calls in Hmain as [Hr ->]. fold h.
  destruct (loop_ends 0 inputs); [clear Hr|discriminate].
  assert (Hc : flat_map created
                 (startup_calls W h ++ [projection_write camera_projection h]
                  ++ flat_map (frame_calls W fov h) (iterations 0 inputs)
                  ++ shutdown_calls h) = objects_created).
  { unfold startup_calls. rewrite !flat_map_app.
    rewrite (flat_map_flat_map_nil _ (frame_calls W fov h)) by (intros i; reflexivity).
    eval_flat_maps. reflexivity. }
  assert (Hd : flat_map deleted
                 (startup_calls W h ++ [projection_write camera_projection h]
                  ++ flat_map (frame_calls W fov h) (iterations 0 inputs)
                  ++ shutdown_calls h) = objects_deleted).
  { unfold startup_calls. rewrite !flat_map_app.
    rewrite (flat_map_flat_map_nil _ (frame_calls W fov h)) by (intros i; reflexivity).
    eval_flat_maps. reflexivity. }
  rewrite Hc, Hd.
  split; [reflexivity|]. split; [reflexivity|].
  split; [by apply lookup_In with 4%nat|].
  split; [by apply lookup_In with 17%nat|].
  split.
  - intros Hin. vm_compute in Hin.
    repeat (destruct Hin as [Hin|Hin]; [discriminate Hin|]). exact Hin.
  - intros o Ho Hne. unfold objects_created in Ho. simpl in Ho.
    repeat (destruct Ho as [<-|Ho];
            [first [reflexivity | exfalso; apply Hne; reflexivity]|]).
    destruct Ho.
Qed.

Lemma shutdown_misses_quad_vertex_array_witness :
  let t := calls (snd (main demo_world demo_matrix glm.f1 demo_inputs initial_state)) in
  In (VertexArray, 3) (flat_map created t) /\ ~ In (VertexArray, 3) (flat_map deleted t).
Proof.
  assert (Hrun : main demo_world demo_matrix glm.f1 demo_inputs initial_state
                 = (Ok (Some 0),
                    snd (main demo_world demo_matrix glm.f1 demo_inputs initial_state)))
    by (vm_compute; reflexivity).
  destruct (shutdown_misses_quad_vertex_array demo_world demo_matrix glm.f1 demo_inputs
              _ Hrun) as (_ & _ & _ & Hcreated & Hdeleted & _).
  split; [exact Hcreated|exact Hdeleted].
Defined.

(** ** Index buffers *)

Lemma uint8_value_range (b : uint8_t) : 0 <= uint8_value b <= 255.
Proof.
  unfold uint8_value. pose proof (Byte.to_N_bounded b) as H. lia.
Qed.

Lemma all_indices_values : map uint8_value all_indices = map Z.of_nat (seq 0 256).
Proof. vm_compute. reflexivity. Qed.

Lemma all_indices_reach_256 : mesh_uses_all_vertices 256 all_indices.
Proof.
  intros k Hk. rewrite all_indices_values. apply in_map. apply in_seq. lia.
Qed.

(** C5, as the specification states it, at a mesh of exactly 256 unique
    vertices: the 256 index values 0..255 reach every vertex, and
    [create_geometry] accepts the mesh and stores the indices as they are,
    with the 8-bit index type. *)
Lemma mesh_of_256_vertices_accepted :
  let vertices := replicate 256 (vtx glm.f0 glm.f0 glm.f0 glm.f0 glm.f0 glm.f0
                                     glm.f0 glm.f0 glm.f0 glm.f0 glm.f0) in
  let run := create_geometry vertices all_indices vertex_format initial_state in
  length vertices = 256%nat
  /\ mesh_uses_all_vertices 256 all_indices
  /\ fst run = Ok (1, 1, 2)
  /\ In (glNamedBufferStorage 2 256 (IndexData all_indices) GL_DYNAMIC_STORAGE_BIT)
        (calls (snd run)).
Proof.
  split; [reflexivity|]. split; [exact all_indices_reach_256|].
  split; [vm_compute; reflexivity|].
  apply lookup_In with 3%nat. vm_compute. reflexivity.
Qed.

(** C5, amended: [create_geometry] takes its indices as unsigned 8-bit
    values and stores them unchanged, one byte each, and every indexed
    draw of a frame is issued with the 8-bit index type.  Every value of
    the type lies in 0..255 and 255 is one of them; the 256 values reach a
    mesh of 256 vertices; no index list of this type reaches all vertices
    of a mesh of more than 256, which therefore needs a wider index type.
    [create_geometry] itself checks nothing and reduces nothing modulo
    256. *)
Theorem index_buffers_are_8_bit :
  (forall (T : Type) (E : BufferElem T) (vertices : list T) (indices : list uint8_t)
          (formats : list attrib_format_t) (s : gl_state),
      let vbo := n_buffer (next_name s) in
      let ibo := n_buffer (next_name s) + 1 in
      let vao := n_vertex_array (next_name s) in
      exists s' : gl_state,
        create_geometry vertices indices formats s = (Ok (vao, vbo, ibo), s')
        /\ In (glNamedBufferStorage ibo (1 * Z.of_nat (length indices)) (IndexData indices)
                                    GL_DYNAMIC_STORAGE_BIT) (calls s')
        /\ In (glVertexArrayElementBuffer vao ibo) (calls s'))
  /\ (forall b : uint8_t, 0 <= uint8_value b <= 255)
  /\ uint8_value Byte.xff = 255
  /\ (forall (W : world) (fov : GLfloat) (h : handles) (i : frame_input),
        forallb draws_with_8_bit_indices (frame_calls W fov h i) = true)
  /\ mesh_uses_all_vertices 256 all_indices
  /\ (forall (n : nat) (indices : list uint8_t),
        (256 < n)%nat -> ~ mesh_uses_all_vertices n indices).
Proof.
  split; [|split; [|split; [|split; [|split]]]].
  - intros T E vertices indices formats s vbo ibo vao.
    eexists. split; [apply create_geometry_run|].
    cbn [calls emit]. split; apply in_or_app; right.
    + by apply lookup_In with 3%nat.
    + by apply lookup_In with 6%nat.
  - exact uint8_value_range.
  - reflexivity.
  - intros W fov h i. reflexivity.
  - exact all_indices_reach_256.
  - intros n indices Hn Hall.
    specialize (Hall 256%nat Hn). apply in_map_iff in Hall as (b & Hb & _).
    pose proof (uint8_value_range b). lia.
Qed.

Lemma index_buffers_are_8_bit_witness :
  ~ mesh_uses_all_vertices 257 all_indices.
Proof.
  destruct index_buffers_are_8_bit as (_ & _ & _ & _ & _ & Hwide).
  apply (Hwide 257%nat all_indices). lia.
Defined.

(** * Beyond the claims *)

(** ** Failures of the constructors *)

(** X1 (create_program, read_text_file).  When the vertex or the fragment
    source file is missing, [create_program] throws the message that names
    the first missing file, and it does so before it touches OpenGL: no
    call is issued and the driver hands out no name. *)
Theorem create_program_missing_file (W : world) (vert_filepath frag_filepath : string)
    (s : gl_state) :
  read_file W vert_filepath = None \/ read_file W frag_filepath = None ->
  create_program W vert_filepath frag_filepath s
  = (Throw ("file " +:+ first_missing W vert_filepath frag_filepath +:+ " does not exist."), s).
Proof.
  intros H. unfold create_program, read_text_file, first_missing.
  destruct (read_file W vert_filepath) as [vs|]; [|reflexivity].
  destruct H as [H|H]; [discriminate|]. rewrite H. reflexivity.
Qed.

Lemma create_program_missing_file_witness :
  create_program no_files_world "main.vert" "main.frag" initial_state
  = (Throw "file main.vert does not exist.", initial_state).
Proof.
  apply (create_program_missing_file no_files_world "main.vert" "main.frag" initial_state).
  left. reflexivity.
Defined.

(** X2 (create_texture_2d_from_file).  The loader returns a texture
    exactly when the file exists and one of the four channel layouts is
    asked for; it never looks at what the decoder answered.  For a file
    that decodes, the texture is allocated with the width and height of
    the image and filled by one upload of exactly that image with exactly
    that size.  For a file that exists and does not decode, the texture is
    returned all the same: it is allocated with a width and height that
    were never written, and nothing is uploaded. *)
Theorem file_texture_decode_unchecked (W : world) (path : string) (comp : stb_comp_t)
    (s : gl_state) :
  let run := create_texture_2d_from_file W path comp s in
  let tex := n_texture (next_name s) in
  (is_ok (fst run) = true <-> read_file W path <> None /\ comp <> STBI_default)
  /\ (read_file W path <> None -> comp <> STBI_default ->
      exists t : list gl_call,
        run = (Ok tex, emit t (alloc Texture s))
        /\ flat_map created t = [(Texture, tex)]
        /\ match stbi_load W path comp with
           | Some px =>
               storage_sizes t = [(img_x px, img_y px)]
               /\ count_calls is_upload_2d t = 1%nat
               /\ In (glTextureSubImage2D tex 0 0 0 (img_x px) (img_y px)
                                          (snd (formats_of comp)) GL_UNSIGNED_BYTE px) t
               /\ Forall upload_matches_pixels t
           | None =>
               storage_sizes t = [(indeterminate W "x", indeterminate W "y")]
               /\ count_calls is_upload_2d t = 0%nat
               /\ length t = 7%nat
           end).
Proof.
  intros run tex.
  assert (Hrun : read_file W path <> None -> comp <> STBI_default ->
                 run = (Ok tex, emit (file_texture_calls W tex path comp) (alloc Texture s))).
  { intros Hfile Hcomp. subst run. unfold create_texture_2d_from_file, file_texture_calls.
    destruct (read_file W path); [|done].
    destruct comp; [done|..]; erewrite bind_ok by reflexivity;
      destruct (stbi_load W path _); apply create_texture_2d_run. }
  split.
  - split.
    + subst run. unfold create_texture_2d_from_file.
      destruct (read_file W path); [|discriminate].
      destruct comp; [discriminate|..]; intros _; by split.
    + intros [Hfile Hcomp]. by rewrite (Hrun Hfile Hcomp).
  - intros Hfile Hcomp. exists (file_texture_calls W tex path comp).
    split; [by apply Hrun|].
    unfold file_texture_calls.
    destruct (stbi_load W path comp) as [px|]; cbn [decoded_size fst snd].
    + split; [reflexivity|]. split; [reflexivity|]. split; [reflexivity|].
      split; [cbn; auto 10|]. cbn. repeat constructor.
    + repeat split; reflexivity.
Qed.

Lemma file_texture_decode_unchecked_witness :
  (exists t : list gl_call,
     create_texture_2d_from_file demo_world "T.png" STBI_rgb initial_state
     = (Ok 1, emit t (alloc Texture initial_state))
     /\ storage_sizes t = [(2, 2)])
  /\ (exists t : list gl_call,
        create_texture_2d_from_file undecodable_world "T.png" STBI_rgb initial_state
        = (Ok 1, emit t (alloc Texture initial_state))
        /\ storage_sizes t = [(640, -3)]
        /\ count_calls is_upload_2d t = 0%nat).
Proof.
  split.
  - destruct (proj2 (file_texture_decode_unchecked demo_world "T.png" STBI_rgb initial_state))
      as (t & Hrun & _ & Hsize & _); [discriminate..|].
    exists t. split; [exact Hrun|exact Hsize].
  - destruct (proj2 (file_texture_decode_unchecked undecodable_world "T.png" STBI_rgb
                       initial_state))
      as (t & Hrun & _ & Hsize & Hup & _); [discriminate..|].
    exists t. split; [exact Hrun|]. split; [exact Hsize|exact Hup].
Defined.

Lemma load_faces_quiet W filepath comp (n : nat) : forall first xy faces s,
  snd (load_faces W filepath comp first n xy faces s) = s
  /\ forall r, fst (load_faces W filepath comp first n xy faces s) = Ok r ->
       length (snd r) = length faces.
Proof.
  induction n as [|n IH]; intros first xy faces s; simpl.
  - split; [reflexivity|]. by intros r [= <-].
  - destruct (filepath !! first) as [p|]; [|by split].
    destruct (IH (S first)
                 (match stbi_load W p comp with
                  | Some i => Some (img_x i, img_y i) | None => xy end)
                 (<[first := stbi_load W p comp]> faces) s) as [Hs Hlen].
    split; [exact Hs|]. intros r Hr. rewrite (Hlen r Hr). apply length_insert.
Qed.

Lemma create_texture_cube_from_file_ok W p0 p1 p2 p3 p4 p5 comp s :
  comp <> STBI_default ->
  let faces := map (fun p => stbi_load W p comp) [p0; p1; p2; p3; p4; p5] in
  let xy := default (indeterminate W "x", indeterminate W "y") (last_decoded faces) in
  create_texture_cube_from_file W [p0; p1; p2; p3; p4; p5] comp s
  = (Ok (n_texture (next_name s)),
     emit (texture_cube_calls (n_texture (next_name s)) (fst (formats_of comp))
                              (snd (formats_of comp)) (fst xy) (snd xy) faces)
          (alloc Texture s)).
Proof.
  intros Hcomp faces xy. unfold create_texture_cube_from_file.
  assert (Hfmt : stb_formats comp s = (Ok (formats_of comp), s)) by (by destruct comp).
  erewrite bind_ok by exact Hfmt.
  erewrite bind_ok by apply load_faces_six.
  cbn [fst snd]. fold faces. subst xy.
  destruct (last_decoded faces) as [[x y]|]; by apply create_texture_cube_run.
Qed.

(** X3 (create_texture_2d_from_file, create_texture_cube_from_file,
    create_program).  The three constructors that read files either return
    a handle or throw, and when they throw they have issued no OpenGL call
    and taken no name from the driver: the state is the one they were
    called in.  The texture loader throws exactly for a missing file or
    the default channel layout, the cube loader exactly for the default
    channel layout, and [create_program] exactly for a missing source
    file; a file that is there and cannot be decoded makes none of them
    throw. *)
Theorem loaders_throw_before_any_call (W : world) (s : gl_state) :
  (forall path comp,
      match create_texture_2d_from_file W path comp s with
      | (Ok tex, _) => read_file W path <> None /\ comp <> STBI_default
      | (Throw what, s') =>
          s' = s
          /\ (read_file W path = None /\ what = missing_file path
              \/ read_file W path <> None /\ comp = STBI_default /\ what = "invalid format")
      | (UB, _) => False
      end)
  /\ (forall p0 p1 p2 p3 p4 p5 comp,
        match create_texture_cube_from_file W [p0; p1; p2; p3; p4; p5] comp s with
        | (Ok tex, _) => comp <> STBI_default
        | (Throw what, s') => s' = s /\ comp = STBI_default /\ what = "invalid format"
        | (UB, _) => False
        end)
  /\ (forall vert_filepath frag_filepath,
        match create_program W vert_filepath frag_filepath s with
        | (Ok r, _) => read_file W vert_filepath <> None /\ read_file W frag_filepath <> None
        | (Throw what, s') =>
            s' = s
            /\ (read_file W vert_filepath = None \/ read_file W frag_filepath = None)
            /\ what = missing_file (first_missing W vert_filepath frag_filepath)
        | (UB, _) => False
        end).
Proof.
  split; [|split].
  - intros path comp. unfold create_texture_2d_from_file.
    destruct (read_file W path) eqn:Ef; [|split; [reflexivity|by left]].
    destruct comp;
      [split; [reflexivity|]; right; by repeat split|..];
      erewrite bind_ok by reflexivity;
      destruct (stbi_load W path _); rewrite create_texture_2d_run; by split.
  - intros p0 p1 p2 p3 p4 p5 comp.
    destruct comp; [by repeat split|..];
      by rewrite create_texture_cube_from_file_ok.
  - intros vp fp. unfold first_missing.
    destruct (read_file W vp) as [vs|] eqn:Ev.
    2:{ unfold create_program, read_text_file. rewrite Ev. split; [reflexivity|].
        split; [by left|reflexivity]. }
    destruct (read_file W fp) as [fs|] eqn:Ef.
    2:{ unfold create_program, read_text_file. rewrite Ev, Ef. split; [reflexivity|].
        split; [by right|reflexivity]. }
    rewrite (create_program_run W vp fp vs fs s Ev Ef). by split.
Qed.

Lemma loaders_throw_before_any_call_witness :
  snd (create_texture_2d_from_file no_files_world "T.png" STBI_rgb initial_state)
  = initial_state
  /\ is_ok (fst (create_texture_cube_from_file undecodable_world
                   ["f0"; "f1"; "f2"; "f3"; "f4"; "f5"] STBI_rgb_alpha initial_state)) = true.
Proof.
  split.
  - pose proof (proj1 (loaders_throw_before_any_call no_files_world initial_state)
                  "T.png" STBI_rgb) as H.
    destruct (create_texture_2d_from_file no_files_world "T.png" STBI_rgb initial_state)
      as [[tex|what|] s'] eqn:E; [by destruct H|by destruct H|destruct H].
  - pose proof (proj1 (proj2 (loaders_throw_before_any_call undecodable_world initial_state))
                  "f0" "f1" "f2" "f3" "f4" "f5" STBI_rgb_alpha) as H.
    destruct (create_texture_cube_from_file undecodable_world _ STBI_rgb_alpha initial_state)
      as [[tex|what|] s'] eqn:E; [reflexivity|by destruct H as (_ & [=] & _)|destruct H].
Defined.

Lemma flat_map_none {A} (g : gl_call -> list A) (t : list gl_call) :
  Forall (fun c => g c = []) t -> flat_map g t = [].
Proof.
  induction 1 as [|c t Hc _ IH]; [reflexivity|]. simpl. by rewrite Hc, IH.
Qed.

Lemma color_attachments_attach fbo (cols : list GLuint) : forall first,
  Forall (fun c => created c = [] /\ deleted c = []) (color_attachments fbo first cols).
Proof.
  unfold color_attachments.
  induction cols as [|tex cols IH]; intros first; [constructor|].
  rewrite imap_cons. constructor; [by split|].
  rewrite (imap_ext _ (fun i tex => glNamedFramebufferTexture fbo
                         (GL_COLOR_ATTACHMENT0 + Z.of_nat (S first + i)) tex 0)).
  - apply IH.
  - intros i x _. simpl. do 3 f_equal. lia.
Qed.

(** X4 (create_framebuffer).  When the driver reports the framebuffer
    incomplete, [create_framebuffer] throws with the framebuffer object
    still in existence: the object was created, the completeness check was
    the last call, and nothing deletes the object on the way out. *)
Theorem create_framebuffer_failure_keeps_object (W : world) (cols : list GLuint)
    (depth : GLuint) (s : gl_state) (what : string) (s' : gl_state) :
  create_framebuffer W cols depth s = (Throw what, s') ->
  let fbo := n_framebuffer (next_name s) in
  what = "incomplete framebuffer"
  /\ (length cols <= 32)%nat
  /\ n_framebuffer (next_name s') = fbo + 1
  /\ exists t : list gl_call,
       calls s' = calls s ++ t
       /\ flat_map created t = [(Framebuffer, fbo)]
       /\ flat_map deleted t = []
       /\ last t = Some (glCheckNamedFramebufferStatus fbo GL_FRAMEBUFFER).
Proof.
  intros H fbo.
  destruct (le_lt_dec (length cols) 32) as [Hlen|Hlen].
  2:{ pose proof (create_framebuffer_overflow W cols depth s Hlen) as Hub.
      rewrite H in Hub. discriminate. }
  rewrite create_framebuffer_run in H by assumption. fold fbo in H.
  destruct (decide _); [discriminate|].
  injection H as <- <-.
  split; [reflexivity|]. split; [assumption|].
  split; [by destruct s as [[]]|].
  exists (framebuffer_calls fbo cols depth). split; [reflexivity|].
  pose proof (color_attachments_attach fbo cols 0) as Hatt.
  unfold framebuffer_calls.
  rewrite !flat_map_app.
  rewrite (flat_map_none created (color_attachments fbo 0 cols))
    by (eapply Forall_impl; [exact Hatt|]; by intros c []).
  rewrite (flat_map_none deleted (color_attachments fbo 0 cols))
    by (eapply Forall_impl; [exact Hatt|]; by intros c []).
  repeat split.
  - destruct (decide (depth = GL_NONE)); reflexivity.
  - destruct (decide (depth = GL_NONE)); reflexivity.
  - rewrite !app_assoc. apply last_snoc.
Qed.

Lemma create_framebuffer_failure_keeps_object_witness :
  exists t : list gl_call,
    calls (snd (create_framebuffer incomplete_world [6; 7; 8] 9 initial_state)) = t
    /\ flat_map created t = [(Framebuffer, 1)]
    /\ flat_map deleted t = [].
Proof.
  destruct (create_framebuffer_failure_keeps_object incomplete_world [6; 7; 8] 9 initial_state
              "incomplete framebuffer"
              (snd (create_framebuffer incomplete_world [6; 7; 8] 9 initial_state)) eq_refl)
    as (_ & _ & _ & t & Ht & Hc & Hd & _).
  exists t. exact (conj Ht (conj Hc Hd)).
Defined.

Lemma face_uploads_layers tex format width height (faces : list (option image)) :
  forall first : nat,
    flat_map upload_layer
      (concat (imap (fun i => face_upload tex format width height (first + i)) faces))
    = decoded_layers first faces.
Proof.
  induction faces as [|face faces IH]; intros first; [reflexivity|].
  rewrite imap_cons. simpl concat. rewrite flat_map_app.
  rewrite (imap_ext _ (fun i => face_upload tex format width height (S first + i))).
  2:{ intros i x _. simpl. f_equal. lia. }
  rewrite IH, Nat.add_0_r. by destruct face.
Qed.

Lemma texture_cube_calls_read tex internal_format format width height
    (faces : list (option image)) :
  flat_map created (texture_cube_calls tex internal_format format width height faces)
  = [(Texture, tex)]
  /\ storage_sizes (texture_cube_calls tex internal_format format width height faces)
     = [(width, height)]
  /\ flat_map upload_layer (texture_cube_calls tex internal_format format width height faces)
     = decoded_layers 0 faces.
Proof.
  assert (Hfaces : forall first, Forall (fun c => created c = [] /\ storage_size c = None)
            (concat (imap (fun i => face_upload tex format width height (first + i)%nat) faces))).
  { induction faces as [|face faces IH]; intros first; [constructor|].
    rewrite imap_cons. simpl concat. apply Forall_app. split.
    - destruct face; repeat constructor.
    - rewrite (imap_ext _ (fun i => face_upload tex format width height (S first + i))).
      + apply IH.
      + intros i x _. simpl. f_equal. lia. }
  assert (Hfaces0 : Forall (fun c => created c = [] /\ storage_size c = None)
            (concat (imap (face_upload tex format width height) faces)))
    by exact (Hfaces 0%nat).
  clear Hfaces. rename Hfaces0 into Hfaces.
  unfold texture_cube_calls, storage_sizes.
  rewrite !flat_map_app, omap_app. repeat split.
  - rewrite (flat_map_none created (concat _))
      by (eapply Forall_impl; [exact Hfaces|]; by intros c []).
    reflexivity.
  - assert (E : forall t, Forall (fun c => created c = [] /\ storage_size c = None) t ->
                          omap storage_size t = []).
    { induction 1 as [|c t [_ Hc] _ IH]; [reflexivity|]. simpl. by rewrite Hc. }
    rewrite (E _ Hfaces). reflexivity.
  - exact (face_uploads_layers tex format width height faces 0).
Qed.

Lemma decoded_layers_nil (faces : list (option image)) : forall first,
  decoded_layers first faces = [] <-> Forall (eq None) faces.
Proof.
  induction faces as [|[px|] faces IH]; intros first; simpl.
  - split; constructor.
  - split; [discriminate|]. intros H. apply Forall_cons in H as [[=] _].
  - rewrite IH. split; [by constructor|]. intros H. by apply Forall_cons in H as [_ H].
Qed.

(** X5 (create_texture_cube).  A cube texture gets one upload for each
    face pointer that is not null, into the layer with the index of that
    face, in the order of the array; a null face is skipped, and a cube
    with six null faces is allocated and left without content. *)
Theorem create_texture_cube_uploads_given_faces (internal_format format : GLenum)
    (width height : GLsizei) (data : list (option image)) (s : gl_state) :
  length data = 6%nat ->
  let tex := n_texture (next_name s) in
  exists t : list gl_call,
    create_texture_cube internal_format format width height data s
    = (Ok tex, emit t (alloc Texture s))
    /\ flat_map created t = [(Texture, tex)]
    /\ storage_sizes t = [(width, height)]
    /\ flat_map upload_layer t = decoded_layers 0 data
    /\ (Forall (eq None) data <-> flat_map upload_layer t = []).
Proof.
  intros Hlen tex.
  exists (texture_cube_calls tex internal_format format width height data).
  split; [by apply create_texture_cube_run|].
  destruct (texture_cube_calls_read tex internal_format format width height data)
    as (Hc & Hsz & Hup).
  repeat split; try assumption.
  - rewrite Hup. apply decoded_layers_nil.
  - rewrite Hup. apply decoded_layers_nil.
Qed.

Lemma create_texture_cube_uploads_given_faces_witness :
  exists t : list gl_call,
    create_texture_cube GL_RGBA8 GL_RGBA 2 2
      [None; Some demo_image; None; None; Some demo_image; None] initial_state
    = (Ok 1, emit t (alloc Texture initial_state))
    /\ flat_map upload_layer t = [(1, demo_image); (4, demo_image)].
Proof.
  destruct (create_texture_cube_uploads_given_faces GL_RGBA8 GL_RGBA 2 2
              [None; Some demo_image; None; None; Some demo_image; None] initial_state
              eq_refl)
    as (t & Hrun & _ & _ & Hup & _).
  exists t. exact (conj Hrun Hup).
Defined.




(** ** What a run issues, however it ends *)

Lemma emits_ret P {A} (a : A) : emits_only P (ret a).
Proof. intros s out s' [= <- <-]. exists []. by rewrite app_nil_r. Qed.

Lemma emits_throw P {A} (what : string) : emits_only P (throw (A := A) what).
Proof. intros s out s' [= <- <-]. exists []. by rewrite app_nil_r. Qed.

Lemma emits_undefined P {A} : emits_only P (undefined (A := A)).
Proof. intros s out s' [= <- <-]. exists []. by rewrite app_nil_r. Qed.

Lemma emits_quiet P {A} (m : GL A) :
  (forall s, calls (snd (m s)) = calls s) -> emits_only P m.
Proof.
  intros H s out s' E. exists []. specialize (H s). rewrite E in H.
  simpl in H. by rewrite H, app_nil_r.
Qed.

Lemma emits_call P (c : gl_call) : P c = true -> emits_only P (call c).
Proof. intros H s out s' [= <- <-]. exists [c]. simpl. by rewrite H. Qed.

Lemma emits_bind P {A B} (m : GL A) (f : A -> GL B) :
  emits_only P m -> (forall a, emits_only P (f a)) -> emits_only P (bind m f).
Proof.
  intros Hm Hf s out s' E. unfold bind in E.
  destruct (m s) as [[a|w|] s0] eqn:Em.
  - destruct (Hm _ _ _ Em) as (t0 & E0 & P0).
    destruct (Hf a _ _ _ E) as (t1 & E1 & P1).
    exists (t0 ++ t1). rewrite E1, E0, app_assoc, forallb_app, P0, P1. by split.
  - injection E as <- <-. exact (Hm _ _ _ Em).
  - injection E as <- <-. exact (Hm _ _ _ Em).
Qed.

Lemma emits_for_range P (body : nat -> GL unit) :
  (forall i, emits_only P (body i)) ->
  forall n first, emits_only P (for_range first n body).
Proof.
  intros H. induction n as [|n IH]; intros first; simpl.
  - apply emits_ret.
  - apply emits_bind; [apply H|]. intros _. apply IH.
Qed.

Lemma emits_for_each P {A} (body : A -> GL unit) :
  (forall x, emits_only P (body x)) ->
  forall xs, emits_only P (for_each xs body).
Proof.
  intros H. induction xs as [|x xs IH]; simpl.
  - apply emits_ret.
  - apply emits_bind; [apply H|]. intros _. apply IH.
Qed.

Ltac emits :=
  repeat first
    [ apply emits_ret | apply emits_throw | apply emits_undefined
    | apply emits_call; reflexivity
    | apply emits_for_range; intros ?
    | apply emits_for_each; intros ?
    | apply emits_bind; [|intros ?]
    | match goal with
      | |- emits_only _ (match ?x with _ => _ end) => destruct x
      end
    | apply emits_quiet; intros ?; reflexivity ].

Lemma create_texture_2d_setup internal_format format width height data filter repeat_ :
  emits_only is_setup_call
    (create_texture_2d internal_format format width height data filter repeat_).
Proof. unfold create_texture_2d, create. emits. Qed.

Lemma create_texture_2d_from_file_setup W path comp :
  emits_only is_setup_call (create_texture_2d_from_file W path comp).
Proof.
  unfold create_texture_2d_from_file, stb_formats.
  destruct (read_file W path); [|emits]. cbv zeta.
  destruct (stbi_load W path comp); destruct comp; emits;
    apply create_texture_2d_setup.
Qed.

Lemma create_texture_cube_from_file_setup W filepath comp :
  emits_only is_setup_call (create_texture_cube_from_file W filepath comp).
Proof.
  unfold create_texture_cube_from_file.
  apply emits_bind; [unfold stb_formats; destruct comp; emits|]. intros fmt.
  apply emits_bind.
  { apply emits_quiet. intros s.
    by rewrite (proj1 (load_faces_quiet W filepath comp 6 0 None (replicate 6 None) s)). }
  intros r. cbv zeta. unfold create_texture_cube, create. emits.
Qed.

Lemma fill_draw_buffs_quiet (n : nat) : forall first draw_buffs s,
  snd (fill_draw_buffs first n draw_buffs s) = s.
Proof.
  induction n as [|n IH]; intros first draw_buffs s; [reflexivity|].
  simpl. unfold bind, array_write.
  destruct (decide _); [apply IH|reflexivity].
Qed.

Lemma array_read_quiet (n : nat) : forall draw_buffs s,
  snd (array_read n draw_buffs s) = s.
Proof.
  induction n as [|n IH]; intros draw_buffs s; [reflexivity|].
  simpl. destruct draw_buffs as [|[v|] rest]; try reflexivity.
  unfold bind. specialize (IH rest s).
  destruct (array_read n rest s) as [[vs| |] s0]; exact IH.
Qed.

Lemma create_framebuffer_setup W cols depth :
  emits_only is_setup_call (create_framebuffer W cols depth).
Proof.
  unfold create_framebuffer, create, check_framebuffer_status.
  apply emits_bind; [emits|]. intros fbo.
  apply emits_bind; [emits|]. intros _.
  apply emits_bind.
  { apply emits_quiet. intros s. by rewrite fill_draw_buffs_quiet. }
  intros draw_buffs.
  apply emits_bind.
  { apply emits_quiet. intros s. by rewrite array_read_quiet. }
  intros bufs. emits.
Qed.

Lemma create_geometry_setup {T} `{BufferElem T} (vertices : list T) indices attrib_formats :
  emits_only is_setup_call (create_geometry vertices indices attrib_formats).
Proof. unfold create_geometry, create_buffer, create. emits. Qed.

Lemma validate_program_setup shader filename :
  emits_only is_setup_call (validate_program shader filename).
Proof.
  unfold validate_program, get_link_status, get_info_log.
  apply emits_bind; [emits|]. intros _.
  apply emits_bind; [emits|]. intros compiled.
  destruct (compiled =? GL_FALSE); [|emits].
  apply emits_bind; [|intros ?; emits].
  apply emits_bind; [emits|]. intros _.
  apply emits_quiet. intros s. by destruct (programs s !! shader) as [[]|].
Qed.

Lemma create_program_setup W vert_filepath frag_filepath :
  emits_only is_setup_call (create_program W vert_filepath frag_filepath).
Proof.
  unfold create_program, read_text_file, create_shader_program, create.
  apply emits_bind; [emits|]. intros vs.
  apply emits_bind; [emits|]. intros fs.
  apply emits_bind; [emits|]. intros vert.
  apply emits_bind; [emits|]. intros frag.
  apply emits_bind; [apply validate_program_setup|]. intros _.
  apply emits_bind; [apply validate_program_setup|]. intros _.
  emits.
Qed.

Lemma startup_setup W : emits_only is_setup_call (startup W).
Proof.
  unfold startup.
  apply emits_bind; [emits|]. intros _.
  apply emits_bind; [emits|]. intros _.
  do 3 (apply emits_bind; [emits|]; intros _).
  do 3 (apply emits_bind; [apply create_texture_2d_from_file_setup|]; intros ?).
  apply emits_bind; [apply create_texture_cube_from_file_setup|]. intros ?.
  do 5 (apply emits_bind; [apply create_texture_2d_setup|]; intros ?).
  do 2 (apply emits_bind; [apply create_framebuffer_setup|]; intros ?).
  do 4 (apply emits_bind; [unfold create_attrib_format, type_to_size_enum; emits|];
        intros ?).
  cbv zeta.
  apply emits_bind; [unfold create; emits|]. intros ?.
  do 2 (apply emits_bind; [apply create_geometry_setup|]; intros ?).
  do 2 (apply emits_bind; [apply create_program_setup|]; intros ?).
  apply emits_ret.
Qed.

(** ** What a run throws *)

Lemma throws_bind Q {A B} (m : GL A) (f : A -> GL B) :
  throws_only Q m -> (forall a, throws_only Q (f a)) -> throws_only Q (bind m f).
Proof.
  intros Hm Hf s what s' E. unfold bind in E.
  destruct (m s) as [[a|w|] s0] eqn:Em.
  - exact (Hf a _ _ _ E).
  - injection E as <- <-. exact (Hm _ _ _ Em).
  - discriminate.
Qed.

Lemma throws_throw (Q : string -> bool) {A} (what : string) :
  Q what = true -> throws_only Q (throw (A := A) what).
Proof. by intros H s w s' [= <- <-]. Qed.

(** A call that always returns, or ends undefined, throws nothing. *)
Lemma throws_never Q {A} (m : GL A) :
  (forall s what, fst (m s) <> Throw what) -> throws_only Q m.
Proof. intros H s what s' E. destruct (H s what). by rewrite E. Qed.

Lemma create_texture_2d_from_file_throws Q W path comp :
  comp <> STBI_default -> Q (missing_file path) = true ->
  throws_only Q (create_texture_2d_from_file W path comp).
Proof.
  intros Hcomp HQ s what s' E. unfold create_texture_2d_from_file in E.
  destruct (read_file W path); [|by injection E as <- <-].
  destruct comp; [done|..]; erewrite bind_ok in E by reflexivity;
    destruct (stbi_load W path _); by rewrite create_texture_2d_run in E.
Qed.

Lemma create_framebuffer_throws (Q : string -> bool) W cols depth :
  Q "incomplete framebuffer" = true -> throws_only Q (create_framebuffer W cols depth).
Proof.
  intros HQ s what s' E.
  destruct (le_lt_dec (length cols) 32) as [Hlen|Hlen].
  - rewrite create_framebuffer_run in E by assumption.
    destruct (decide _); [discriminate|]. by injection E as <- _.
  - pose proof (create_framebuffer_overflow W cols depth s Hlen) as Hub.
    rewrite E in Hub. discriminate.
Qed.

Lemma create_program_throws (Q : string -> bool) W vert_filepath frag_filepath :
  Q (missing_file vert_filepath) = true -> Q (missing_file frag_filepath) = true ->
  throws_only Q (create_program W vert_filepath frag_filepath).
Proof.
  intros Hv Hf s what s' E.
  destruct (read_file W vert_filepath) as [vs|] eqn:Ev.
  2:{ unfold create_program, read_text_file in E. rewrite Ev in E.
      by injection E as <- _. }
  destruct (read_file W frag_filepath) as [fs|] eqn:Ef.
  2:{ unfold create_program, read_text_file in E. rewrite Ev, Ef in E.
      by injection E as <- _. }
  by rewrite (create_program_run W _ _ vs fs s Ev Ef) in E.
Qed.

Lemma startup_throws W : throws_only is_startup_error (startup W).
Proof.
  unfold startup.
  apply throws_bind.
  { destruct (gladLoadGL W); [by apply throws_never|by apply throws_throw]. }
  intros _.
  do 4 (apply throws_bind; [by apply throws_never|]; intros _).
  do 3 (apply throws_bind; [by apply create_texture_2d_from_file_throws|]; intros ?).
  apply throws_bind.
  { apply throws_never. intros s what. unfold skybox_files.
    by rewrite create_texture_cube_from_file_ok. }
  intros ?.
  do 5 (apply throws_bind;
        [apply throws_never; intros s what; by rewrite create_texture_2d_run|]; intros ?).
  do 2 (apply throws_bind; [by apply create_framebuffer_throws|]; intros ?).
  do 4 (apply throws_bind; [by apply throws_never|]; intros ?).
  cbv zeta.
  apply throws_bind; [apply throws_never; intros s what; by rewrite create_run|]. intros ?.
  do 2 (apply throws_bind;
        [apply throws_never; intros s what; by rewrite create_geometry_run|]; intros ?).
  do 2 (apply throws_bind; [by apply create_program_throws|]; intros ?).
  by apply throws_never.
Qed.

(** X7 (main).  [main] throws only while it sets up.  When it ends by an
    exception, the exception is one of the nine the startup can throw (the
    failed load of OpenGL, a missing texture or shader file, an incomplete
    framebuffer), it is the startup that threw it, and by then only set-up
    calls were issued: no frame was drawn or presented, no uniform
    written, and nothing of what had been created was deleted.  A failed
    [gladLoadGL] ends the run before the first OpenGL call.  Nothing is
    said here of runs that end undefined. *)
Theorem main_throws_before_first_frame (W : world) (camera_projection : glm.mat4)
    (fov : GLfloat) (inputs : list frame_input) (s : gl_state)
    (what : string) (s' : gl_state) :
  main W camera_projection fov inputs s = (Throw what, s') ->
  In what startup_errors
  /\ startup W s = (Throw what, s')
  /\ (exists t : list gl_call, calls s' = calls s ++ t /\ forallb is_setup_call t = true)
  /\ (gladLoadGL W = false -> what = "failed to load gl" /\ s' = s).
Proof.
  intros Hmain. unfold main in Hmain.
  destruct (startup W s) as [o s0] eqn:Estart.
  destruct o as [h|w|].
  - exfalso. erewrite bind_ok in Hmain by exact Estart.
    erewrite bind_ok in Hmain by apply call_emit.
    erewrite bind_ok in Hmain by apply frame_loop_run.
    destruct (loop_ends 0 inputs).
    + erewrite bind_ok in Hmain by apply shutdown_run. discriminate.
    + discriminate.
  - unfold bind in Hmain. rewrite Estart in Hmain. injection Hmain as <- <-.
    split.
    { pose proof (startup_throws W _ _ _ Estart) as HQ.
      apply existsb_exists in HQ as (e & He & Heq).
      apply String.eqb_eq in Heq. by subst e. }
    split; [reflexivity|].
    split; [exact (startup_setup W _ _ _ Estart)|].
    intros Hglad. unfold startup in Estart. rewrite Hglad in Estart.
    by injection Estart as <- <-.
  - unfold bind in Hmain. rewrite Estart in Hmain. discriminate.
Qed.

Lemma main_throws_before_first_frame_witness :
  fst (main no_files_world demo_matrix glm.f1 demo_inputs initial_state)
  = Throw "file .\textures\T_Default_D.png does not exist."
  /\ exists t : list gl_call,
       calls (snd (main no_files_world demo_matrix glm.f1 demo_inputs initial_state))
       = calls initial_state ++ t
       /\ forallb is_setup_call t = true.
Proof.
  split; [vm_compute; reflexivity|].
  assert (Hrun : main no_files_world demo_matrix glm.f1 demo_inputs initial_state
                 = (Throw "file .\textures\T_Default_D.png does not exist.",
                    snd (main no_files_world demo_matrix glm.f1 demo_inputs initial_state)))
    by (vm_compute; reflexivity).
  exact (proj1 (proj2 (proj2 (main_throws_before_first_frame no_files_world demo_matrix glm.f1
                                demo_inputs initial_state _ _ Hrun)))).
Defined.

(** ** The end of the loop *)

Lemma iterations_after_quit (inputs : list frame_input) :
  iterations SDL_QUIT inputs = [] /\ loop_ends SDL_QUIT inputs = true.
Proof. by destruct inputs. Qed.

Lemma iterations_until_quit (inputs : list frame_input) : forall ev_type,
  ev_type <> SDL_QUIT ->
  iterations ev_type inputs = frames_drawn inputs
  /\ loop_ends ev_type inputs = quits inputs.
Proof.
  unfold frames_drawn, quits.
  induction inputs as [|i rest IH]; intros ev Hev; simpl.
  - by destruct (decide (ev = SDL_QUIT)).
  - destruct (decide (ev = SDL_QUIT)) as [|_]; [done|].
    unfold next_event.
    destruct (decide (polled i = Some SDL_QUIT)) as [Hq|Hq].
    + rewrite Hq. destruct (iterations_after_quit rest) as [-> ->].
      by rewrite take_0.
    + assert (Hnext : match polled i with Some t => t | None => ev end <> SDL_QUIT).
      { destruct (polled i) as [t|]; [|exact Hev]. intros ->. by apply Hq. }
      destruct (IH _ Hnext) as [-> ->].
      by destruct (first_quit rest).
Qed.

(** X8 (main, the while loop).  The loop test reads the event type one
    iteration late: the iteration that takes the quit event from the queue
    still renders and presents its frame, and the loop ends before the
    next one.  Events of other types never end it, and [main] returns 0
    exactly when some iteration polls the quit event. *)
Theorem loop_draws_through_quit_frame (W : world) (camera_projection : glm.mat4)
    (fov : GLfloat) (h : handles) (inputs : list frame_input) (s : gl_state) :
  frame_loop W fov h 0 inputs s
  = (Ok (quits inputs),
     emit (flat_map (frame_calls W fov h) (frames_drawn inputs)) s)
  /\ (forall k : nat, first_quit inputs = Some k ->
        frames_drawn inputs = take (S k) inputs
        /\ (k < length inputs)%nat
        /\ (exists i, inputs !! k = Some i /\ polled i = Some SDL_QUIT
                      /\ last (frames_drawn inputs) = Some i)
        /\ forall j i, (j < k)%nat -> inputs !! j = Some i -> polled i <> Some SDL_QUIT)
  /\ (first_quit inputs = None -> frames_drawn inputs = inputs)
  /\ (forall r s', main W camera_projection fov inputs s = (Ok r, s') ->
        r = if quits inputs then Some 0 else None).
Proof.
  assert (Hstart : (0 : Z) <> SDL_QUIT) by discriminate.
  destruct (iterations_until_quit inputs 0 Hstart) as [Hit Hend].
  split; [by rewrite frame_loop_run, Hit, Hend|].
  split.
  { unfold frames_drawn. clear. induction inputs as [|i rest IH]; intros k Hk; [discriminate|].
    cbn [first_quit] in Hk |- *. rewrite Hk. split; [reflexivity|].
    destruct (decide (polled i = Some SDL_QUIT)) as [Hq|Hq].
    - injection Hk as <-. split; [simpl; lia|]. split.
      + exists i. split; [reflexivity|]. split; [exact Hq|]. by destruct rest.
      + intros j i' Hj. lia.
    - destruct (first_quit rest) as [k'|] eqn:E; [|discriminate].
      injection Hk as <-.
      destruct (IH k' eq_refl) as (_ & Hlt & (i' & Hi' & Hq' & Hlast) & Hbefore).
      split; [simpl; lia|]. split.
      + exists i'. split; [exact Hi'|]. split; [exact Hq'|].
        change (take (S (S k')) (i :: rest)) with (i :: take (S k') rest).
        rewrite last_cons, Hlast. reflexivity.
      + intros [|j] i'' Hj Hi''.
        * injection Hi'' as <-. exact Hq.
        * apply (Hbefore j); [lia|exact Hi'']. }
  split; [unfold frames_drawn; by intros ->|].
  intros r s' Hmain. apply main_inv in Hmain as [-> _]. by rewrite Hend.
Qed.




(** ** Render targets and viewports *)

(** X10 (main).  The five textures [main] renders into are allocated once,
    with the size of the display mode; every frame renders both passes
    under a viewport of exactly that size, the blit reads exactly that
    rectangle of the final colour texture, and it writes the rectangle of
    the 1920x1080 window, under which the frame is presented. *)
Theorem render_targets_fill_viewport (W : world) (camera_projection : glm.mat4)
    (fov : GLfloat) (inputs : list frame_input) (r : option Z) (s' : gl_state) :
  main W camera_projection fov inputs initial_state = (Ok r, s') ->
  let h := startup_handles (next_name initial_state) in
  (forall tex, In tex (render_targets h) ->
     storage_of tex (calls s') = [(display_w W, display_h W)])
  /\ In (glNamedFramebufferTexture (fb_finalcolor h) GL_COLOR_ATTACHMENT0
                                   (texture_gbuffer_color h) 0) (calls s')
  /\ forall i : frame_input,
       viewports (frame_calls W fov h i)
       = [(0, 0, display_w W, display_h W); (0, 0, window_width, window_height)]
       /\ (exists pass present,
             frame_calls W fov h i
             = glProgramUniformMatrix4fv (vert_shader_g h) uniform_view 1 false
                                         (glm.value_ptr (camera_view i))
               :: glViewport 0 0 (display_w W) (display_h W) :: pass
               ++ glViewport 0 0 window_width window_height :: present
             /\ count_calls is_draw pass = 7%nat
             /\ present
                = [glBindFramebuffer GL_FRAMEBUFFER 0;
                   glBlitNamedFramebuffer (fb_finalcolor h) 0
                     0 0 (display_w W) (display_h W) 0 0 window_width window_height
                     GL_COLOR_BUFFER_BIT GL_NEAREST;
                   SDL_GL_SwapWindow]).
Proof.
  intros Hmain h.
  apply run_calls in Hmain as [_ ->]. fold h.
  split.
  { intros tex Htex. unfold storage_of.
    rewrite !flat_map_app.
    rewrite (flat_map_flat_map_nil _ (frame_calls W fov h)) by (intros i; reflexivity).
    unfold startup_calls.
    vm_compute in Htex.
    destruct Htex as [<-|[<-|[<-|[<-|[<-|[]]]]]];
      destruct (loop_ends 0 inputs); eval_flat_maps; reflexivity. }
  split.
  { apply in_or_app. left. unfold startup_calls.
    do 11 (apply in_or_app; right). apply in_or_app. left.
    right. left. reflexivity. }
  intros i. split; [reflexivity|].
  exists (firstn 39 (skipn 2 (frame_calls W fov h i))),
         (skipn 42 (frame_calls W fov h i)).
  repeat split; reflexivity.
Qed.

Lemma render_targets_fill_viewport_witness :
  storage_of 5 (calls (snd (main demo_world demo_matrix glm.f1 demo_inputs initial_state)))
  = [(1920, 1080)].
Proof.
  assert (Hrun : main demo_world demo_matrix glm.f1 demo_inputs initial_state
                 = (Ok (Some 0),
                    snd (main demo_world demo_matrix glm.f1 demo_inputs initial_state)))
    by (vm_compute; reflexivity).
  apply (proj1 (render_targets_fill_viewport demo_world demo_matrix glm.f1 demo_inputs
                  (Some 0) _ Hrun) 5).
  left. reflexivity.
Defined.

(** ** Reading a trace with a state *)

Lemma run_checker_seq {S} (step : S -> gl_call -> option S) (a b : list gl_call) :
  forall st st', run_checker step st a = Some st' ->
                 run_checker step st (a ++ b) = run_checker step st' b.
Proof.
  induction a as [|c a IH]; intros st st' H; simpl in *.
  - by injection H as <-.
  - destruct (step st c); [by apply IH|discriminate].
Qed.

Lemma run_checker_loop {S A} (step : S -> gl_call -> option S) (f : A -> list gl_call)
    (st0 st1 : S) (l : list A) :
  (forall x, run_checker step st0 (f x) = Some st1) ->
  (forall x, run_checker step st1 (f x) = Some st1) ->
  run_checker step st0 (flat_map f l) = Some (match l with [] => st0 | _ => st1 end).
Proof.
  intros H0 H1. destruct l as [|x l]; [reflexivity|].
  simpl. rewrite (run_checker_seq _ _ _ _ _ (H0 x)).
  induction l as [|y l IH]; [reflexivity|].
  simpl. by rewrite (run_checker_seq _ _ _ _ _ (H1 y)).
Qed.

(** Follow a checker through the segments of a run, one at a time. *)
Ltac eval_checker :=
  repeat (erewrite run_checker_seq by eval_segment).

(** ** Object lifetimes *)

Lemma filter_none_deleted (live : list (object_kind * GLuint)) :
  List.filter (fun o => negb (is_live [] o)) live = live.
Proof. induction live as [|o live IH]; [reflexivity|]. simpl. f_equal. exact IH. Qed.

Lemma names_shader_is_delete_shader c : is_delete_shader c = false -> names_shader c = false.
Proof. by destruct c. Qed.

(** The checker on a trace: it rejects a trace that names a shader
    object, and follows any other as the lenient checker does. *)
Lemma run_checker_strict (t : list gl_call) : forall st,
  run_checker scope_step st t
  = if existsb names_shader t then None else run_checker lenient_step st t.
Proof.
  induction t as [|c t IH]; intros st; [reflexivity|].
  cbn [run_checker existsb]. unfold lenient_step at 1.
  destruct (is_delete_shader c) eqn:Ec.
  - destruct c; try discriminate Ec.
    change (scope_step st (glDeleteShader shader))
      with (if negb (negb (shader =? 0)) && true
            then Some (List.filter (fun o => negb (is_live [] o)) (st ++ []))
            else None).
    cbn [names_shader].
    destruct (shader =? 0); cbn [negb andb orb]; [|reflexivity].
    rewrite app_nil_r, filter_none_deleted. apply IH.
  - rewrite (names_shader_is_delete_shader c Ec). cbn [orb].
    destruct (scope_step st c) as [st'|]; [apply IH|]. by destruct (existsb names_shader t).
Qed.

Lemma run_checker_without (t : list gl_call) : forall st,
  run_checker scope_step st (without_delete_shader t) = run_checker lenient_step st t.
Proof.
  unfold without_delete_shader.
  induction t as [|c t IH]; intros st; [reflexivity|].
  cbn [List.filter run_checker]. unfold lenient_step at 1.
  destruct (is_delete_shader c); cbn [negb]; [apply IH|].
  cbn [run_checker]. destruct (scope_step st c); [apply IH|reflexivity].
Qed.

Lemma names_shader_deleted (t : list gl_call) :
  existsb names_shader t = existsb (fun n => negb (n =? 0)) (shaders_deleted t).
Proof.
  unfold shaders_deleted.
  induction t as [|c t IH]; [reflexivity|].
  cbn [existsb flat_map]. rewrite existsb_app, IH. f_equal.
  destruct c; try reflexivity. simpl. by rewrite orb_false_r.
Qed.

Lemma shader_calls_deleted W pipeline vert frag vert_filepath frag_filepath :
  shaders_deleted (shader_calls W pipeline vert frag vert_filepath frag_filepath)
  = unlinked vert frag
      (fst (compile W GL_VERTEX_SHADER (source_of W vert_filepath)))
      (fst (compile W GL_FRAGMENT_SHADER (source_of W frag_filepath))).
Proof.
  unfold shader_calls.
  by destruct (fst (compile W GL_VERTEX_SHADER _)), (fst (compile W GL_FRAGMENT_SHADER _)).
Qed.

Lemma startup_scope W :
  let h := startup_handles (next_name initial_state) in
  run_checker lenient_step [] (startup_calls W h) = Some objects_created.
Proof.
  intros h. rewrite <- (app_nil_r (startup_calls W h)).
  unfold startup_calls. rewrite <- !app_assoc.
  eval_checker. reflexivity.
Qed.

Lemma startup_shaders_deleted W :
  let h := startup_handles (next_name initial_state) in
  shaders_deleted (startup_calls W h) = failed_stages W h.
Proof.
  intros h. unfold startup_calls, shaders_deleted.
  rewrite !flat_map_app.
  fold (shaders_deleted (shader_calls W (pr h) (vert_shader h) (frag_shader h)
                           ".\shaders\main.vert" ".\shaders\main.frag")).
  fold (shaders_deleted (shader_calls W (pr_g h) (vert_shader_g h) (frag_shader_g h)
                           ".\shaders\gbuffer.vert" ".\shaders\gbuffer.frag")).
  rewrite !shader_calls_deleted.
  eval_flat_maps. cbn [app].
  unfold failed_stages, stages, unlinked.
  destruct (fst (compile W GL_VERTEX_SHADER (source_of W ".\shaders\main.vert"))),
           (fst (compile W GL_FRAGMENT_SHADER (source_of W ".\shaders\main.frag"))),
           (fst (compile W GL_VERTEX_SHADER (source_of W ".\shaders\gbuffer.vert"))),
           (fst (compile W GL_FRAGMENT_SHADER (source_of W ".\shaders\gbuffer.frag")));
    reflexivity.
Qed.

(** X11 (main, validate_program).  Every call of a run but the
    [glDeleteShader] of [validate_program] names only objects that exist
    at that point: every object is created before its first use, and none
    is used after it was deleted or deleted twice.  [validate_program]
    hands [glDeleteShader] the name of a program object, once for each
    stage that failed to link, and no shader object ever exists: a run
    names only objects that exist exactly when all four stages link.  When
    [main] returns, all it created has been deleted but the vertex array
    of the quad. *)
Theorem run_names_live_objects (W : world) (camera_projection : glm.mat4)
    (fov : GLfloat) (inputs : list frame_input) (r : option Z) (s' : gl_state) :
  main W camera_projection fov inputs initial_state = (Ok r, s') ->
  let h := startup_handles (next_name initial_state) in
  let alive := if quits inputs then [(VertexArray, vao_quad h)] else objects_created in
  well_scoped (calls s') = all_linked W h
  /\ shaders_deleted (calls s') = failed_stages W h
  /\ well_scoped (without_delete_shader (calls s')) = true
  /\ left_alive (without_delete_shader (calls s')) = alive
  /\ (all_linked W h = true -> left_alive (calls s') = alive)
  /\ forall i : frame_input,
       run_checker scope_step objects_created (frame_calls W fov h i) = Some objects_created.
Proof.
  intros Hmain h alive.
  assert (Hstart : (0 : Z) <> SDL_QUIT) by discriminate.
  destruct (iterations_until_quit inputs 0 Hstart) as [_ Hend].
  apply run_calls in Hmain as [_ ->]. fold h. rewrite Hend.
  assert (Hframe : forall i, run_checker scope_step objects_created (frame_calls W fov h i)
                             = Some objects_created)
    by (intros i; vm_compute; reflexivity).
  assert (Hlenient : forall i, run_checker lenient_step objects_created (frame_calls W fov h i)
                               = Some objects_created)
    by (intros i; vm_compute; reflexivity).
  set (t := startup_calls W h
            ++ [projection_write camera_projection h]
            ++ flat_map (frame_calls W fov h) (iterations 0 inputs)
            ++ (if quits inputs then shutdown_calls h else [])).
  assert (Hrun : run_checker lenient_step [] t = Some alive).
  { subst t alive.
    rewrite (run_checker_seq _ _ _ _ _ (startup_scope W)).
    erewrite run_checker_seq by (vm_compute; reflexivity).
    erewrite run_checker_seq by (apply run_checker_loop; exact Hlenient).
    destruct (iterations 0 inputs); destruct (quits inputs); vm_compute; reflexivity. }
  assert (Hdel : shaders_deleted t = failed_stages W h).
  { subst t. unfold shaders_deleted. rewrite !flat_map_app.
    pose proof (startup_shaders_deleted W) as Hs. cbv zeta in Hs. fold h in Hs.
    unfold shaders_deleted in Hs. rewrite Hs.
    rewrite (flat_map_flat_map_nil _ (frame_calls W fov h)) by (intros i; reflexivity).
    destruct (quits inputs); cbn; by rewrite app_nil_r. }
  assert (Hstrict : existsb names_shader t = negb (all_linked W h)).
  { rewrite names_shader_deleted, Hdel. unfold failed_stages, all_linked, stages.
    destruct (fst (compile W GL_VERTEX_SHADER (source_of W ".\shaders\main.vert"))),
             (fst (compile W GL_FRAGMENT_SHADER (source_of W ".\shaders\main.frag"))),
             (fst (compile W GL_VERTEX_SHADER (source_of W ".\shaders\gbuffer.vert"))),
             (fst (compile W GL_FRAGMENT_SHADER (source_of W ".\shaders\gbuffer.frag")));
      reflexivity. }
  unfold well_scoped, left_alive.
  rewrite run_checker_without, run_checker_strict, Hstrict, Hrun.
  split; [by destruct (all_linked W h)|].
  split; [exact Hdel|]. split; [reflexivity|]. split; [reflexivity|].
  split; [by intros ->|exact Hframe].
Qed.

Lemma run_names_live_objects_witness :
  well_scoped (calls (snd (main demo_world demo_matrix glm.f1 demo_inputs initial_state)))
  = true
  /\ left_alive (calls (snd (main demo_world demo_matrix glm.f1 demo_inputs initial_state)))
     = [(VertexArray, 3)].
Proof.
  assert (Hrun : main demo_world demo_matrix glm.f1 demo_inputs initial_state
                 = (Ok (Some 0),
                    snd (main demo_world demo_matrix glm.f1 demo_inputs initial_state)))
    by (vm_compute; reflexivity).
  destruct (run_names_live_objects demo_world demo_matrix glm.f1 demo_inputs (Some 0) _ Hrun)
    as (Hscoped & _ & _ & _ & Halive & _).
  split; [rewrite Hscoped; vm_compute; reflexivity|].
  apply Halive. vm_compute. reflexivity.
Defined.

(** The checker is not satisfied by every trace: a use of a deleted
    texture, a bind of a vertex array that was never created, and a
    [glDeleteShader] of any name but 0, are rejected. *)
Example use_after_delete_rejected :
  well_scoped [glCreateTextures GL_TEXTURE_2D 1; glDeleteTextures 1 [1]; glBindTextureUnit 0 1]
  = false
  /\ well_scoped [glBindVertexArray 2] = false
  /\ well_scoped [glDeleteShader 777] = false
  /\ well_scoped [glCreateShaderProgramv GL_VERTEX_SHADER "" 1; glDeleteShader 1] = false
  /\ well_scoped [glCreateShaderProgramv GL_VERTEX_SHADER "" 1; glDeleteProgram 1] = true.
Proof. repeat split; reflexivity. Qed.

(** ** Fetching indices and vertices *)

Lemma startup_fetch W :
  let h := startup_handles (next_name initial_state) in
  exists st : fetch_state,
    run_checker fetch_step no_buffers (startup_calls W h) = Some st
    /\ fs_bound st = 0
    /\ (forall fov i,
          run_checker fetch_step st (frame_calls W fov h i)
          = Some (mk_fetch (fs_storage st) (fs_arrays st) (vao_empty h)))
    /\ (forall fov i,
          run_checker fetch_step (mk_fetch (fs_storage st) (fs_arrays st) (vao_empty h))
                      (frame_calls W fov h i)
          = Some (mk_fetch (fs_storage st) (fs_arrays st) (vao_empty h))).
Proof.
  intros h. eexists. split.
  { rewrite <- (app_nil_r (startup_calls W h)).
    unfold startup_calls. rewrite <- !app_assoc.
    eval_checker. reflexivity. }
  split; [reflexivity|].
  split; intros fov i; vm_compute; reflexivity.
Qed.

(** X12 (main, create_geometry).  No draw of a run reads outside a
    buffer: each indexed draw takes its indices from inside the index
    buffer of the vertex array bound at that point, each index selects a
    vertex all of whose enabled attributes lie inside the vertex buffer,
    and the draw of the lighting pass fetches no vertex data at all. *)
Theorem run_fetches_inside_buffers (W : world) (camera_projection : glm.mat4)
    (fov : GLfloat) (inputs : list frame_input) (r : option Z) (s' : gl_state) :
  main W camera_projection fov inputs initial_state = (Ok r, s') ->
  let h := startup_handles (next_name initial_state) in
  fetches_in_bounds (calls s') = true
  /\ exists st : fetch_state,
       run_checker fetch_step no_buffers (startup_calls W h) = Some st
       /\ draw_elements_ok (mk_fetch (fs_storage st) (fs_arrays st) (vao_cube h))
                           (Z.of_nat (length indices_cube)) GL_UNSIGNED_BYTE = true
       /\ draw_elements_ok (mk_fetch (fs_storage st) (fs_arrays st) (vao_cube h))
                           (Z.of_nat (length indices_cube) + 1) GL_UNSIGNED_BYTE = false
       /\ draw_elements_ok (mk_fetch (fs_storage st) (fs_arrays st) (vao_quad h))
                           (Z.of_nat (length indices_quad)) GL_UNSIGNED_BYTE = true
       /\ draw_arrays_ok (mk_fetch (fs_storage st) (fs_arrays st) (vao_empty h)) 0 6 = true.
Proof.
  intros Hmain h.
  apply run_calls in Hmain as [_ ->]. fold h.
  split.
  - pose proof (startup_fetch W) as Hst. cbv zeta in Hst. fold h in Hst.
    destruct Hst as (st & Hstartup & Hbound & Hfirst & Hnext).
    unfold fetches_in_bounds.
    rewrite (run_checker_seq _ _ _ _ _ Hstartup).
    erewrite run_checker_seq by reflexivity.
    erewrite run_checker_seq
      by (apply run_checker_loop; [apply Hfirst|apply Hnext]).
    destruct (iterations 0 inputs); destruct (loop_ends 0 inputs); reflexivity.
  - eexists. split.
    { rewrite <- (app_nil_r (startup_calls W h)).
      unfold startup_calls. rewrite <- !app_assoc.
      eval_checker. reflexivity. }
    repeat split; vm_compute; reflexivity.
Qed.

Lemma run_fetches_inside_buffers_witness :
  fetches_in_bounds
    (calls (snd (main demo_world demo_matrix glm.f1 demo_inputs initial_state))) = true.
Proof.
  assert (Hrun : main demo_world demo_matrix glm.f1 demo_inputs initial_state
                 = (Ok (Some 0),
                    snd (main demo_world demo_matrix glm.f1 demo_inputs initial_state)))
    by (vm_compute; reflexivity).
  exact (proj1 (run_fetches_inside_buffers demo_world demo_matrix glm.f1 demo_inputs
                  (Some 0) _ Hrun)).
Defined.

(** The checker rejects a draw that reads past the index buffer and a
    draw whose index selects no vertex. *)
Example overlong_draw_rejected :
  fetches_in_bounds
    (geometry_calls 1 1 2 vertices_quad indices_quad vertex_format
     ++ [glBindVertexArray 1; glDrawElements GL_TRIANGLES 7 GL_UNSIGNED_BYTE]) = false
  /\ fetches_in_bounds
       (geometry_calls 1 1 2 vertices_quad indices_cube vertex_format
        ++ [glBindVertexArray 1; glDrawElements GL_TRIANGLES 36 GL_UNSIGNED_BYTE]) = false
  /\ fetches_in_bounds
       (geometry_calls 1 1 2 vertices_quad indices_quad vertex_format
        ++ [glBindVertexArray 1; glDrawElements GL_TRIANGLES 6 GL_UNSIGNED_BYTE]) = true.
Proof. repeat split; vm_compute; reflexivity. Qed.

(** ** Object lifetimes of one constructor *)

Lemma is_live_In live o : In o live -> is_live live o = true.
Proof.
  intros H. unfold is_live. apply existsb_exists. exists o. split; [exact H|].
  unfold same_object. rewrite bool_decide_eq_true_2 by reflexivity. apply Z.eqb_refl.
Qed.

Lemma scope_step_ok live c :
  names_shader c = false ->
  deleted c = [] ->
  (forall o, In o (references c) -> In o live) ->
  scope_step live c = Some (live ++ created c).
Proof.
  intros Hs Hd Hr. unfold scope_step.
  assert (E : forallb (is_live live) (references c) = true).
  { apply forallb_forall. intros o Ho. apply is_live_In, Hr, Ho. }
  rewrite Hs, E, Hd. cbn [negb andb]. f_equal. apply filter_none_deleted.
Qed.

Lemma attribs_scope live vao (formats : list attrib_format_t) :
  In (VertexArray, vao) live ->
  run_checker scope_step live (flat_map (attrib_calls vao) formats) = Some live.
Proof.
  intros Hvao. induction formats as [|f formats IH]; [reflexivity|].
  cbn [flat_map attrib_calls app run_checker].
  rewrite !scope_step_ok; try reflexivity;
    try (intros o [<-|[]]; rewrite ?app_nil_r; exact Hvao).
  cbn [created]. rewrite !app_nil_r. exact IH.
Qed.

(** X13 (create_geometry, create_buffer).  [create_geometry] is
    self-contained and well ordered, for any vertices, indices and
    attribute formats: each of its calls names only the vertex buffer,
    the index buffer and the vertex array it creates itself, and none
    before the call that creates it.  It issues seven calls and three
    more for each attribute format, and the vertex buffer has room for
    exactly as many strides as there are vertices. *)
Theorem create_geometry_is_self_contained (T : Type) (E : BufferElem T)
    (vertices : list T) (indices : list uint8_t) (attrib_formats : list attrib_format_t)
    (s : gl_state) (live : list (object_kind * GLuint)) :
  let vbo := n_buffer (next_name s) in
  let ibo := n_buffer (next_name s) + 1 in
  let vao := n_vertex_array (next_name s) in
  exists t : list gl_call,
    create_geometry vertices indices attrib_formats s
    = (Ok (vao, vbo, ibo), emit t (alloc VertexArray (alloc Buffer (alloc Buffer s))))
    /\ run_checker scope_step live t
       = Some (live ++ [(Buffer, vbo); (Buffer, ibo); (VertexArray, vao)])
    /\ Forall (fun c => forall o, In o (references c) ->
                                  In o [(Buffer, vbo); (Buffer, ibo); (VertexArray, vao)]) t
    /\ length t = (7 + 3 * length attrib_formats)%nat
    /\ In (glNamedBufferStorage vbo (sizeof * Z.of_nat (length vertices)) (buffer_of vertices)
                                GL_DYNAMIC_STORAGE_BIT) t
    /\ In (glVertexArrayVertexBuffer vao 0 vbo 0 sizeof) t.
Proof.
  intros vbo ibo vao.
  exists (geometry_calls vao vbo ibo vertices indices attrib_formats).
  split; [apply create_geometry_run|].
  unfold geometry_calls. split; [|split; [|split]].
  - erewrite run_checker_seq; [apply attribs_scope|].
    + apply in_or_app. right. simpl. auto.
    + cbn [run_checker].
      rewrite (scope_step_ok live) by (try reflexivity; intros o []).
      rewrite (scope_step_ok _ (glNamedBufferStorage vbo _ _ _))
        by (try reflexivity; intros o [<-|[]]; apply in_or_app; right; simpl; auto).
      rewrite (scope_step_ok _ (glCreateBuffers ibo)) by (try reflexivity; intros o []).
      rewrite (scope_step_ok _ (glNamedBufferStorage ibo _ _ _))
        by (try reflexivity; intros o [<-|[]]; rewrite <- !app_assoc;
            apply in_or_app; right; simpl; auto).
      rewrite (scope_step_ok _ (glCreateVertexArrays vao))
        by (try reflexivity; intros o []).
      rewrite (scope_step_ok _ (glVertexArrayVertexBuffer vao _ vbo _ _))
        by (try reflexivity; intros o [<-|[<-|[]]]; rewrite <- !app_assoc;
            apply in_or_app; right; simpl; auto).
      rewrite (scope_step_ok _ (glVertexArrayElementBuffer vao ibo))
        by (try reflexivity; intros o [<-|[<-|[]]]; rewrite <- !app_assoc;
            apply in_or_app; right; simpl; auto).
      cbn [created]. rewrite <- !app_assoc. reflexivity.
  - apply Forall_app. split.
    + repeat (apply Forall_cons_2; [simpl; intros o; tauto|]). apply Forall_nil_2.
    + induction attrib_formats as [|f fs IH]; [constructor|].
      cbn [flat_map]. apply Forall_app. split; [|exact IH].
      repeat (apply Forall_cons_2; [simpl; intros o; tauto|]). apply Forall_nil_2.
  - rewrite length_app. cbn [length].
    induction attrib_formats as [|f fs IH]; [reflexivity|].
    cbn [flat_map length]. rewrite length_app. cbn [attrib_calls length]. lia.
  - split; apply in_or_app; left; simpl; auto 10.
Qed.

(** ** Programs and pipelines *)

Lemma bind_assoc {A B C} (m : GL A) (f : A -> GL B) (g : B -> GL C) s :
  bind (bind m f) g s = bind m (fun a => bind (f a) g) s.
Proof. unfold bind. by destruct (m s) as [[a|w|] s0]. Qed.

Lemma bind_ext {A B} (m : GL A) (f g : A -> GL B) s :
  (forall a s0, f a s0 = g a s0) -> bind m f s = bind m g s.
Proof. intros H. unfold bind. destruct (m s) as [[a|w|] s0]; [apply H|reflexivity..]. Qed.

(** X14 (create_program, create_shader).  [create_program] is
    [create_shader] applied to the two stage programs it has compiled and
    validated: the pipeline it returns is created and given its stages by
    exactly the calls [create_shader] issues, after everything else, and
    [create_shader] itself creates the pipeline and nothing more. *)
Theorem create_program_ends_with_create_shader (W : world)
    (vert_filepath frag_filepath : string) (s : gl_state) :
  create_program W vert_filepath frag_filepath s
  = (vert_source <- read_text_file W vert_filepath ;;
     frag_source <- read_text_file W frag_filepath ;;
     vert <- create_shader_program W GL_VERTEX_SHADER vert_source ;;
     frag <- create_shader_program W GL_FRAGMENT_SHADER frag_source ;;
     validate_program vert vert_filepath ;;
     validate_program frag frag_filepath ;;
     pipeline <- create_shader vert frag ;;
     ret (pipeline, vert, frag)) s
  /\ forall vert frag : GLuint,
       exists t : list gl_call,
         create_shader vert frag s
         = (Ok (n_pipeline (next_name s)), emit t (alloc ProgramPipeline s))
         /\ flat_map created t = [(ProgramPipeline, n_pipeline (next_name s))]
         /\ flat_map references t
            = [(ProgramPipeline, n_pipeline (next_name s)); (Program, vert);
               (ProgramPipeline, n_pipeline (next_name s)); (Program, frag)].
Proof.
  split.
  - unfold create_program.
    do 6 (apply bind_ext; intros ? ?).
    unfold create_shader.
    do 3 (rewrite bind_assoc; apply bind_ext; intros ? ?). reflexivity.
  - intros vert frag.
    exists [glCreateProgramPipelines (n_pipeline (next_name s));
            glUseProgramStages (n_pipeline (next_name s)) GL_VERTEX_SHADER_BIT vert;
            glUseProgramStages (n_pipeline (next_name s)) GL_FRAGMENT_SHADER_BIT frag].
    split; [|split; reflexivity].
    unfold create_shader.
    erewrite bind_ok by apply create_run.
    do 2 erewrite bind_ok by apply call_emit.
    unfold ret. rewrite !emit_emit. reflexivity.
Qed.

Lemma program_calls_read pipeline vert frag vs fs (lv lf : bool) :
  flat_map created (program_calls pipeline vert frag vs fs lv lf)
  = [(Program, vert); (Program, frag); (ProgramPipeline, pipeline)]
  /\ flat_map deleted (program_calls pipeline vert frag vs fs lv lf) = []
  /\ shaders_deleted (program_calls pipeline vert frag vs fs lv lf) = unlinked vert frag lv lf
  /\ run_checker lenient_step [] (program_calls pipeline vert frag vs fs lv lf)
     = Some [(Program, vert); (Program, frag); (ProgramPipeline, pipeline)].
Proof.
  split; [by destruct lv, lf|]. split; [by destruct lv, lf|]. split; [by destruct lv, lf|].
  unfold program_calls, validation_calls.
  destruct lv, lf; cbn [app run_checker lenient_step is_delete_shader];
    repeat (rewrite scope_step_ok
              by (try reflexivity; intros o Ho; simpl in Ho |- *; tauto);
            cbn [created app]);
    reflexivity.
Qed.

Lemma same_object_refl o : same_object o o = true.
Proof.
  unfold same_object. rewrite bool_decide_eq_true_2 by reflexivity. apply Z.eqb_refl.
Qed.

Lemma same_object_diff a b : a <> b -> same_object a b = false.
Proof.
  intros H. unfold same_object. destruct a as [ka na], b as [kb nb]. simpl.
  destruct (decide (ka = kb)) as [->|Hk].
  - rewrite bool_decide_eq_true_2 by reflexivity. simpl.
    apply Z.eqb_neq. intros ->. by apply H.
  - by rewrite bool_decide_eq_false_2.
Qed.

Lemma delete_shader_scope (pipeline vert frag : GLuint) :
  vert <> frag ->
  run_checker scope_step [(Program, vert); (Program, frag); (ProgramPipeline, pipeline)]
    [glDeleteProgramPipelines 1 [pipeline]; glDeleteProgram vert; glDeleteProgram frag]
  = Some [].
Proof.
  intros Hne.
  assert (Hfv : (Program, frag) <> (Program, vert)) by congruence.
  assert (Hvf : (Program, vert) <> (Program, frag)) by congruence.
  assert (Hvp : (Program, vert) <> (ProgramPipeline, pipeline)) by congruence.
  assert (Hfp : (Program, frag) <> (ProgramPipeline, pipeline)) by congruence.
  assert (Hpv : (ProgramPipeline, pipeline) <> (Program, vert)) by congruence.
  assert (Hpf : (ProgramPipeline, pipeline) <> (Program, frag)) by congruence.
  unfold run_checker, scope_step, is_live.
  cbn [names_shader negb andb references deleted created map app forallb existsb List.filter].
  rewrite !same_object_refl,
          ?(same_object_diff _ _ Hfv), ?(same_object_diff _ _ Hvf),
          ?(same_object_diff _ _ Hvp), ?(same_object_diff _ _ Hfp),
          ?(same_object_diff _ _ Hpv), ?(same_object_diff _ _ Hpf).
  cbn [orb andb negb forallb existsb List.filter app].
  rewrite !same_object_refl,
          ?(same_object_diff _ _ Hfv), ?(same_object_diff _ _ Hvf).
  cbn [orb andb negb forallb existsb List.filter app].
  rewrite !same_object_refl. reflexivity.
Qed.

(** X15 (create_program, delete_shader).  [delete_shader], given the
    triple [create_program] returned, deletes exactly the three objects
    [create_program] created, each once, the pipeline before the programs
    it refers to, and so whether or not the stages linked.  Afterwards
    none of them is left.  In between, every call but the [glDeleteShader]
    of [validate_program] named only objects that were there;
    [glDeleteShader] was handed the program of each stage that failed to
    link, which is no shader object, so all calls named objects that
    were there exactly when both stages linked. *)
Theorem delete_shader_undoes_create_program (W : world)
    (vert_filepath frag_filepath : string) (s : gl_state)
    (r : GLuint * GLuint * GLuint) (s1 : gl_state) :
  0 < n_program (next_name s) ->
  create_program W vert_filepath frag_filepath s = (Ok r, s1) ->
  let pr := fst (fst r) in
  let vs := snd (fst r) in
  let fs := snd r in
  let vert_linked := fst (compile W GL_VERTEX_SHADER (source_of W vert_filepath)) in
  let frag_linked := fst (compile W GL_FRAGMENT_SHADER (source_of W frag_filepath)) in
  exists t1 t2 : list gl_call,
    calls s1 = calls s ++ t1
    /\ delete_shader pr vs fs s1 = (Ok tt, emit t2 s1)
    /\ flat_map created t1 = [(Program, vs); (Program, fs); (ProgramPipeline, pr)]
    /\ flat_map deleted t1 = []
    /\ flat_map deleted t2 = [(ProgramPipeline, pr); (Program, vs); (Program, fs)]
    /\ flat_map created t2 = []
    /\ run_checker scope_step [] (without_delete_shader (t1 ++ t2)) = Some []
    /\ shaders_deleted (t1 ++ t2) = unlinked vs fs vert_linked frag_linked
    /\ well_scoped (t1 ++ t2) = vert_linked && frag_linked.
Proof.
  intros Hpos H pr vs fs vert_linked frag_linked.
  apply create_program_inv in H as [-> ->]. subst pr vs fs. cbn [fst snd].
  set (pipeline := n_pipeline (next_name s)).
  set (vert := n_program (next_name s)) in *.
  eexists (program_calls pipeline vert (vert + 1) _ _ _ _),
          [glDeleteProgramPipelines 1 [pipeline]; glDeleteProgram vert;
           glDeleteProgram (vert + 1)].
  split; [reflexivity|].
  split.
  { unfold delete_shader.
    do 2 erewrite bind_ok by apply call_emit.
    rewrite call_emit, !emit_emit. reflexivity. }
  destruct (program_calls_read pipeline vert (vert + 1)
              (source_of W vert_filepath) (source_of W frag_filepath)
              vert_linked frag_linked)
    as (Hc & Hd & Hsh & Hscope).
  fold vert_linked frag_linked.
  split; [exact Hc|]. split; [exact Hd|]. split; [reflexivity|]. split; [reflexivity|].
  assert (Hlenient : run_checker lenient_step []
                       (program_calls pipeline vert (vert + 1) (source_of W vert_filepath)
                                      (source_of W frag_filepath) vert_linked frag_linked
                        ++ [glDeleteProgramPipelines 1 [pipeline]; glDeleteProgram vert;
                            glDeleteProgram (vert + 1)])
                     = Some []).
  { rewrite (run_checker_seq _ _ _ _ _ Hscope).
    apply (delete_shader_scope pipeline vert (vert + 1)). lia. }
  assert (Hdel : shaders_deleted
                   (program_calls pipeline vert (vert + 1) (source_of W vert_filepath)
                                  (source_of W frag_filepath) vert_linked frag_linked
                    ++ [glDeleteProgramPipelines 1 [pipeline]; glDeleteProgram vert;
                        glDeleteProgram (vert + 1)])
                 = unlinked vert (vert + 1) vert_linked frag_linked).
  { unfold shaders_deleted in *. rewrite flat_map_app, Hsh. apply app_nil_r. }
  split; [by rewrite run_checker_without|]. split; [exact Hdel|].
  unfold well_scoped. rewrite run_checker_strict, names_shader_deleted, Hdel, Hlenient.
  assert (Hv : (vert =? 0) = false) by (apply Z.eqb_neq; lia).
  assert (Hf : (vert + 1 =? 0) = false) by (apply Z.eqb_neq; lia).
  unfold unlinked. destruct vert_linked, frag_linked; cbn [app existsb andb];
    rewrite ?Hv, ?Hf; reflexivity.
Qed.

Lemma delete_shader_undoes_create_program_witness :
  exists t1 t2 : list gl_call,
    delete_shader 1 1 2 (snd (create_program broken_shader_world "broken.vert" "main.frag"
                                             initial_state))
    = (Ok tt, emit t2 (snd (create_program broken_shader_world "broken.vert" "main.frag"
                                           initial_state)))
    /\ flat_map created t1 = [(Program, 1); (Program, 2); (ProgramPipeline, 1)]
    /\ flat_map deleted t2 = [(ProgramPipeline, 1); (Program, 1); (Program, 2)]
    /\ shaders_deleted (t1 ++ t2) = [1]
    /\ well_scoped (t1 ++ t2) = false.
Proof.
  assert (Hrun : create_program broken_shader_world "broken.vert" "main.frag" initial_state
                 = (Ok (1, 1, 2),
                    snd (create_program broken_shader_world "broken.vert" "main.frag"
                                        initial_state)))
    by (vm_compute; reflexivity).
  assert (Hpos : 0 < n_program (next_name initial_state)) by reflexivity.
  destruct (delete_shader_undoes_create_program broken_shader_world "broken.vert" "main.frag"
              initial_state (1, 1, 2) _ Hpos Hrun)
    as (t1 & t2 & _ & Hdel & Hc & _ & Hd & _ & _ & Hsh & Hscoped).
  exists t1, t2. exact (conj Hdel (conj Hc (conj Hd (conj Hsh Hscoped)))).
Defined.

(** ** delete_items *)

(** X16 (delete_items).  Both overloads of [delete_items] delete exactly
    the items of the list, in its order, and read no item outside it: the
    array overload in one call that carries the length of the list, also
    when the list is empty, and the overload for a one-item deleter in one
    call for each item, none for an empty list. *)
Theorem delete_items_deletes_the_items (items : list GLuint) (s : gl_state) :
  exists tv t1 : list gl_call,
    delete_items_v glDeleteBuffers items s = (Ok tt, emit tv s)
    /\ delete_items_1 glDeleteProgram items s = (Ok tt, emit t1 s)
    /\ tv = [glDeleteBuffers (Z.of_nat (length items)) items]
    /\ length t1 = length items
    /\ flat_map deleted tv = map (pair Buffer) items
    /\ flat_map deleted t1 = map (pair Program) items
    /\ (forall k item, items !! k = Some item -> t1 !! k = Some (glDeleteProgram item))
    /\ flat_map created (tv ++ t1) = [].
Proof.
  exists [glDeleteBuffers (Z.of_nat (length items)) items], (map glDeleteProgram items).
  split; [apply call_emit|]. split; [apply delete_items_1_run|].
  split; [reflexivity|]. split; [apply length_map|].
  split; [simpl; apply app_nil_r|].
  split; [induction items as [|x items IH]; simpl; [reflexivity|by rewrite IH]|].
  split.
  - intros k item Hk. by rewrite list_lookup_fmap, Hk.
  - simpl. induction items as [|x items IH]; [reflexivity|exact IH].
Qed.

(** ** string_format *)

Lemma length_list_ascii_of_string (text : string) :
  length (list_ascii_of_string text) = String.length text.
Proof. induction text as [|c text IH]; simpl; [reflexivity|by rewrite IH]. Qed.

Lemma read_chars_written (cs : list ascii) : forall rest,
  read_chars (length cs) (map Some cs ++ rest) = Ok cs.
Proof.
  induction cs as [|c cs IH]; intros rest; simpl; [reflexivity|].
  by rewrite IH.
Qed.

Lemma string_format_ok {Args} (expansion : string -> Args -> option string)
    (format : string) (args : Args) (text : string) :
  expansion format args = Some text ->
  Z.of_nat (String.length text) < INT_MAX ->
  string_format expansion format args = Ok text.
Proof.
  intros Hexp Hlen. unfold string_format, snprintf. rewrite Hexp.
  destruct (decide (Z.of_nat (String.length text) <= INT_MAX)) as [_|]; [|lia].
  cbn [fst].
  rewrite decide_False by lia.
  replace (Z.to_nat (Z.of_nat (String.length text) + 1)) with (S (String.length text)) by lia.
  cbn [snd].
  rewrite <- length_list_ascii_of_string at 1 2.
  rewrite firstn_all, map_app, <- app_assoc.
  rewrite read_chars_written. cbn [and_then].
  by rewrite string_of_list_ascii_of_string.
Qed.

(** X17 (string_format).  [string_format] returns the whole expansion of
    the format, whatever its length, without the terminating NUL: the
    buffer is sized by a first pass of [snprintf], so nothing is ever cut
    off.  Only when [snprintf] reports an error, or the expansion has
    [INT_MAX] characters, is the behaviour undefined: the size computed
    is then zero or overflows. *)
Theorem string_format_returns_whole_expansion (Args : Type)
    (expansion : string -> Args -> option string) (format : string) (args : Args) :
  string_format expansion format args
  = match expansion format args with
    | Some text =>
        if decide (Z.of_nat (String.length text) < INT_MAX) then Ok text else UB
    | None => UB
    end.
Proof.
  destruct (expansion format args) as [text|] eqn:Hexp.
  2:{ unfold string_format, snprintf. by rewrite Hexp. }
  destruct (decide (Z.of_nat (String.length text) < INT_MAX)) as [Hlt|Hge].
  { by apply string_format_ok. }
  unfold string_format, snprintf. rewrite Hexp.
  destruct (decide (Z.of_nat (String.length text) <= INT_MAX)) as [Hle|Hgt]; cbn [fst snd].
  - by rewrite decide_True by lia.
  - by rewrite decide_False by (unfold INT_MAX; lia).
Qed.

Example string_format_demo :
  string_format (fun _ (_ : unit) => Some "frametime = 16.667ms, fps = 60.0") "" tt
  = Ok "frametime = 16.667ms, fps = 60.0".
Proof. vm_compute. reflexivity. Qed.

(** ** Frame times *)

Lemma frame_time_counts expansion (timer : frame_timer) (now : Z) :
  0 <= frameCounter timer -> frameCounter timer + 1 < framesToAverage ->
  frame_time expansion timer now
  = Ok (mk_timer (seconds now)
                 (double.add (deltaTimeAverage timer) (double.sub (seconds now) (t1 timer)))
                 (frameCounter timer + 1), None).
Proof.
  intros H0 H1. unfold frame_time, measure_frames.
  rewrite decide_False by (unfold INT_MAX; unfold framesToAverage in H1; lia).
  rewrite decide_False by lia. reflexivity.
Qed.

Lemma frame_time_titles expansion (timer : frame_timer) (now : Z) (text : string) :
  frameCounter timer + 1 = framesToAverage ->
  expansion "frametime = %.3fms, fps = %.1f"
    (let average := double.div (double.add (deltaTimeAverage timer)
                                           (double.sub (seconds now) (t1 timer)))
                               (double.of_int framesToAverage) in
     (double.mul (double.of_int 1000) average, double.div (double.of_int 1) average))
  = Some text ->
  Z.of_nat (String.length text) < INT_MAX ->
  frame_time expansion timer now = Ok (mk_timer (seconds now) double.zero 0, Some text).
Proof.
  intros H1 Hexp Hlen. unfold frame_time, measure_frames.
  rewrite decide_False by (unfold INT_MAX; unfold framesToAverage in H1; lia).
  rewrite decide_True by exact H1.
  cbv zeta in Hexp.
  erewrite string_format_ok by eassumption. reflexivity.
Qed.

(** The iterations that do not complete a block of ten. *)
Lemma frame_times_within_block expansion (ticks : list Z) : forall timer,
  0 <= frameCounter timer ->
  frameCounter timer + Z.of_nat (length ticks) < framesToAverage ->
  frame_times expansion timer ticks
  = Ok (mk_timer (last_seconds (t1 timer) ticks)
                 (accumulate (frame_deltas (t1 timer) ticks) (deltaTimeAverage timer))
                 (frameCounter timer + Z.of_nat (length ticks)), []).
Proof.
  induction ticks as [|now rest IH]; intros timer H0 H1.
  - destruct timer. simpl. by rewrite Z.add_0_r.
  - cbn [frame_times]. cbn [length] in H1.
    rewrite frame_time_counts by lia. cbn [and_then fst snd].
    rewrite IH by (cbn [frameCounter]; lia).
    cbn [and_then fst snd t1 deltaTimeAverage frameCounter frame_deltas].
    do 3 f_equal.
    + unfold last_seconds. destruct rest as [|next rest]; [reflexivity|].
      rewrite last_cons_cons.
      destruct (last (next :: rest)) eqn:Hlast; [reflexivity|].
      by apply last_None in Hlast.
    + cbn [length]. lia.
Qed.

Lemma last_seconds_cons t now next (rest : list Z) :
  last_seconds t (now :: next :: rest) = last_seconds (seconds now) (next :: rest).
Proof.
  unfold last_seconds. rewrite last_cons_cons.
  destruct (last (next :: rest)) eqn:Hlast; [reflexivity|].
  by apply last_None in Hlast.
Qed.

(** The iterations that complete a block, and those after it. *)
Lemma frame_times_through_block expansion (blk rest : list Z) : forall timer (text : string),
  0 <= frameCounter timer ->
  frameCounter timer + Z.of_nat (length blk) = framesToAverage ->
  blk <> [] ->
  (let average := double.div (accumulate (frame_deltas (t1 timer) blk) (deltaTimeAverage timer))
                             (double.of_int framesToAverage) in
   expansion "frametime = %.3fms, fps = %.1f"
     (double.mul (double.of_int 1000) average, double.div (double.of_int 1) average)
   = Some text) ->
  Z.of_nat (String.length text) < INT_MAX ->
  frame_times expansion timer (blk ++ rest)
  = and_then (frame_times expansion (mk_timer (last_seconds (t1 timer) blk) double.zero 0) rest)
             (fun r => Ok (fst r, text :: snd r)).
Proof.
  induction blk as [|now blk IH]; intros timer text H0 H1 Hne Hexp Hlen; [done|].
  destruct blk as [|next blk].
  - cbn [length] in H1. cbn [app frame_times].
    erewrite frame_time_titles; [| lia | exact Hexp | exact Hlen].
    cbn [and_then fst snd]. unfold last_seconds. cbn [last].
    destruct (frame_times expansion _ rest) as [[timer' titles]| |]; reflexivity.
  - cbn [length] in H1.
    change ((now :: next :: blk) ++ rest) with (now :: (next :: blk) ++ rest).
    cbn [frame_times].
    rewrite frame_time_counts by (cbn [length] in H1; lia).
    cbn [and_then fst snd].
    erewrite IH; [| cbn [frameCounter]; lia | cbn [frameCounter length]; lia | done
                  | exact Hexp | exact Hlen].
    cbn [t1]. rewrite last_seconds_cons.
    destruct (frame_times expansion _ rest) as [[timer' titles]| |]; reflexivity.
Qed.

Lemma last_seconds_app t (a b : list Z) :
  last_seconds t (a ++ b) = last_seconds (last_seconds t a) b.
Proof.
  unfold last_seconds. rewrite last_app.
  destruct (last b); [reflexivity|]. by destruct (last a).
Qed.

Lemma frame_deltas_app (a b : list Z) : forall t,
  frame_deltas t (a ++ b) = frame_deltas t a ++ frame_deltas (last_seconds t a) b.
Proof.
  induction a as [|now a IH]; intros t; [reflexivity|].
  cbn [app frame_deltas]. rewrite IH. do 3 f_equal.
  destruct a as [|next a]; [reflexivity|]. by rewrite last_seconds_cons.
Qed.

Lemma length_frame_deltas (ticks : list Z) : forall t,
  length (frame_deltas t ticks) = length ticks.
Proof. induction ticks as [|now rest IH]; intros t; simpl; [reflexivity|by rewrite IH]. Qed.

Lemma frame_times_blocks expansion :
  (forall args, exists text,
      expansion "frametime = %.3fms, fps = %.1f" args = Some text
      /\ Z.of_nat (String.length text) < INT_MAX) ->
  forall (n : nat) (ticks : list Z) (t : GLdouble),
    (10 * n <= length ticks < 10 * n + 10)%nat ->
    exists titles : list string,
      frame_times expansion (mk_timer t double.zero 0) ticks
      = Ok (mk_timer (last_seconds t ticks)
                     (accumulate (drop (10 * n) (frame_deltas t ticks)) double.zero)
                     (Z.of_nat (length ticks - 10 * n)), titles)
      /\ map Some titles
         = map (fun k => expansion "frametime = %.3fms, fps = %.1f"
                           (title_numbers (block k (frame_deltas t ticks))))
               (seq 0 n).
Proof.
  intros Hok. induction n as [|n IH]; intros ticks t Hlen.
  - exists []. split; [|reflexivity].
    rewrite frame_times_within_block
      by (cbn [frameCounter]; unfold framesToAverage; lia).
    cbn [t1 deltaTimeAverage frameCounter]. rewrite Nat.sub_0_r. reflexivity.
  - set (blk := take 10 ticks). set (rest := drop 10 ticks).
    assert (Hsplit : ticks = blk ++ rest) by (symmetry; apply take_drop).
    assert (Hblk : length blk = 10%nat) by (subst blk; rewrite length_take; lia).
    assert (Hrest : length rest = (length ticks - 10)%nat) by apply length_drop.
    destruct (Hok (title_numbers (frame_deltas t blk))) as (text & Hexp & Hshort).
    destruct (IH rest (last_seconds t blk)) as (titles & Hrun & Htitles); [lia|].
    exists (text :: titles).
    assert (Hdeltas : frame_deltas t ticks
                      = frame_deltas t blk ++ frame_deltas (last_seconds t blk) rest)
      by (rewrite Hsplit at 1; apply frame_deltas_app).
    assert (Hdlen : length (frame_deltas t blk) = 10%nat)
      by (rewrite length_frame_deltas; exact Hblk).
    split.
    + rewrite Hsplit at 1.
      rewrite (frame_times_through_block expansion blk rest _ text);
        [| cbn [frameCounter]; lia
         | cbn [frameCounter]; unfold framesToAverage; lia
         | intros E; rewrite E in Hblk; discriminate
         | exact Hexp | exact Hshort].
      cbn [t1]. rewrite Hrun. cbn [and_then fst snd].
      do 3 f_equal.
      * rewrite Hsplit at 1. by rewrite last_seconds_app.
      * rewrite Hdeltas.
        replace (10 * S n)%nat with (length (frame_deltas t blk) + 10 * n)%nat by lia.
        by rewrite drop_app_add.
      * lia.
    + change (seq 0 (S n)) with (0%nat :: seq 1 n).
      rewrite <- fmap_S_seq. cbn [map].
      f_equal.
      * unfold block. change (10 * 0)%nat with 0%nat. rewrite drop_0, Hdeltas.
        rewrite take_app_length' by (symmetry; exact Hdlen). by rewrite Hexp.
      * rewrite Htitles. change (S <$> seq 0 n) with (map S (seq 0 n)). rewrite map_map.
        apply map_ext. intros k. unfold block. rewrite Hdeltas.
        replace (10 * S k)%nat with (length (frame_deltas t blk) + 10 * k)%nat by lia.
        by rewrite drop_app_add.
Qed.

(** X18 (measure_frames, main).  The window title is set in every tenth
    iteration and in no other: after [n] iterations it was set [n / 10]
    times, the [k]-th title shows the average of the ten frame times of
    the [k]-th block of iterations and its inverse, the counter stands at
    [n mod 10] and so never leaves 0..9, and the sum holds the frame
    times since the last title. *)
Theorem window_title_every_tenth_frame
    (expansion : string -> GLdouble * GLdouble -> option string) (start : Z)
    (ticks : list Z) :
  (forall args, exists text,
      expansion "frametime = %.3fms, fps = %.1f" args = Some text
      /\ Z.of_nat (String.length text) < INT_MAX) ->
  let dts := frame_deltas (seconds start) ticks in
  let n := (length ticks / 10)%nat in
  exists (timer : frame_timer) (titles : list string),
    frame_times expansion (start_timer start) ticks = Ok (timer, titles)
    /\ map Some titles
       = map (fun k => expansion "frametime = %.3fms, fps = %.1f"
                         (title_numbers (block k dts)))
             (seq 0 n)
    /\ length titles = n
    /\ frameCounter timer = Z.of_nat (length ticks mod 10)
    /\ deltaTimeAverage timer = accumulate (drop (10 * n) dts) double.zero
    /\ t1 timer = last_seconds (seconds start) ticks.
Proof.
  intros Hok dts n.
  assert (Hn : (10 * n <= length ticks < 10 * n + 10)%nat).
  { subst n. pose proof (Nat.div_mod_eq (length ticks) 10) as Hdm.
    pose proof (Nat.mod_upper_bound (length ticks) 10 ltac:(lia)). lia. }
  destruct (frame_times_blocks expansion Hok n ticks (seconds start) Hn)
    as (titles & Hrun & Htitles).
  eexists _, titles. split; [exact Hrun|]. split; [exact Htitles|].
  split.
  { apply (f_equal length) in Htitles. rewrite !length_map, length_seq in Htitles.
    exact Htitles. }
  cbn [frameCounter deltaTimeAverage t1].
  split; [|split; reflexivity].
  f_equal. subst n. pose proof (Nat.div_mod_eq (length ticks) 10). lia.
Qed.

Lemma window_title_every_tenth_frame_witness :
  exists (timer : frame_timer) (titles : list string),
    frame_times demo_expansion (start_timer 0) (map Z.of_nat (seq 1 25)) = Ok (timer, titles)
    /\ length titles = 2%nat
    /\ frameCounter timer = 5.
Proof.
  assert (Hok : forall args : GLdouble * GLdouble, exists text,
             demo_expansion "frametime = %.3fms, fps = %.1f" args = Some text
             /\ Z.of_nat (String.length text) < INT_MAX).
  { intros args. exists "frametime". split; [reflexivity|]. vm_compute. reflexivity. }
  destruct (window_title_every_tenth_frame demo_expansion 0 (map Z.of_nat (seq 1 25)) Hok)
    as (timer & titles & Hrun & _ & Hlen & Hcount & _).
  exists timer, titles. split; [exact Hrun|]. split; [exact Hlen|exact Hcount].
Defined.

(** ** Keys *)

Lemma update_keys_run (key_state : list Z) (n : nat) : forall (first : nat) (k : keyboard),
  (first + n <= 512)%nat -> (first + n <= length key_state)%nat ->
  length (key k) = 512%nat ->
  length (key_pressed k) = 512%nat ->
  length (key_released k) = 512%nat ->
  (forall i, (first <= i < first + n)%nat -> exists held, key k !! i = Some (Some held)) ->
  exists k' : keyboard,
    update_keys key_state first n k = Ok k'
    /\ length (key k') = 512%nat
    /\ length (key_pressed k') = 512%nat
    /\ length (key_released k') = 512%nat
    /\ (forall i state held,
          (first <= i < first + n)%nat ->
          key_state !! i = Some state -> key k !! i = Some (Some held) ->
          key k' !! i = Some (Some (is_down state))
          /\ key_pressed k' !! i = Some (Some (negb held && is_down state))
          /\ key_released k' !! i = Some (Some (held && negb (is_down state))))
    /\ (forall i, (i < first \/ first + n <= i)%nat ->
          key k' !! i = key k !! i
          /\ key_pressed k' !! i = key_pressed k !! i
          /\ key_released k' !! i = key_released k !! i).
Proof.
  induction n as [|n IH]; intros first k Hn Hstate Hk Hp Hr Hinit.
  - exists k. split; [reflexivity|]. split; [exact Hk|]. split; [exact Hp|].
    split; [exact Hr|]. split.
    + intros i state held Hi. lia.
    + intros i _. done.
  - destruct (Hinit first ltac:(lia)) as [held Hheld].
    destruct (lookup_lt_is_Some_2 key_state first ltac:(lia)) as [state Hst].
    set (k1 := mk_keyboard (<[first := Some (is_down state)]> (key k))
                           (<[first := Some (negb held && is_down state)]> (key_pressed k))
                           (<[first := Some (held && negb (is_down state))]> (key_released k))).
    assert (Hstep : update_key key_state first k = Ok k1).
    { unfold update_key. rewrite Hheld, Hst.
      rewrite decide_True by (rewrite Hp, Hr; lia). reflexivity. }
    destruct (IH (S first) k1) as (k' & Hrun & Hk' & Hp' & Hr' & Hin & Hout).
    + lia.
    + lia.
    + cbn [key k1]. by rewrite length_insert.
    + cbn [key_pressed k1]. by rewrite length_insert.
    + cbn [key_released k1]. by rewrite length_insert.
    + intros i Hi. destruct (Hinit i ltac:(lia)) as [h Hh]. exists h.
      cbn [key k1]. rewrite list_lookup_insert_ne by lia. exact Hh.
    + exists k'. cbn [update_keys]. rewrite Hstep. cbn [and_then].
      split; [exact Hrun|]. split; [exact Hk'|]. split; [exact Hp'|]. split; [exact Hr'|].
      split.
      * intros i state' held' Hi Hst' Hheld'.
        destruct (decide (i = first)) as [->|Hne].
        -- rewrite Hst in Hst'. injection Hst' as <-.
           rewrite Hheld in Hheld'. injection Hheld' as <-.
           destruct (Hout first ltac:(lia)) as (-> & -> & ->).
           cbn [key key_pressed key_released k1].
           rewrite !list_lookup_insert_eq by lia. done.
        -- apply Hin; [lia|exact Hst'|].
           cbn [key k1]. rewrite list_lookup_insert_ne by lia. exact Hheld'.
      * intros i Hi. destruct (Hout i ltac:(lia)) as (-> & -> & ->).
        cbn [key key_pressed key_released k1].
        rewrite !list_lookup_insert_ne by lia. done.
Qed.

(** X19 (main, the key arrays).  Once the arrays hold values, an update
    makes [key] the state SDL reports and detects edges against the state
    before: a key is pressed exactly when it was up and is down, released
    exactly when it was down and is up, and never both; entries from
    [key_count] on are not touched.  A second update from the same SDL
    state keeps [key] and clears every pressed and released flag. *)
Theorem update_keys_detects_edges (key_state : list Z) (k : keyboard) :
  (length key_state <= 512)%nat ->
  keys_ready (length key_state) k ->
  exists k' : keyboard,
    poll_keys true key_state (Z.of_nat (length key_state)) k = Ok k'
    /\ keys_ready (length key_state) k'
    /\ (forall i state held,
          key_state !! i = Some state -> key k !! i = Some (Some held) ->
          key k' !! i = Some (Some (is_down state))
          /\ key_pressed k' !! i = Some (Some (negb held && is_down state))
          /\ key_released k' !! i = Some (Some (held && negb (is_down state)))
          /\ ~ (key_pressed k' !! i = Some (Some true)
                /\ key_released k' !! i = Some (Some true)))
    /\ (forall i, (length key_state <= i)%nat ->
          key k' !! i = key k !! i
          /\ key_pressed k' !! i = key_pressed k !! i
          /\ key_released k' !! i = key_released k !! i)
    /\ exists k'' : keyboard,
         poll_keys true key_state (Z.of_nat (length key_state)) k' = Ok k''
         /\ (forall i state, key_state !! i = Some state ->
               key k'' !! i = key k' !! i
               /\ key_pressed k'' !! i = Some (Some false)
               /\ key_released k'' !! i = Some (Some false)).
Proof.
  intros Hlen (Hk & Hp & Hr & Hinit).
  unfold poll_keys. rewrite Nat2Z.id.
  destruct (update_keys_run key_state (length key_state) 0 k)
    as (k' & Hrun & Hk' & Hp' & Hr' & Hin & Hout); try assumption; try lia.
  { intros i Hi. apply Hinit. lia. }
  assert (Hready : keys_ready (length key_state) k').
  { split; [exact Hk'|]. split; [exact Hp'|]. split; [exact Hr'|].
    intros i Hi.
    destruct (Hinit i Hi) as [held Hheld].
    destruct (lookup_lt_is_Some_2 key_state i Hi) as [state Hst].
    exists (is_down state).
    exact (proj1 (Hin i state held ltac:(lia) Hst Hheld)). }
  exists k'. split; [exact Hrun|]. split; [exact Hready|].
  split.
  { intros i state held Hst Hheld.
    assert (Hi : (0 <= i < 0 + length key_state)%nat).
    { apply lookup_lt_Some in Hst. lia. }
    destruct (Hin i state held Hi Hst Hheld) as (Hkey & Hpr & Hre).
    split; [exact Hkey|]. split; [exact Hpr|]. split; [exact Hre|].
    rewrite Hpr, Hre. intros [[= E1] [= E2]].
    destruct held, (is_down state); discriminate. }
  split; [intros i Hi; apply Hout; lia|].
  destruct Hready as (_ & _ & _ & Hinit').
  destruct (update_keys_run key_state (length key_state) 0 k')
    as (k'' & Hrun2 & _ & _ & _ & Hin2 & _); try assumption; try lia.
  { intros i Hi. apply Hinit'. lia. }
  exists k''. split; [exact Hrun2|].
  intros i state Hst.
  assert (Hi : (0 <= i < 0 + length key_state)%nat).
  { apply lookup_lt_Some in Hst. lia. }
  destruct (Hinit i ltac:(lia)) as [held Hheld].
  destruct (Hin i state held Hi Hst Hheld) as (Hkey & _).
  destruct (Hin2 i state (is_down state) Hi Hst Hkey) as (Hkey2 & Hpr2 & Hre2).
  rewrite Hkey2, Hkey, Hpr2, Hre2.
  by destruct (is_down state).
Qed.

Lemma update_keys_detects_edges_witness :
  exists k' : keyboard,
    poll_keys true [1; 0; 1] 3 idle_keys = Ok k'
    /\ key_pressed k' !! 0%nat = Some (Some true)
    /\ key_pressed k' !! 1%nat = Some (Some false).
Proof.
  assert (Hlen : (length [1; 0; 1] <= 512)%nat) by (simpl; lia).
  assert (Hready : keys_ready (length [1; 0; 1]) idle_keys).
  { split; [reflexivity|]. split; [reflexivity|]. split; [reflexivity|].
    intros i Hi. exists false. simpl in Hi.
    destruct i as [|[|[|i]]]; [reflexivity..|lia]. }
  destruct (update_keys_detects_edges [1; 0; 1] idle_keys Hlen Hready)
    as (k' & Hrun & _ & Hedges & _).
  exists k'. split; [exact Hrun|].
  split.
  - exact (proj1 (proj2 (Hedges 0%nat 1 false eq_refl eq_refl))).
  - exact (proj1 (proj2 (Hedges 1%nat 0 false eq_refl eq_refl))).
Defined.

Lemma update_keys_overflow (key_state : list Z) (n : nat) : forall (first : nat) (k : keyboard),
  length (key k) = 512%nat -> (first <= 512)%nat -> (512 < first + n)%nat ->
  update_keys key_state first n k = UB.
Proof.
  induction n as [|n IH]; intros first k Hk Hfirst Hn; [lia|].
  cbn [update_keys]. unfold update_key.
  destruct (key k !! first) as [[held|]|] eqn:Hheld; try reflexivity.
  destruct (key_state !! first) as [state|]; [|reflexivity].
  destruct (decide _); [|reflexivity].
  cbn [and_then]. apply IH.
  - cbn [key]. by rewrite length_insert.
  - apply lookup_lt_Some in Hheld. lia.
  - lia.
Qed.

(** X20 (main, the key arrays).  The update of the keys is undefined in
    two situations the program does not exclude: on the arrays as [main]
    declares them, never written, the first update reads [key[0]] before
    anything was stored in it; and when SDL reports more than 512 keys,
    the loop runs past the end of the three arrays.  An iteration without
    an event leaves the arrays as they are. *)
Theorem update_keys_undefined (key_state : list Z) (key_count : Z) (k : keyboard) :
  (0 < key_count -> poll_keys true key_state key_count declared_keys = UB)
  /\ (length (key k) = 512%nat -> 512 < key_count ->
        poll_keys true key_state key_count k = UB)
  /\ poll_keys false key_state key_count k = Ok k.
Proof.
  split; [|split; [|reflexivity]].
  - intros Hcount. unfold poll_keys.
    destruct (Z.to_nat key_count) as [|n] eqn:E; [lia|]. reflexivity.
  - intros Hk Hcount. unfold poll_keys.
    apply update_keys_overflow; [exact Hk|lia|lia].
Qed.

Lemma update_keys_undefined_witness :
  poll_keys true [1; 0; 1] 3 declared_keys = UB
  /\ poll_keys true (replicate 513 0) 513 idle_keys = UB.
Proof.
  split.
  - apply (proj1 (update_keys_undefined [1; 0; 1] 3 idle_keys)). reflexivity.
  - apply (proj1 (proj2 (update_keys_undefined (replicate 513 0) 513 idle_keys)));
      reflexivity.
Defined.

(** ** What is bound when a draw is issued *)

(** X21 (main, the loop body).  Every frame issues its draws in the state
    of its pass, whatever was bound before: the five cubes and the quad
    into the g-buffer with the g-buffer pipeline, their own vertex array
    and the three asset textures at the units 0 to 2; the one draw of the
    lighting pass into the final colour framebuffer with the lighting
    pipeline, the empty vertex array, and the g-buffer textures and the
    sky at the units 0 to 4.  The geometry pass leaves the units 3 and 4
    as it finds them, so from the second frame on the depth texture of
    the g-buffer is still bound to unit 3 while the g-buffer, to which it
    is attached, is drawn into. *)
Theorem frame_draws_in_pass_state (W : world) (camera_projection : glm.mat4)
    (fov : GLfloat) (inputs : list frame_input) (r : option Z) (s' : gl_state)
    (i next : frame_input) (b : bindings) :
  main W camera_projection fov inputs initial_state = (Ok r, s') ->
  let h := startup_handles (next_name initial_state) in
  let after := snd (draw_bindings b (frame_calls W fov h i)) in
  map pass_state (fst (draw_bindings b (frame_calls W fov h i)))
  = replicate 5 (geometry_state h (vao_cube h) b)
    ++ [geometry_state h (vao_quad h) b; lighting_state h (fb_finalcolor h)]
  /\ pass_state after = lighting_state h 0
  /\ map pass_state (fst (draw_bindings after (frame_calls W fov h next)))
     = replicate 5 (fb_gbuffer h, pr_g h, vao_cube h,
                    [Some (texture_cube_diffuse h); Some (texture_cube_specular h);
                     Some (texture_cube_normal h); Some (texture_gbuffer_depth h);
                     Some (texture_skybox h)])
       ++ [(fb_gbuffer h, pr_g h, vao_quad h,
            [Some (texture_cube_diffuse h); Some (texture_cube_specular h);
             Some (texture_cube_normal h); Some (texture_gbuffer_depth h);
             Some (texture_skybox h)]);
           lighting_state h (fb_finalcolor h)]
  /\ In (glNamedFramebufferTexture (fb_gbuffer h) GL_DEPTH_ATTACHMENT
                                   (texture_gbuffer_depth h) 0)
        (calls s').
Proof.
  intros Hmain h after. subst after.
  split; [reflexivity|]. split; [reflexivity|]. split; [reflexivity|].
  apply run_calls in Hmain as [_ ->]. fold h.
  apply in_or_app. left. unfold startup_calls.
  do 10 (apply in_or_app; right). apply in_or_app. left.
  by apply lookup_In with 5%nat.
Qed.

Lemma frame_draws_in_pass_state_witness :
  let h := startup_handles (next_name initial_state) in
  map pass_state (fst (draw_bindings nothing_bound
                         (frame_calls demo_world glm.f1 h (demo_frame None))))
  = replicate 5 (1, 2, 2, [Some 1; Some 2; Some 3; None; None])
    ++ [(1, 2, 3, [Some 1; Some 2; Some 3; None; None]);
        (2, 1, 1, [Some 6; Some 7; Some 8; Some 9; Some 4])].
Proof.
  assert (Hrun : main demo_world demo_matrix glm.f1 demo_inputs initial_state
                 = (Ok (Some 0),
                    snd (main demo_world demo_matrix glm.f1 demo_inputs initial_state)))
    by (vm_compute; reflexivity).
  exact (proj1 (frame_draws_in_pass_state demo_world demo_matrix glm.f1 demo_inputs
                  (Some 0) _ (demo_frame None) (demo_frame None) nothing_bound Hrun)).
Defined.

(** ** Vertex layout *)

(** X22 (type_to_size_enum, create_attrib_format, vertex_t).  For each
    of the six types it knows, [create_attrib_format] yields a format
    with the given index and offset, one to four components, and a
    component type of four bytes; for any other type it throws.  The four
    formats [main] builds cover the 44 bytes of a [vertex_t] exactly, in
    order, without a gap or an overlap, and have the indices 0 to 3. *)
Theorem attrib_formats_cover_vertex (T : attrib_type) (index offset : GLuint) (s : gl_state) :
  match T with
  | AT_other => create_attrib_format T index offset s = (Throw "unsupported type", s)
  | _ => exists f : attrib_format_t,
           create_attrib_format T index offset s = (Ok f, s)
           /\ attrib_index f = index
           /\ relative_offset f = offset
           /\ 1 <= size f <= 4
           /\ component_bytes (type f) = Some 4
  end
  /\ tiles 0 (sizeof (T := vertex_t)) vertex_format = true
  /\ map attrib_index vertex_format = [0; 1; 2; 3]
  /\ exists s' : gl_state,
       (f0 <- create_attrib_format AT_vec3 0 0 ;;
        f1 <- create_attrib_format AT_vec3 1 12 ;;
        f2 <- create_attrib_format AT_vec3 2 24 ;;
        f3 <- create_attrib_format AT_vec2 3 36 ;;
        ret [f0; f1; f2; f3]) s = (Ok vertex_format, s').
Proof.
  split; [|split; [reflexivity|split; [reflexivity|by exists s]]].
  destruct T; try reflexivity;
    (eexists; split; [reflexivity|]; cbn [attrib_index relative_offset size type fst snd];
     repeat split; (reflexivity || lia)).
Qed.
